(** * Read_HDF5: the EDX compiler and the HDF5 reader, embedded and verified

    The development follows the two source files of the repository:
    [packages/compilers/compile_edx.py] (ingest of Bruker .spx files) and
    [packages/readers/read_hdf5.py] (grid assembly and compaction).

    Part I holds the embedding (Python builtins that the code relies on, the
    XML element tree, the HDF5 store, then the functions of the two files);
    Part II holds the theorems. *)

From Stdlib Require Import String Ascii List ZArith Lia Bool.
From Stdlib Require Import Floats.PrimFloat.
From Stdlib Require Import Numbers.Cyclic.Int63.Uint63.
Import ListNotations.

Set Warnings "-register-all".

Open Scope string_scope.
Open Scope Z_scope.

(* ================================================================= *)
(** * Part I: the embedding *)
(* ================================================================= *)

(** ** Python builtins used by the sources *)

Module Py.

(** Exceptions the modelled code can raise. *)
Inductive exn : Type :=
| KeyError
| ValueError
| TypeError
| UnboundLocalError
| AttributeError
| StoreError.

(** A call either returns a value or raises. *)
Inductive res (A : Type) : Type :=
| Ok (a : A)
| Raise (e : exn).
Arguments Ok {A} a.
Arguments Raise {A} e.

Definition bind {A B : Type} (c : res A) (k : A -> res B) : res B :=
  match c with
  | Ok a => k a
  | Raise e => Raise e
  end.

Definition of_option {A : Type} (e : exn) (o : option A) : res A :=
  match o with
  | Some a => Ok a
  | None => Raise e
  end.

(** A loop whose body may raise: left to right, stopping at the first
    exception. *)
Fixpoint foldM {A S : Type} (body : A -> S -> res S) (l : list A) (s : S) : res S :=
  match l with
  | [] => Ok s
  | a :: l' => bind (body a s) (foldM body l')
  end.

(** A list comprehension whose element expression may raise. *)
Fixpoint mapM {A B : Type} (f : A -> res B) (l : list A) : res (list B) :=
  match l with
  | [] => Ok []
  | a :: l' => bind (f a) (fun b => bind (mapM f l') (fun bs => Ok (b :: bs)))
  end.

(** [c in s] for a single character. *)
Fixpoint str_mem (c : ascii) (s : string) : bool :=
  match s with
  | "" => false
  | String d s' => Ascii.eqb c d || str_mem c s'
  end.

(** [sub in s]: substring test. *)
Fixpoint contains (sub s : string) : bool :=
  match s with
  | "" => prefix sub ""
  | String _ s' => prefix sub s || contains sub s'
  end.

(** [s.startswith(p)]. *)
Definition startswith (s p : string) : bool := prefix p s.

(** [s.split(sep)] for a non-empty [sep] (every call site passes a literal):
    scan left to right, cut at each occurrence of [sep], resume after it.
    [skip] counts the characters of a matched separator still to be dropped.
    The result is the first piece and the list of the pieces after it. *)
Fixpoint split_from (sep : string) (skip : nat) (s : string) : string * list string :=
  match s with
  | "" => ("", [])
  | String c s' =>
      match skip with
      | S k => split_from sep k s'
      | O =>
          if prefix sep s
          then ("", let (p, ps) := split_from sep (String.length sep - 1) s' in p :: ps)
          else let (p, ps) := split_from sep 0 s' in (String c p, ps)
      end
  end.

Definition split (s sep : string) : list string :=
  let (p, ps) := split_from sep 0 s in p :: ps.

(** [l[0]] and [l[-1]] on the result of a split, which is never empty. *)
Definition first_item (l : list string) : string := hd "" l.
Definition last_item (l : list string) : string := last l "".

(** [s.replace(old, new)] for a non-empty [old]: every non-overlapping
    occurrence, left to right. *)
Fixpoint replace_from (old new : string) (skip : nat) (s : string) : string :=
  match s with
  | "" => ""
  | String c s' =>
      match skip with
      | S k => replace_from old new k s'
      | O =>
          if prefix old s
          then new ++ replace_from old new (String.length old - 1) s'
          else String c (replace_from old new 0 s')
      end
  end.

Definition replace (s old new : string) : string := replace_from old new 0 s.

(** [s.lower()] on ASCII letters. *)
Definition lower_ascii (c : ascii) : ascii :=
  let n := nat_of_ascii c in
  if (Nat.leb 65 n && Nat.leb n 90)%bool then ascii_of_nat (n + 32) else c.

Fixpoint lower (s : string) : string :=
  match s with
  | "" => ""
  | String c s' => String (lower_ascii c) (lower s')
  end.

(** White space as [int()] strips it (ASCII range). *)
Definition is_space (c : ascii) : bool :=
  let n := nat_of_ascii c in
  ((Nat.leb 9 n && Nat.leb n 13) || (Nat.leb 28 n && Nat.leb n 32))%bool.

Fixpoint lstrip (s : string) : string :=
  match s with
  | "" => ""
  | String c s' => if is_space c then lstrip s' else s
  end.

Fixpoint rstrip (s : string) : string :=
  match s with
  | "" => ""
  | String c s' =>
      match rstrip s' with
      | "" => if is_space c then "" else String c ""
      | r => String c r
      end
  end.

Definition strip (s : string) : string := rstrip (lstrip s).

Definition is_digit (c : ascii) : bool :=
  let n := nat_of_ascii c in (Nat.leb 48 n && Nat.leb n 57)%bool.

Definition digit_val (c : ascii) : Z := Z.of_nat (nat_of_ascii c) - 48.

(** The digits of an integer literal: one or more digits, single underscores
    allowed between two digits. [after_digit] tells whether the previous
    character was a digit. *)
Fixpoint int_digits (acc : Z) (after_digit : bool) (s : string) : option Z :=
  match s with
  | "" => if after_digit then Some acc else None
  | String c r =>
      if is_digit c then int_digits (10 * acc + digit_val c) true r
      else if (Ascii.eqb c "_" && after_digit)%bool then int_digits acc false r
      else None
  end.

(** [int(s)] in base 10 on ASCII text; Python integers are unbounded.
    (CPython's configurable limit on the number of digits is outside the
    model.) *)
Definition int_of_str (s : string) : res Z :=
  of_option ValueError
    match strip s with
    | String "+" r => int_digits 0 false r
    | String "-" r => option_map Z.opp (int_digits 0 false r)
    | r => int_digits 0 false r
    end.

Definition digit_char (d : Z) : ascii := ascii_of_nat (Z.to_nat (48 + d)).

(** Decimal digits of a non-negative integer, most significant first. *)
Fixpoint str_of_nonneg (fuel : nat) (n : Z) : string :=
  match fuel with
  | O => ""
  | S f =>
      if n <? 10 then String (digit_char n) ""
      else str_of_nonneg f (n / 10) ++ String (digit_char (n mod 10)) ""
  end.

(** [str(n)] for an integer. The fuel exceeds the number of digits. *)
Definition str_of_int (n : Z) : string :=
  let m := Z.abs n in
  let digits := str_of_nonneg (S (Z.to_nat (Z.log2 m))) m in
  if n <? 0 then String "-" digits else digits.

End Py.

Import Py.

Notation "x <- c ;; k" := (bind c (fun x => k))
  (at level 61, c at next level, right associativity).

Notation "' pat <- c ;; k" := (bind c (fun x => match x with pat => k end))
  (at level 61, pat pattern, c at next level, right associativity).

(** ** Python values and dictionaries *)

(** The values that occur in the normalized tree and in the store: [None],
    text, floats, and dictionaries.  A dictionary keeps its keys in
    insertion order and holds each key once. *)
Inductive pyval : Type :=
| VNone
| VStr (s : string)
| VFloat (f : float)
| VDict (d : list (string * pyval)).

Definition dict : Type := list (string * pyval).

(** [d[k]] as a lookup. *)
Fixpoint dict_get (k : string) (d : dict) : option pyval :=
  match d with
  | [] => None
  | (k', v) :: d' => if String.eqb k k' then Some v else dict_get k d'
  end.

(** [d[k] = v]: an existing key keeps its place, a new key goes last. *)
Fixpoint dict_set (k : string) (v : pyval) (d : dict) : dict :=
  match d with
  | [] => [(k, v)]
  | (k', v') :: d' =>
      if String.eqb k k' then (k, v) :: d' else (k', v') :: dict_set k v d'
  end.

(** [x in l] for a list of strings. *)
Definition in_list (x : string) (l : list string) : bool :=
  existsb (String.eqb x) l.

(** [v[k]] on a value. *)
Definition subscript (v : pyval) (k : string) : res pyval :=
  match v with
  | VDict d => of_option KeyError (dict_get k d)
  | _ => Raise TypeError
  end.

(** The float of a Python integer (below 2^63 in absolute value, which
    covers list lengths and the literals of the sources). *)
Definition float_of_int (n : Z) : float :=
  if n <? 0 then PrimFloat.opp (PrimFloat.of_uint63 (Uint63.of_Z (- n)))
  else PrimFloat.of_uint63 (Uint63.of_Z n).

Fixpoint repeat_str (s : string) (n : nat) : string :=
  match n with
  | O => ""
  | S k => s ++ repeat_str s k
  end.

(** [n * v] and [v * n] for an integer [n]: a float is multiplied, text is
    repeated, anything else raises. *)
Definition int_times (n : Z) (v : pyval) : res pyval :=
  match v with
  | VFloat f => Ok (VFloat (PrimFloat.mul (float_of_int n) f))
  | VStr s => Ok (VStr (repeat_str s (Z.to_nat n)))
  | _ => Raise TypeError
  end.

Definition times_int (v : pyval) (n : Z) : res pyval :=
  match v with
  | VFloat f => Ok (VFloat (PrimFloat.mul f (float_of_int n)))
  | VStr s => Ok (VStr (repeat_str s (Z.to_nat n)))
  | _ => Raise TypeError
  end.

(** [v + w]. *)
Definition plus (v w : pyval) : res pyval :=
  match v, w with
  | VFloat f, VFloat g => Ok (VFloat (PrimFloat.add f g))
  | VStr s, VStr t => Ok (VStr (s ++ t))
  | _, _ => Raise TypeError
  end.

(** ** The hierarchical store (h5py groups and datasets) *)

Module h5py.

(** A dataset holds a value, a group holds named members, both carry
    attributes.  Members are listed in the order in which the store
    enumerates them; a name occurs once. *)
Inductive node : Type :=
| Dataset (data : pyval) (attrs : dict)
| Group (members : list (string * node)) (attrs : dict).

Definition members : Type := list (string * node).

Fixpoint get (name : string) (m : members) : option node :=
  match m with
  | [] => None
  | (k, n) :: m' => if String.eqb name k then Some n else get name m'
  end.

(** [name in group]. *)
Definition mem (name : string) (m : members) : bool :=
  match get name m with
  | Some _ => true
  | None => false
  end.

(** [group.keys()]. *)
Definition keys (m : members) : list string := map fst m.

(** [group[name]]. *)
Definition getitem (name : string) (m : members) : res node :=
  of_option KeyError (get name m).

(** The members of [group[name]], which has to be a group. *)
Definition getgroup (name : string) (m : members) : res members :=
  match get name m with
  | Some (Group ms _) => Ok ms
  | Some (Dataset _ _) => Raise TypeError
  | None => Raise KeyError
  end.

(** A new link [name] to [n]; the name has to be free. *)
Definition link (name : string) (n : node) (m : members) : res members :=
  if mem name m then Raise StoreError else Ok (m ++ [(name, n)])%list.

Definition create_group (name : string) (m : members) : res members :=
  link name (Group [] []) m.

(** What a dataset can be made of. *)
Definition storable (v : pyval) : bool :=
  match v with
  | VFloat _ | VStr _ => true
  | VNone | VDict _ => false
  end.

(** [group.create_dataset(name, data=v)] and [group[name] = v]. *)
Definition create_dataset (name : string) (v : pyval) (m : members) : res members :=
  if storable v then link name (Dataset v []) m else Raise TypeError.

(** [del group[name]]. *)
Definition unlink (name : string) (m : members) : res members :=
  if mem name m
  then Ok (filter (fun e => negb (String.eqb (fst e) name)) m)
  else Raise KeyError.

(** The member [name] replaced by [n], in place. *)
Fixpoint put (name : string) (n : node) (m : members) : members :=
  match m with
  | [] => []
  | (k, x) :: m' => if String.eqb name k then (k, n) :: m' else (k, x) :: put name n m'
  end.

Definition attrs_of (n : node) : dict :=
  match n with
  | Dataset _ a => a
  | Group _ a => a
  end.

(** [n.attrs[k]]. *)
Definition get_attr (k : string) (n : node) : res pyval :=
  of_option KeyError (dict_get k (attrs_of n)).

(** [n.attrs[k] = v]. *)
Definition set_attr (k : string) (v : pyval) (n : node) : node :=
  match n with
  | Dataset d a => Dataset d (dict_set k v a)
  | Group ms a => Group ms (dict_set k v a)
  end.

(** [group[name].attrs[k] = v]. *)
Definition set_member_attr (name k : string) (v : pyval) (m : members) : res members :=
  n <- getitem name m ;;
  Ok (put name (set_attr k v n) m).

(** [ds[()]]: the value of a dataset. *)
Definition value_of (n : node) : res pyval :=
  match n with
  | Dataset d _ => Ok d
  | Group _ _ => Raise TypeError
  end.

(** [n[name]] for a node reached in the file: only a group has members. *)
Definition child (name : string) (n : node) : res node :=
  match n with
  | Group ms _ => getitem name ms
  | Dataset _ _ => Raise ValueError
  end.

(** [n.keys()] as the members themselves. *)
Definition members_of (n : node) : res members :=
  match n with
  | Group ms _ => Ok ms
  | Dataset _ _ => Raise AttributeError
  end.

(** [h5f[path]]: the components of the path are followed from the root; "."
    and empty components stay in place; a component that is missing, or that
    is looked up inside a dataset, is a [KeyError]. *)
Fixpoint walk (names : list string) (n : node) : res node :=
  match names with
  | [] => Ok n
  | name :: rest =>
      if (String.eqb name "" || String.eqb name ".")%bool then walk rest n
      else
        match n with
        | Group ms _ => c <- getitem name ms ;; walk rest c
        | Dataset _ _ => Raise KeyError
        end
  end.

Definition open_path (root : members) (path : string) : res node :=
  walk (split path "/") (Group root []).

End h5py.

(** ** xml.etree.ElementTree elements *)

Module xml.

Inductive Element : Type :=
| Elem (tag : string) (attrib : list (string * string)) (text : option string)
       (children : list Element).

Definition tag (e : Element) : string := let (t, _, _, _) := e in t.
Definition attrib (e : Element) : list (string * string) := let (_, a, _, _) := e in a.
Definition text (e : Element) : option string := let (_, _, x, _) := e in x.
Definition children (e : Element) : list Element := let (_, _, _, c) := e in c.

(** [e.attrib[k]]. *)
Fixpoint attrib_get (k : string) (a : list (string * string)) : res string :=
  match a with
  | [] => Raise KeyError
  | (k', v) :: a' => if String.eqb k k' then Ok v else attrib_get k a'
  end.

(** [e.iter()]: the element, then its descendants, in document order. *)
Fixpoint iter (e : Element) : list Element :=
  e :: (fix iter_all (l : list Element) : list Element :=
          match l with
          | [] => []
          | c :: l' => iter c ++ iter_all l'
          end)%list (children e).

End xml.

(** ** packages/compilers/compile_edx.py *)

Module compile_edx.

Import xml.

Definition parse_ignore : list string :=
  [""; "DetLayers"; "ShiftData"; "PPRTData"; "ResponseFunction"; "Channels";
   "WindowLayers"].

(** The loop over [item.iter()] that binds [parent_name] at each "Atom"
    element: the last one wins, an "Atom" without text raises on the string
    concatenation, and [None] is a name still unbound. *)
Fixpoint atom_name (item_tag : string) (l : list Element)
    (parent_name : option string) : res (option string) :=
  match l with
  | [] => Ok parent_name
  | child :: l' =>
      if String.eqb (tag child) "Atom" then
        match text child with
        | Some t => atom_name item_tag l' (Some (item_tag ++ " " ++ t))
        | None => Raise TypeError
        end
      else atom_name item_tag l' parent_name
  end.

(** The key under which [visit_items] files an element. *)
Definition parent_name_of (item : Element) : res string :=
  if String.eqb (tag item) "ClassInstance" then
    ty <- attrib_get "Type" (attrib item) ;;
    if String.eqb ty "TRTPSEElement" then
      nm <- attrib_get "Name" (attrib item) ;;
      Ok (ty ++ " " ++ nm)
    else Ok ty
  else if (String.eqb (tag item) "Result" || String.eqb (tag item) "ExtResults")%bool then
    bound <- atom_name (tag item) (iter item) None ;;
    of_option UnboundLocalError bound
  else Ok (tag item).

Definition text_value (e : Element) : pyval :=
  match text e with
  | Some t => VStr t
  | None => VNone
  end.

(** [edx_dict[parent_name][key] = v]. *)
Definition set_nested (edx_dict : dict) (parent_name key : string) (v : pyval) : res dict :=
  match dict_get parent_name edx_dict with
  | None => Raise KeyError
  | Some (VDict inner) => Ok (dict_set parent_name (VDict (dict_set key v inner)) edx_dict)
  | Some _ => Raise TypeError
  end.

(** How a call ends; the dictionary it worked on is mutated in place, so
    its content after the call is reported in both cases. *)
Inductive outcome : Type :=
| Returned
| Raised (e : exn).

(** The loop over the children of [item], with [visit] for the recursive
    call. *)
Definition children_loop (visit : Element -> dict -> outcome * dict)
    (parent_name : string) : list Element -> dict -> outcome * dict :=
  fix loop (l : list Element) (edx_dict : dict) : outcome * dict :=
    match l with
    | [] => (Returned, edx_dict)
    | child :: l' =>
        if in_list (tag child) parse_ignore then loop l' edx_dict
        else
          match children child with
          | [] =>
              match set_nested edx_dict parent_name (tag child) (text_value child) with
              | Ok d => loop l' d
              | Raise e => (Raised e, edx_dict)
              end
          | _ :: _ =>
              match visit child edx_dict with
              | (Returned, d) => loop l' d
              | (Raised e, d) => (Raised e, d)
              end
          end
    end.

(** [visit_items(item, edx_dict)]: the accumulator is one object, updated in
    place and handed back; the second component is its content when the
    call ends. *)
Fixpoint visit_items (item : Element) (edx_dict : dict) : outcome * dict :=
  match parent_name_of item with
  | Raise e => (Raised e, edx_dict)
  | Ok parent_name =>
      match item with
      | Elem _ _ _ cs =>
          children_loop visit_items parent_name cs
            (dict_set parent_name (VDict []) edx_dict)
      end
  end.

(** The parameter default [edx_dict={}] is evaluated once, when the [def]
    statement runs: one dictionary object serves every call that omits the
    argument.  [shared] is the content of that object; a call without the
    argument works on it and returns it, a call with an argument leaves it
    alone. *)
Definition empty_default : dict := [].

Definition call_visit_items (item : Element) (edx_dict : option dict) (shared : dict)
    : (outcome * dict) * dict :=
  match edx_dict with
  | Some d => (visit_items item d, shared)
  | None => let r := visit_items item shared in (r, snd r)
  end.

(** The list comprehension of [get_channels] on the text of one element. *)
Definition channel_counts (text : string) : res (list Z) :=
  mapM int_of_str (split text ",").

(** [get_channels]: every "Channels" element of the document, the root
    included, rebinds [channels]; the last one stays.  An element without
    text has no [split]. *)
Definition get_channels (xml_root : Element) : res (list Z) :=
  foldM (fun (elm : Element) (channels : list Z) =>
           if String.eqb (tag elm) "Channels" then
             match text elm with
             | Some t => channel_counts t
             | None => Raise AttributeError
             end
           else Ok channels)
        (iter xml_root) [].

(** A [pathlib.Path] is observed through its [name] attribute only. *)
Record Path : Type := { name : string }.

(** What a caller can pass as [filepath]. *)
Inductive filepath_arg : Type :=
| FStr (s : string)
| FPath (p : Path)
| FOther.

Definition filename_of (filepath : filepath_arg) : res string :=
  match filepath with
  | FStr s => Ok (last_item (split s "/"))
  | FPath p => Ok (name p)
  | FOther => Raise TypeError
  end.

(** [get_scan_numbers]: the two indices written between the last "(" and
    the next ")" of the file name, before ".spx". *)
Definition get_scan_numbers (filepath : filepath_arg) : res (Z * Z) :=
  filename <- filename_of filepath ;;
  match split
          (first_item
             (split (last_item (split (first_item (split filename ".spx")) "(")) ")"))
          ","
  with
  | [x_idx; y_idx] =>
      x <- int_of_str x_idx ;;
      y <- int_of_str y_idx ;;
      Ok (x, y)
  | _ => Raise ValueError
  end.

(** [get_wafer_positions]: the keyword parameters are optional; [None]
    stands for an omitted argument, which takes the default of the
    signature. *)
Definition get_wafer_positions (scan_numbers : Z * Z)
    (step_x step_y start_x start_y : option Z) : Z * Z :=
  let step_x := match step_x with Some v => v | None => 5 end in
  let step_y := match step_y with Some v => v | None => 5 end in
  let start_x := match start_x with Some v => v | None => -40 end in
  let start_y := match start_y with Some v => v | None => -40 end in
  let (x_idx, y_idx) := scan_numbers in
  ((x_idx - 1) * step_x + start_x, (y_idx - 1) * step_y + start_y).

Definition dict_units : list (string * string) :=
  [ ("PrimaryEnergy", "keV");
    ("WorkingDistance", "mm");
    ("CalibAbs", "keV");
    ("CalibLin", "keV");
    ("DetectorTemperature", "°C");
    ("DetectorThickness", "mm");
    ("SiDeadLayerThickness", "mm");
    ("AtomPercent", "at.%");
    ("MassPercent", "mass.%") ].

(** [get_units(key)]; [None] is Python's [None]. *)
Fixpoint lookup_unit (key : string) (table : list (string * string)) : option string :=
  match table with
  | [] => None
  | (k, u) :: table' => if String.eqb key k then Some u else lookup_unit key table'
  end.

Definition get_units (key : string) : option string := lookup_unit key dict_units.

(** Modelled from the spec: [get_all_keys] is imported from
    [packages.compilers.compile_hdf5], which is not among the sources.  The
    specification describes it as a depth-first pre-order traversal of the
    full tree that yields every (key, value) pair, those of all nested
    mappings included. *)
Fixpoint pairs_under (v : pyval) : list (string * pyval) :=
  match v with
  | VDict d =>
      (fix walk (l : list (string * pyval)) : list (string * pyval) :=
         match l with
         | [] => []
         | (k, x) :: l' => ((k, x) :: pairs_under x ++ walk l')%list
         end) d
  | _ => []
  end.

Definition get_all_keys (d : dict) : list (string * pyval) := pairs_under (VDict d).

(** What [set_instrument_and_result_from_dict] works on: the two groups it
    is handed.  The subgroup it writes the fields of a mapping into is a
    member of one of them. *)
Record groups : Type := { instrument_group : h5py.members; result_group : h5py.members }.

Inductive owner : Type :=
| InInstrument
| InResults.

Definition subgroup : Type := (owner * string)%type.

Definition owner_members (o : owner) (st : groups) : h5py.members :=
  match o with
  | InInstrument => instrument_group st
  | InResults => result_group st
  end.

Definition with_owner (o : owner) (m : h5py.members) (st : groups) : groups :=
  match o with
  | InInstrument => {| instrument_group := m; result_group := result_group st |}
  | InResults => {| instrument_group := instrument_group st; result_group := m |}
  end.

(** An update of the members of the subgroup [h]. *)
Definition in_subgroup (h : subgroup) (f : h5py.members -> res h5py.members)
    (st : groups) : res groups :=
  let (o, name) := h in
  match h5py.get name (owner_members o st) with
  | Some (h5py.Group ms a) =>
      ms' <- f ms ;;
      Ok (with_owner o (h5py.put name (h5py.Group ms' a) (owner_members o st)) st)
  | Some (h5py.Dataset _ _) => Raise TypeError
  | None => Raise KeyError
  end.

Section Ingest.

(** [convertFloat] is imported from [packages.compilers.compile_hdf5], which
    is not among the sources: it is a parameter here.  [format_other] is the
    text of a value that is neither a string nor [None] in an f-string. *)
Variable convertFloat : pyval -> pyval.
Variable format_other : pyval -> string.

(** [f"{v}"]. *)
Definition format_value (v : pyval) : string :=
  match v with
  | VStr s => s
  | VNone => "None"
  | _ => format_other v
  end.

(** The four-way choice of the destination subgroup for the mapping [value]
    found under [key]. *)
Definition dispatch (key : string) (value : dict) (st : groups) : res (subgroup * groups) :=
  if (startswith key "Result" || String.eqb key "TRTResult")%bool then
    rg <- h5py.create_group key (result_group st) ;;
    Ok ((InResults, key), with_owner InResults rg st)
  else if startswith key "ExtResults" then
    atom <- of_option KeyError (dict_get "Atom" value) ;;
    let name := "Result " ++ format_value atom in
    _ <- h5py.getitem name (result_group st) ;;
    st1 <- in_subgroup (InResults, name) (h5py.unlink "Atom") st ;;
    Ok ((InResults, name), st1)
  else if startswith key "TRTPSEElement" then
    element <- of_option KeyError (dict_get "Element" value) ;;
    let old_key := "Result " ++ format_value element in
    tmp_group <- h5py.getitem old_key (result_group st) ;;
    let new_key := "Element " ++ replace key "TRTPSEElement " "" in
    rg1 <- h5py.link new_key tmp_group (result_group st) ;;
    rg2 <- h5py.unlink old_key rg1 ;;
    st2 <- in_subgroup (InResults, new_key) (h5py.unlink "Atom")
             (with_owner InResults rg2 st) ;;
    Ok ((InResults, new_key), st2)
  else
    let name := replace key "TRT" "" in
    ig <- h5py.create_group name (instrument_group st) ;;
    Ok ((InInstrument, name), with_owner InInstrument ig st).

(** The body of the loop over the fields of a mapping. *)
Definition write_field (h : subgroup) (subkey : string) (subvalue : pyval)
    (st : groups) : res groups :=
  match subvalue with
  | VNone => Ok st
  | _ =>
      data <- (if (String.eqb subkey "AtomPercent" || String.eqb subkey "MassPercent")%bool
               then times_int (convertFloat subvalue) 100
               else Ok (convertFloat subvalue)) ;;
      st1 <- in_subgroup h (h5py.create_dataset subkey data) st ;;
      match get_units subkey with
      | Some u => in_subgroup h (h5py.set_member_attr subkey "units" (VStr u)) st1
      | None => Ok st1
      end
  end.

(** The body of the loop over the pairs of the tree. *)
Definition process_pair (key : string) (value : pyval) (st : groups) : res groups :=
  match value with
  | VDict [] => Ok st
  | VDict d =>
      '(h, st1) <- dispatch key d st ;;
      foldM (fun kv => write_field h (fst kv) (snd kv)) (get_all_keys d) st1
  | _ => Ok st
  end.

Definition set_instrument_and_result_from_dict (edx_dict : dict) (st : groups) : res groups :=
  foldM (fun kv => process_pair (fst kv) (snd kv)) (get_all_keys edx_dict) st.

(** [make_energy_dataset]: one energy per pair of channels. *)
Definition make_energy_dataset (edx_dict : dict) (channels : list Z) : res (list pyval) :=
  header <- of_option KeyError (dict_get "TRTSpectrumHeader" edx_dict) ;;
  calib_abs <- subscript header "CalibAbs" ;;
  let zero_energy := convertFloat calib_abs in
  header <- of_option KeyError (dict_get "TRTSpectrumHeader" edx_dict) ;;
  calib_lin <- subscript header "CalibLin" ;;
  let energy_step := convertFloat calib_lin in
  mapM (fun i => scaled <- int_times (Z.of_nat i + 1) energy_step ;; plus scaled zero_energy)
       (seq 0 (length channels / 2)).

End Ingest.

End compile_edx.

(** ** packages/readers/read_hdf5.py *)

Module read_hdf5.

Import h5py.

(** [v == s] for an attribute value and a string. *)
Definition is_str (v : pyval) (s : string) : bool :=
  match v with
  | VStr t => String.eqb t s
  | _ => false
  end.

(** What a function hands back at the public interface: the documented
    object, or a bare integer. *)
Inductive retval (T : Type) : Type :=
| RetInt (n : Z)
| RetObject (t : T).
Arguments RetInt {T} n.
Arguments RetObject {T} t.

(** The edge tests of the two assemblers on a position. *)
Definition edge_full_dataset (x y : float) (exclude_wafer_edges : bool) : bool :=
  (PrimFloat.leb 60 (PrimFloat.add (PrimFloat.abs x) (PrimFloat.abs y))
   && exclude_wafer_edges)%bool.

Definition edge_measurement_data (x y : float) (exclude_wafer_edges : bool) : bool :=
  (PrimFloat.ltb 60 (PrimFloat.add (PrimFloat.abs x) (PrimFloat.abs y))
   && exclude_wafer_edges)%bool.

Section Readers.

(** Builtins on floats that the model takes as given: [round(float(v), 1)] on
    the value of a dataset, [sorted(set(l))] on pairs of floats, and
    [str(round(float(x), 1))]. *)
Variable position_of : pyval -> res float.
Variable sorted_set : list (float * float) -> list (float * float).
Variable coord_text : float -> string.

(** [make_group_path]: the first group of the root whose HT_type is the
    lowered data type. *)
Fixpoint find_start_group (l : members) (data_type : string) : res string :=
  match l with
  | [] => Raise ValueError
  | (group, n) :: l' =>
      ht <- get_attr "HT_type" n ;;
      if is_str ht (lower data_type) then Ok ("./" ++ group)
      else find_start_group l' data_type
  end.

Definition make_group_path (hdf5_file : members) (data_type : string)
    (measurement : option (string * float * float)) : res string :=
  start_group <- find_start_group hdf5_file data_type ;;
  match measurement with
  | None => Ok start_group
  | Some (measurement_type, x_pos, y_pos) =>
      let group := "(" ++ coord_text x_pos ++ "," ++ coord_text y_pos ++ ")" in
      scan <- open_path hdf5_file (start_group ++ "/" ++ group) ;;
      _ <- child (lower measurement_type) scan ;;
      Ok (start_group ++ "/" ++ group ++ "/" ++ lower measurement_type)
  end.

Definition get_all_positions (hdf5_file : members) (data_type : string)
    : res (list (float * float)) :=
  data_group <- make_group_path hdf5_file data_type None ;;
  root <- open_path hdf5_file data_group ;;
  scans <- members_of root ;;
  positions <-
    foldM (fun (entry : string * node) (positions : list (float * float)) =>
             let group := fst entry in
             if in_list group ["scan_parameters"; "alignment_scans"] then Ok positions
             else
               instrument <- open_path hdf5_file (data_group ++ "/" ++ group ++ "/instrument") ;;
               x_pos <- child "x_pos" instrument ;;
               x_val <- value_of x_pos ;;
               x <- position_of x_val ;;
               y_pos <- child "y_pos" instrument ;;
               y_val <- value_of y_pos ;;
               y <- position_of y_val ;;
               Ok (positions ++ [(x, y)])%list)
          scans [] ;;
  Ok (sorted_set positions).

Definition get_position_units (hdf5_file : members) (data_type : string)
    : res (pyval * pyval) :=
  root_group <- make_group_path hdf5_file data_type None ;;
  root <- open_path hdf5_file root_group ;;
  origin <- child "(0.0,0.0)" root ;;
  instrument <- child "instrument" origin ;;
  x_pos <- child "x_pos" instrument ;;
  x_units <- get_attr "units" x_pos ;;
  y_pos <- child "y_pos" instrument ;;
  y_units <- get_attr "units" y_pos ;;
  Ok (x_units, y_units).

(** The loop of an assembler over the positions: [continue] on the edge
    test, the rest of the body otherwise. *)
Definition positions_loop {E : Type} (edge : float -> float -> bool)
    (step : float -> float -> E -> res E) (positions : list (float * float)) (env : E)
    : res E :=
  foldM (fun (pos : float * float) (env : E) =>
           let (x, y) := pos in
           if edge x y then Ok env else step x y env)
        positions env.

(** The readers of the three categories and the labelled arrays are outside
    the sources.  [E] holds the local variables of an assembler; each step
    stands for the body of a loop after the edge test, [finish] for what
    follows the loops. *)
Variable E : Type.
Variable T : Type.
Variable start : list (float * float) -> E.
Variable edx_step moke_step xrd_step : members -> float -> float -> E -> res E.
Variable finish_full : pyval * pyval -> E -> res T.

Definition get_full_dataset (hdf5_file : members) (exclude_wafer_edges : bool) : res T :=
  positions <- get_all_positions hdf5_file "EDX" ;;
  position_units <- get_position_units hdf5_file "EDX" ;;
  env <- positions_loop (fun x y => edge_full_dataset x y exclude_wafer_edges)
           (edx_step hdf5_file) positions (start positions) ;;
  positions <- get_all_positions hdf5_file "MOKE" ;;
  env <- positions_loop (fun x y => edge_full_dataset x y exclude_wafer_edges)
           (moke_step hdf5_file) positions env ;;
  positions <- get_all_positions hdf5_file "XRD" ;;
  env <- positions_loop (fun x y => edge_full_dataset x y exclude_wafer_edges)
           (xrd_step hdf5_file) positions env ;;
  finish_full position_units env.

Variable fresh : E.
Variable measurement_step :
  members -> string -> list (float * float) -> float -> float -> E -> res E.
Variable units_step : string -> pyval * pyval -> E -> res E.
Variable make_tree : E -> T.

Definition invalid_data_type : string :=
  "data_type must be one of 'EDX', 'MOKE', 'XRD' or 'all'.".

(** The part of [get_measurement_data] after the check of [data_type]. *)
Definition measurement_tree (hdf5_file : members) (datatypes : list string)
    (exclude_wafer_edges : bool) : res T :=
  env <-
    foldM (fun (data_type : string) (env : E) =>
             positions <- get_all_positions hdf5_file data_type ;;
             env <- positions_loop
                      (fun x y => edge_measurement_data x y exclude_wafer_edges)
                      (measurement_step hdf5_file data_type positions) positions env ;;
             position_units <- get_position_units hdf5_file data_type ;;
             units_step data_type position_units env)
          datatypes fresh ;;
  Ok (make_tree env).

(** [get_measurement_data]; the second component is what the call printed. *)
Definition get_measurement_data (hdf5_file : members) (data_type : string)
    (exclude_wafer_edges : bool) : res (retval T) * list string :=
  if String.eqb (lower data_type) "all" then
    (t <- measurement_tree hdf5_file ["EDX"; "MOKE"; "XRD"] exclude_wafer_edges ;;
     Ok (RetObject t), [])
  else if negb (in_list (lower data_type) ["edx"; "moke"; "xrd"]) then
    (Ok (RetInt 1), [invalid_data_type])
  else
    (t <- measurement_tree hdf5_file [data_type] exclude_wafer_edges ;;
     Ok (RetObject t), []).

End Readers.

(** *** [create_simplified_dataset] *)

(** An update of the members of the group [name] of [m]. *)
Definition in_group (name : string) (f : members -> res members) (m : members)
    : res members :=
  match get name m with
  | Some (Group ms a) => ms' <- f ms ;; Ok (put name (Group ms' a) m)
  | Some (Dataset _ _) => Raise AttributeError
  | None => Raise KeyError
  end.

(** [try: c except KeyError: handler]. *)
Definition except_KeyError {A : Type} (c : res A) (handler : res A) : res A :=
  match c with
  | Raise KeyError => handler
  | other => other
  end.

Definition group_list : list string := ["edx"; "moke"; "xrd"].

Definition saving_result_list : list string := ["A"; "B"; "C"; "phase_fraction"].

(** [range(-40, 45, 5)]. *)
Definition grid_axis : list Z := map (fun i => -40 + 5 * Z.of_nat i) (seq 0 17).

(** ["{:.1f}".format(float(n))] for an integer [n]. *)
Definition format_1f (n : Z) : string := str_of_int n ++ ".0".

Definition coord_list : list string :=
  flat_map (fun x => map (fun y => "(" ++ format_1f x ++ "," ++ format_1f y ++ ")") grid_axis)
    grid_axis.

Definition not_a_number : pyval := VFloat PrimFloat.nan.

(** The three fills for a coordinate that the category lacks; [results] is
    the results group of the reference position, [node] the coordinate node
    of the output.  (The progress lines that the function prints are left
    out of the model.) *)
Definition fill_edx (datatype : pyval) (results node : members) : res members :=
  foldM (fun (entry : string * h5py.node) (node : members) =>
           let key := fst entry in
           if contains "Element" key then
             let name := last_item (split key " ") in
             node <- create_dataset name not_a_number node ;;
             node <- set_member_attr name "units" (VStr "at.%") node ;;
             set_member_attr name "HT_type" datatype node
           else Ok node)
        results node.

Definition fill_moke (datatype : pyval) (results node : members) : res members :=
  foldM (fun (entry : string * h5py.node) (node : members) =>
           let key := fst entry in
           if String.eqb key "coercivity_m0" then
             node <- create_dataset key not_a_number node ;;
             node <- set_member_attr (last_item (split key " ")) "units"
                       (VStr "Tesla (T)") node ;;
             set_member_attr (last_item (split key " ")) "HT_type" datatype node
           else Ok node)
        results node.

Definition fill_xrd (results : h5py.node) (node : members) : res members :=
  phases_node <- child "phases" results ;;
  phases <- members_of phases_node ;;
  foldM (fun (entry : string * h5py.node) (node : members) =>
           let phase := fst entry in
           foldM (fun (saving_key : string) (node : members) =>
                    fields <- members_of (snd entry) ;;
                    if mem saving_key fields
                    then create_dataset (phase ++ "_" ++ saving_key) not_a_number node
                    else Ok node)
                 saving_result_list node)
        phases node.

Definition fill_missing (h5f : members) (group : string) (datatype : pyval)
    (coord : string) (h5f_save : members) : res members :=
  _ <- getitem coord h5f_save ;;
  reference <- open_path h5f (group ++ "/(0.0,0.0)") ;;
  results_node <- child "results" reference ;;
  if is_str datatype "edx" then
    results <- members_of results_node ;;
    in_group coord (fill_edx datatype results) h5f_save
  else if is_str datatype "moke" then
    results <- members_of results_node ;;
    in_group coord (fill_moke datatype results) h5f_save
  else if is_str datatype "xrd" then
    in_group coord (fill_xrd results_node) h5f_save
  else Ok h5f_save.

Section Compaction.

(** [str(v)] on the value of a dataset. *)
Variable py_str : pyval -> string.

(** The copy of the fields of a coordinate that the category has. *)
Definition copy_edx_field (h5f : members) (group : string) (datatype : pyval)
    (key : string) (entry : h5py.node) (node : members) : res members :=
  let name := last_item (split key " ") in
  let from_reference (node : members) : res members :=
    reference <- open_path h5f (group ++ "/(0.0,0.0)") ;;
    reference_node <- child "results" reference ;;
    reference_results <- members_of reference_node ;;
    match get key reference_results with
    | None => Ok node
    | Some reference_entry =>
        fields <- members_of reference_entry ;;
        if mem "AtomPercent" fields then
          node <- create_dataset name not_a_number node ;;
          atom_percent <- getitem "AtomPercent" fields ;;
          units <- get_attr "units" atom_percent ;;
          node <- set_member_attr name "units" units node ;;
          set_member_attr name "HT_type" datatype node
        else Ok node
    end in
  match (atom_percent <- child "AtomPercent" entry ;; value_of atom_percent) with
  | Raise KeyError => from_reference node
  | Raise e => Raise e
  | Ok v =>
      node <- create_dataset name v node ;;
      match (atom_percent <- child "AtomPercent" entry ;; get_attr "units" atom_percent) with
      | Raise KeyError => from_reference node
      | Raise e => Raise e
      | Ok units =>
          node <- set_member_attr name "units" units node ;;
          set_member_attr name "HT_type" datatype node
      end
  end.

Definition copy_edx (h5f : members) (group : string) (datatype : pyval)
    (results node : members) : res members :=
  foldM (fun (entry : string * h5py.node) (node : members) =>
           if contains "Element" (fst entry)
           then copy_edx_field h5f group datatype (fst entry) (snd entry) node
           else Ok node)
        results node.

Definition copy_moke (datatype : pyval) (results node : members) : res members :=
  foldM (fun (entry : string * h5py.node) (node : members) =>
           let key := fst entry in
           if String.eqb key "coercivity_m0" then
             mean <- child "mean" (snd entry) ;;
             v <- value_of mean ;;
             node <- create_dataset key v node ;;
             node <- set_member_attr key "units" (VStr "Tesla (T)") node ;;
             set_member_attr key "HT_type" datatype node
           else Ok node)
        results node.

Definition copy_measurement (measurement : h5py.node) (path name : string)
    (units : option string) (datatype : pyval) (node : members) : res members :=
  source <- walk (split path "/") measurement ;;
  v <- value_of source ;;
  node <- create_dataset name v node ;;
  node <- match units with
          | Some u => set_member_attr name "units" (VStr u) node
          | None => Ok node
          end ;;
  set_member_attr name "HT_type" datatype node.

Definition copy_xrd (datatype : pyval) (scan : h5py.node) (node : members) : res members :=
  results_node <- walk (split "results/phases" "/") scan ;;
  measurement <- child "measurement" scan ;;
  results <- members_of results_node ;;
  node <-
    foldM (fun (entry : string * h5py.node) (node : members) =>
             let phase := fst entry in
             foldM (fun (result : string) (node : members) =>
                      fields <- members_of (snd entry) ;;
                      match get result fields with
                      | None => Ok node
                      | Some field =>
                          let name := phase ++ "_" ++ result in
                          v <- value_of field ;;
                          node <- create_dataset name
                                    (VStr (first_item (split (strip (py_str v)) "+-"))) node ;;
                          except_KeyError
                            (units <- get_attr "units" field ;;
                             node <- set_member_attr name "units" units node ;;
                             set_member_attr name "HT_type" datatype node)
                            (Ok node)
                      end)
                   saving_result_list node)
          results node ;;
  node <- copy_measurement measurement "CdTe_integrate/intensity" "CdTe_integrate_intensity"
            (Some "arbitrary unit (a.u.)") datatype node ;;
  node <- copy_measurement measurement "CdTe_integrate/q" "CdTe_integrate_q"
            (Some "Angstrom^-1 (A^-1)") datatype node ;;
  copy_measurement measurement "CdTe" "CdTe" None datatype node.

Definition copy_present (h5f : members) (group : string) (datatype : pyval)
    (coord : string) (h5f_save : members) : res members :=
  if is_str datatype "edx" then
    _ <- getitem coord h5f_save ;;
    scan <- open_path h5f (group ++ "/" ++ coord) ;;
    results_node <- child "results" scan ;;
    results <- members_of results_node ;;
    in_group coord (copy_edx h5f group datatype results) h5f_save
  else if is_str datatype "moke" then
    _ <- getitem coord h5f_save ;;
    scan <- open_path h5f (group ++ "/" ++ coord) ;;
    results_node <- child "results" scan ;;
    results <- members_of results_node ;;
    in_group coord (copy_moke datatype results) h5f_save
  else if is_str datatype "xrd" then
    _ <- getitem coord h5f_save ;;
    scan <- open_path h5f (group ++ "/" ++ coord) ;;
    in_group coord (copy_xrd datatype scan) h5f_save
  else Ok h5f_save.

(** The node of a coordinate, made when the coordinate is first met. *)
Definition create_position (instrument : h5py.node) (coord : string)
    (h5f_save : members) : res members :=
  h5f_save <- create_group coord h5f_save ;;
  x_pos <- child "x_pos" instrument ;;
  x_val <- value_of x_pos ;;
  h5f_save <- in_group coord (create_dataset "x_pos" x_val) h5f_save ;;
  y_pos <- child "y_pos" instrument ;;
  y_val <- value_of y_pos ;;
  h5f_save <- in_group coord (create_dataset "y_pos" y_val) h5f_save ;;
  x_units <- get_attr "units" x_pos ;;
  h5f_save <- in_group coord (set_member_attr "x_pos" "units" x_units) h5f_save ;;
  y_units <- get_attr "units" y_pos ;;
  h5f_save <- in_group coord (set_member_attr "y_pos" "units" y_units) h5f_save ;;
  h5f_save <- in_group coord (set_member_attr "x_pos" "HT_type" (VStr "position")) h5f_save ;;
  in_group coord (set_member_attr "y_pos" "HT_type" (VStr "position")) h5f_save.

(** The body of the loop over the coordinates, for one group of the source. *)
Definition coord_step (h5f : members) (group : string) (source : h5py.node)
    (datatype : pyval) (coord : string) (h5f_save : members) : res members :=
  let rest (h5f_save : members) : res members :=
    scans <- members_of source ;;
    if negb (in_list coord (keys scans))
    then fill_missing h5f group datatype coord h5f_save
    else copy_present h5f group datatype coord h5f_save in
  if negb (mem coord h5f_save) then
    match (scan <- open_path h5f (group ++ "/" ++ coord) ;; child "instrument" scan) with
    | Raise KeyError => Ok h5f_save
    | Raise e => Raise e
    | Ok instrument =>
        h5f_save <- create_position instrument coord h5f_save ;;
        rest h5f_save
    end
  else rest h5f_save.

(** [create_simplified_dataset]: the content of the file written. *)
Definition create_simplified_dataset (h5f : members) : res members :=
  foldM (fun (entry : string * h5py.node) (h5f_save : members) =>
           let group := fst entry in
           match get_attr "HT_type" (snd entry) with
           | Raise KeyError => Ok h5f_save
           | Raise e => Raise e
           | Ok datatype =>
               if existsb (is_str datatype) group_list
               then foldM (coord_step h5f group (snd entry) datatype) coord_list h5f_save
               else Ok h5f_save
           end)
        h5f [].

End Compaction.

End read_hdf5.

(** ** Auxiliary predicates used in the statements and proofs *)

(** Does [sep] match in [a ++ rest] at a position inside [a]? *)
Fixpoint occurs_within (sep a rest : string) : bool :=
  match a with
  | "" => false
  | String _ a' => prefix sep (a ++ rest) || occurs_within sep a' rest
  end.

Fixpoint all_digits (s : string) : bool :=
  match s with
  | "" => true
  | String c s' => is_digit c && all_digits s'
  end.

(** The value of a digit string read from the left, starting from [acc]. *)
Fixpoint digits_value (acc : Z) (s : string) : Z :=
  match s with
  | "" => acc
  | String c r => digits_value (10 * acc + digit_val c) r
  end.

(** The children that [visit_items] does not skip, the leaves among them,
    and the children it recurses into. *)
Definition ignored (c : xml.Element) : bool :=
  in_list (xml.tag c) compile_edx.parse_ignore.

Definition is_leaf (c : xml.Element) : bool :=
  match xml.children c with
  | [] => true
  | _ :: _ => false
  end.

Definition non_ignored (cs : list xml.Element) : list xml.Element :=
  filter (fun c => negb (ignored c)) cs.

Definition non_ignored_leaves (cs : list xml.Element) : list xml.Element :=
  filter (fun c => negb (ignored c) && is_leaf c) cs.

Definition entered (c : xml.Element) : bool := negb (ignored c) && negb (is_leaf c).

(** The mapping that a run of leaves writes, one after the other, into [m]. *)
Definition leaf_entries (leaves : list xml.Element) (m : dict) : dict :=
  fold_left (fun m c => dict_set (xml.tag c) (compile_edx.text_value c) m) leaves m.

(** The keys under which a visit of [item] files something: its own key and
    those of the descendants that the recursion enters. *)
Definition names_of_children (names : xml.Element -> list string)
    : list xml.Element -> list string :=
  fix go (l : list xml.Element) : list string :=
    match l with
    | [] => []
    | c :: l' => ((if entered c then names c else []) ++ go l')%list
    end.

Fixpoint visited_names (item : xml.Element) : list string :=
  match item with
  | xml.Elem _ _ _ cs =>
      (match compile_edx.parent_name_of item with
       | Ok p => [p]
       | Raise _ => []
       end ++ names_of_children visited_names cs)%list
  end.

(** The key [q] of [d] holds a mapping. *)
Definition holds_dict (q : string) (d : dict) : Prop :=
  exists m, dict_get q d = Some (VDict m).

(** Sample documents. *)
Definition leaf (tag text : string) : xml.Element := xml.Elem tag [] (Some text) [].

Definition doc_a : xml.Element := xml.Elem "A" [] None [leaf "x" "1"].
Definition doc_b : xml.Element := xml.Elem "B" [] None [leaf "y" "2"].

Definition doc_nested : xml.Element :=
  xml.Elem "Root" [] None [xml.Elem "Child" [] None [leaf "Leaf" "v"]].

Definition doc_spectrum : xml.Element :=
  xml.Elem "ClassInstance" [("Type", "TRTSpectrum"); ("Name", "map")] None
    [ leaf "Date" "3.11.2026";
      xml.Elem "ClassInstance" [("Type", "TRTSpectrumHeader")] None
        [leaf "CalibAbs" "-0.5"; leaf "CalibLin" "0.01"; leaf "Channels" "1,2"];
      xml.Elem "Channels" [] (Some "4,8,15,16") [];
      leaf "Time" "12:00";
      xml.Elem "Result" [] None [leaf "Atom" "26"; leaf "AtomPercent" "0.42"] ].

(** The double nearest to 0.42, which is what [float("0.42")] is. *)
Definition float_0_42 : float := 0x1.ae147ae147ae1p-2%float.

(** A stand-in for [convertFloat] on a few texts, for the examples. *)
Definition convertFloat_sample (v : pyval) : pyval :=
  match v with
  | VStr s =>
      if String.eqb s "0.42" then VFloat float_0_42
      else if String.eqb s "0.0" then VFloat 0%float
      else if String.eqb s "2.0" then VFloat 2%float
      else if String.eqb s "26" then VFloat 26%float
      else v
  | _ => v
  end.

Definition format_sample (v : pyval) : string := "?".

(** A normalized tree and a results group, for the examples. *)
Definition tree_sample : dict :=
  [ ("TRTSpectrumHeader", VDict [("CalibAbs", VStr "0.0"); ("CalibLin", VStr "2.0")]);
    ("Result 26", VDict [("Atom", VStr "26"); ("AtomPercent", VStr "0.42")]);
    ("TRTPSEElement Fe", VDict [("Element", VStr "26")]) ].

Definition results_sample : h5py.members :=
  [ ("Result 26",
     h5py.Group [ ("Atom", h5py.Dataset (VFloat 26) []);
                  ("AtomPercent", h5py.Dataset (VFloat 42) [("units", VStr "at.%")]) ] []) ].

(** A name that a member of a group can have: no separator, and neither
    empty nor the dot. *)
Definition valid_name (s : string) : bool :=
  negb (str_mem "/" s) && negb (String.eqb s "") && negb (String.eqb s ".").







(** A source file with two categories: the composition scans hold the
    origin and (5.0,5.0), the Kerr scans the origin alone; (10.0,10.0) is in
    neither. *)
Definition position_sample (x y : float) : h5py.node :=
  h5py.Group [ ("x_pos", h5py.Dataset (VFloat x) [("units", VStr "mm")]);
               ("y_pos", h5py.Dataset (VFloat y) [("units", VStr "mm")]) ] [].

Definition edx_scan_sample (x y percent : float) : h5py.node :=
  h5py.Group
    [ ("instrument", position_sample x y);
      ("results",
       h5py.Group
         [ ("Element Fe",
            h5py.Group [("AtomPercent", h5py.Dataset (VFloat percent) [("units", VStr "at.%")])]
              []) ] []) ] [].

Definition moke_scan_sample (x y : float) : h5py.node :=
  h5py.Group
    [ ("instrument", position_sample x y);
      ("results",
       h5py.Group
         [ ("coercivity_m0",
            h5py.Group [("mean", h5py.Dataset (VFloat 0.5) [("units", VStr "mT")])]
              [("units", VStr "mT")]) ] []) ] [].

Definition edx_scans_sample : h5py.members :=
  [("(0.0,0.0)", edx_scan_sample 0 0 42); ("(5.0,5.0)", edx_scan_sample 5 5 40)].

Definition moke_scans_sample : h5py.members := [("(0.0,0.0)", moke_scan_sample 0 0)].

Definition source_sample : h5py.members :=
  [ ("composition", h5py.Group edx_scans_sample [("HT_type", VStr "edx")]);
    ("kerr", h5py.Group moke_scans_sample [("HT_type", VStr "moke")]) ].

Definition saved_position_sample (x y : float) : h5py.members :=
  [ ("x_pos", h5py.Dataset (VFloat x) [("units", VStr "mm"); ("HT_type", VStr "position")]);
    ("y_pos", h5py.Dataset (VFloat y) [("units", VStr "mm"); ("HT_type", VStr "position")]) ].

Definition py_str_sample (v : pyval) : string := "?".

(** The value of an optional parameter. *)
Definition default (d : Z) (o : option Z) : Z :=
  match o with
  | Some v => v
  | None => d
  end.

(** The file-name convention of the instrument export, as the specification
    words it: anything, then "(<x>,<y>)" immediately before ".spx". *)
Definition embed_filename (stem : string) (x y : Z) : string :=
  stem ++ "(" ++ str_of_int x ++ "," ++ str_of_int y ++ ").spx".

(** ** Further predicates, for the properties beyond the claims *)

(** Every element that a visit of [item] names has a name: the item itself
    and the descendants that the recursion enters. *)
Definition resolves_children (resolves : xml.Element -> bool)
    : list xml.Element -> bool :=
  fix go (l : list xml.Element) : bool :=
    match l with
    | [] => true
    | c :: l' => (if entered c then resolves c else true) && go l'
    end.

Fixpoint names_resolve (item : xml.Element) : bool :=
  match item with
  | xml.Elem _ _ _ cs =>
      match compile_edx.parent_name_of item with
      | Ok _ => true
      | Raise _ => false
      end && resolves_children names_resolve cs
  end.

(** The same condition spelled out on the element: a ClassInstance has a
    "Type" attribute, and a "Name" when the type is TRTPSEElement; a Result
    or ExtResults has at least one "Atom" among itself and its descendants,
    and every such "Atom" has a text; any other element is named by its
    tag. *)
Definition has_text (c : xml.Element) : bool :=
  match xml.text c with
  | Some _ => true
  | None => false
  end.

Definition has_attrib (k : string) (e : xml.Element) : bool :=
  existsb (fun kv => String.eqb k (fst kv)) (xml.attrib e).

Definition atoms (item : xml.Element) : list xml.Element :=
  filter (fun c => String.eqb (xml.tag c) "Atom") (xml.iter item).

Definition nameable (item : xml.Element) : bool :=
  if String.eqb (xml.tag item) "ClassInstance" then
    match xml.attrib_get "Type" (xml.attrib item) with
    | Ok ty => if String.eqb ty "TRTPSEElement" then has_attrib "Name" item else true
    | Raise _ => false
    end
  else if (String.eqb (xml.tag item) "Result" || String.eqb (xml.tag item) "ExtResults")%bool
  then
    match atoms item with
    | [] => false
    | _ :: _ => forallb has_text (atoms item)
    end
  else true.

Fixpoint all_nameable (item : xml.Element) : bool :=
  match item with
  | xml.Elem _ _ _ cs => nameable item && resolves_children all_nameable cs
  end.

(** A tree of two levels: every top-level value is a mapping of texts (or
    [None]). *)
Definition scalar (v : pyval) : bool :=
  match v with
  | VNone | VStr _ => true
  | VFloat _ | VDict _ => false
  end.

Definition flat_value (v : pyval) : bool :=
  match v with
  | VDict m => forallb (fun e => scalar (snd e)) m
  | _ => false
  end.

Definition flat (d : dict) : bool := forallb (fun kv => flat_value (snd kv)) d.

(** [sep.join(l)]. *)
Fixpoint join (sep : string) (l : list string) : string :=
  match l with
  | [] => ""
  | [x] => x
  | x :: l' => x ++ sep ++ join sep l'
  end.

(** The body of the loop of [get_channels], named. *)
Definition channels_body (elm : xml.Element) (channels : list Z) : res (list Z) :=
  if String.eqb (xml.tag elm) "Channels" then
    match xml.text elm with
    | Some t => compile_edx.channel_counts t
    | None => Raise AttributeError
    end
  else Ok channels.

(** The position that [get_all_positions] reads from one scan group. *)
Definition scan_position (position_of : pyval -> res float) (scan : h5py.node)
    : res (float * float) :=
  instrument <- h5py.walk ["instrument"] scan ;;
  x_pos <- h5py.child "x_pos" instrument ;;
  x_val <- h5py.value_of x_pos ;;
  x <- position_of x_val ;;
  y_pos <- h5py.child "y_pos" instrument ;;
  y_val <- h5py.value_of y_pos ;;
  y <- position_of y_val ;;
  Ok (x, y).

Definition is_scan (entry : string * h5py.node) : bool :=
  negb (in_list (fst entry) ["scan_parameters"; "alignment_scans"]).

(** Some subgroup of the two groups of the writer holds the dataset [d]
    under the name [subkey]. *)
Definition holds_field (st : compile_edx.groups) (subkey : string) (d : h5py.node) : Prop :=
  exists o name ms a,
    h5py.get name (compile_edx.owner_members o st) = Some (h5py.Group ms a)
    /\ h5py.get subkey ms = Some d.

(** Two normalized trees on which the writer stops: the extended results
    of atom 26 repeat a field that its results have already written; the
    results of atom 26 have no "Atom" field of their own when their element
    mapping is reached. *)
Definition tree_repeated_field : dict :=
  [ ("Result 26", VDict [("Atom", VStr "26"); ("AtomPercent", VStr "0.42")]);
    ("ExtResults 26", VDict [("Atom", VStr "26"); ("AtomPercent", VStr "2.0")]) ].

Definition tree_without_atom : dict :=
  [ ("Result 26", VDict [("AtomPercent", VStr "0.42")]);
    ("TRTPSEElement Fe", VDict [("Element", VStr "26")]) ].

(** A wafer file with the three categories; each holds the origin, the
    position (30.0,30.0), where |x| + |y| is exactly 60, and (35.0,30.0),
    where it is 65. *)
Definition scan_at (x y : float) : h5py.node :=
  h5py.Group [("instrument", position_sample x y)] [].

Definition category_sample (ht : string) : h5py.node :=
  h5py.Group [ ("(0.0,0.0)", scan_at 0 0);
               ("(30.0,30.0)", scan_at 30 30);
               ("(35.0,30.0)", scan_at 35 30) ]
    [("HT_type", VStr ht)].

Definition wafer_sample : h5py.members :=
  [ ("edx", category_sample "edx");
    ("moke", category_sample "moke");
    ("xrd", category_sample "xrd") ].

Definition position_of_sample (v : pyval) : res float :=
  match v with
  | VFloat f => Ok f
  | _ => Raise TypeError
  end.

(** A loop body that only records where it ran. *)
Definition record_step (label : string) (x y : float)
    (env : list (string * (float * float))) : res (list (string * (float * float))) :=
  Ok (env ++ [(label, (x, y))])%list.

(* ================================================================= *)
(** * Part II: theorems *)
(* ================================================================= *)

Example split_example :
  split "a,b,,c" "," = ["a"; "b"; ""; "c"]
  /\ split "x.spxy.spx" ".spx" = ["x"; "y"; ""]
  /\ split "abc" "/" = ["abc"].
Proof. repeat split. Qed.

Example get_scan_numbers_example :
  compile_edx.get_scan_numbers (compile_edx.FStr "data/NdFeB/Spectrum_(7,12).spx") = Ok (7, 12).
Proof. reflexivity. Qed.

Example str_of_int_example :
  str_of_int 0 = "0" /\ str_of_int 1204 = "1204" /\ str_of_int (-35) = "-35".
Proof. repeat split. Qed.

Example int_of_str_example :
  int_of_str " 1_000 " = Ok 1000 /\ int_of_str "-007" = Ok (-7)
  /\ int_of_str "1__0" = Raise ValueError /\ int_of_str "" = Raise ValueError.
Proof. repeat split. Qed.

(** ** Strings: prefixes, splitting *)

Section StringFacts.

Lemma append_assoc (a b c : string) : (a ++ b) ++ c = a ++ (b ++ c).
Proof. induction a as [|x a IH]; simpl; [reflexivity | now rewrite IH]. Qed.

Lemma append_empty_r (a : string) : a ++ "" = a.
Proof. induction a as [|x a IH]; simpl; [reflexivity | now rewrite IH]. Qed.

Lemma prefix_empty (s : string) : prefix "" s = true.
Proof. now destruct s. Qed.

Lemma prefix_app_self (p s : string) : prefix p (p ++ s) = true.
Proof.
  induction p as [|c p IH]; simpl; [apply prefix_empty|].
  destruct (ascii_dec c c) as [_|n]; [exact IH | now elim n].
Qed.

Lemma prefix_head (d e : ascii) (p s : string) :
  prefix (String d p) (String e s) = true -> d = e /\ prefix p s = true.
Proof.
  simpl. destruct (ascii_dec d e) as [->|n]; [auto | discriminate].
Qed.

Lemma prefix_head_neq (d e : ascii) (p s : string) :
  d <> e -> prefix (String d p) (String e s) = false.
Proof.
  intros n. simpl. destruct (ascii_dec d e) as [E|_]; [now elim n | reflexivity].
Qed.

Lemma str_mem_app (c : ascii) (a b : string) :
  str_mem c (a ++ b) = str_mem c a || str_mem c b.
Proof.
  induction a as [|x a IH]; simpl; [reflexivity|].
  now rewrite IH, orb_assoc.
Qed.

(** A match of [sep] that begins in [u] and does not fit in [u] runs over
    the character that follows [u]. *)
Lemma prefix_crossing (sep u : string) (e : ascii) (v : string) :
  prefix sep (u ++ String e v) = true ->
  prefix sep u = true \/ str_mem e sep = true.
Proof.
  revert u. induction sep as [|d sep IH]; intros u H.
  - left. apply prefix_empty.
  - destruct u as [|x u]; simpl in H.
    + destruct (ascii_dec d e) as [->|_]; [|discriminate].
      right. simpl. now rewrite Ascii.eqb_refl.
    + destruct (ascii_dec d x) as [->|_]; [|discriminate].
      destruct (IH u H) as [P|M].
      * left. simpl. destruct (ascii_dec x x) as [_|n]; [exact P | now elim n].
      * right. simpl. now rewrite M, orb_true_r.
Qed.

Lemma occurs_within_app (sep u v rest : string) :
  occurs_within sep (u ++ v) rest
  = occurs_within sep u (v ++ rest) || occurs_within sep v rest.
Proof.
  induction u as [|x u IH]; simpl; [reflexivity|].
  now rewrite IH, append_assoc, orb_assoc.
Qed.

Lemma occurs_within_first_char (d : ascii) (sep a rest : string) :
  str_mem d a = false -> occurs_within (String d sep) a rest = false.
Proof.
  induction a as [|x a IH]; intros H; [reflexivity|].
  simpl in H. apply orb_false_iff in H as [Hx Ha].
  cbn [occurs_within append]. rewrite (IH Ha), orb_false_r.
  apply prefix_head_neq. intros ->. now rewrite Ascii.eqb_refl in Hx.
Qed.

Lemma occurs_within_contains (sep u : string) (e : ascii) (v : string) :
  contains sep u = false -> str_mem e sep = false ->
  occurs_within sep u (String e v) = false.
Proof.
  intros Hc He. induction u as [|x u IH]; [reflexivity|].
  cbn [contains] in Hc. apply orb_false_iff in Hc as [Hp Hu].
  cbn [occurs_within]. rewrite (IH Hu), orb_false_r.
  destruct (prefix sep (String x u ++ String e v)) eqn:P; [|reflexivity].
  destruct (prefix_crossing _ _ _ _ P) as [Q|Q]; congruence.
Qed.

(** The first piece of a split ends at the first occurrence of [sep]. *)
Lemma split_from_head (sep a b : string) :
  sep <> "" -> occurs_within sep a (sep ++ b) = false ->
  fst (split_from sep 0 (a ++ sep ++ b)) = a.
Proof.
  intros Hsep. induction a as [|x a IH]; intros H.
  - destruct sep as [|d sep]; [now elim Hsep|].
    change ("" ++ String d sep ++ b) with (String d (sep ++ b)).
    cbn [split_from].
    change (String d (sep ++ b)) with (String d sep ++ b).
    now rewrite prefix_app_self.
  - cbn [occurs_within] in H. apply orb_false_iff in H as [Hp Ha].
    cbn [append split_from]. cbn [append] in Hp. rewrite Hp.
    specialize (IH Ha). destruct (split_from sep 0 (a ++ sep ++ b)) as [p ps].
    simpl in *. now rewrite IH.
Qed.

Lemma first_item_split (sep a b : string) :
  sep <> "" -> occurs_within sep a (sep ++ b) = false ->
  first_item (split (a ++ sep ++ b) sep) = a.
Proof.
  intros Hsep H. unfold split, first_item.
  pose proof (split_from_head sep a b Hsep H) as E.
  destruct (split_from sep 0 (a ++ sep ++ b)) as [p ps]. exact E.
Qed.

(** Splitting at a single character. *)
Lemma split_from_char (c x : ascii) (s : string) :
  split_from (String c "") 0 (String x s)
  = if Ascii.eqb c x
    then ("", let (p, ps) := split_from (String c "") 0 s in p :: ps)
    else let (p, ps) := split_from (String c "") 0 s in (String x p, ps).
Proof.
  cbn [split_from String.length Nat.sub]. cbn [prefix].
  destruct (ascii_dec c x) as [->|n].
  - rewrite Ascii.eqb_refl. now destruct s.
  - apply Ascii.eqb_neq in n. now rewrite n.
Qed.

Lemma split_from_char_none (c : ascii) (a : string) :
  str_mem c a = false -> split_from (String c "") 0 a = (a, []).
Proof.
  induction a as [|x a IH]; intros H; [reflexivity|].
  simpl in H. apply orb_false_iff in H as [Hx Ha].
  rewrite split_from_char, Hx, (IH Ha). reflexivity.
Qed.

(** Appending [c ++ b] to a text, [b] free of [c], adds the one piece [b]. *)
Lemma split_from_char_app (c : ascii) (a b : string) :
  str_mem c b = false ->
  split_from (String c "") 0 (a ++ String c b)
  = (fst (split_from (String c "") 0 a),
     (snd (split_from (String c "") 0 a) ++ [b])%list).
Proof.
  intros Hb. induction a as [|x a IH].
  - cbn [append]. rewrite split_from_char, Ascii.eqb_refl.
    now rewrite (split_from_char_none c b Hb).
  - cbn [append]. rewrite !split_from_char, IH.
    destruct (split_from (String c "") 0 a) as [p ps].
    now destruct (Ascii.eqb c x).
Qed.

Lemma split_char_two (c : ascii) (a b : string) :
  str_mem c a = false -> str_mem c b = false ->
  split (a ++ String c b) (String c "") = [a; b].
Proof.
  intros Ha Hb. unfold split.
  now rewrite (split_from_char_app c a b Hb), (split_from_char_none c a Ha).
Qed.

Lemma split_char_last (c : ascii) (a b : string) :
  str_mem c b = false ->
  last_item (split (a ++ String c b) (String c "")) = b.
Proof.
  intros Hb. unfold split, last_item.
  rewrite (split_from_char_app c a b Hb).
  destruct (split_from (String c "") 0 a) as [p ps]. cbn [fst snd].
  rewrite app_comm_cons. apply last_last.
Qed.

End StringFacts.

(** ** Integers as text: [str] and [int] *)

Section IntegerText.

Lemma digit_char_spec (d : Z) :
  0 <= d < 10 -> is_digit (digit_char d) = true /\ digit_val (digit_char d) = d.
Proof.
  intros H.
  assert (E : d = 0 \/ d = 1 \/ d = 2 \/ d = 3 \/ d = 4 \/ d = 5 \/ d = 6
              \/ d = 7 \/ d = 8 \/ d = 9) by lia.
  repeat (destruct E as [->|E]; [split; reflexivity|]).
  subst d. split; reflexivity.
Qed.

Lemma digit_not_space (c : ascii) : is_digit c = true -> is_space c = false.
Proof.
  destruct c as [[] [] [] [] [] [] [] []]; intros H; try reflexivity; discriminate H.
Qed.

Lemma all_digits_app (a b : string) :
  all_digits (a ++ b) = all_digits a && all_digits b.
Proof.
  induction a as [|x a IH]; simpl; [reflexivity|].
  now rewrite IH, andb_assoc.
Qed.

Lemma all_digits_str_of_nonneg (f : nat) (n : Z) :
  0 <= n -> all_digits (str_of_nonneg f n) = true.
Proof.
  revert n. induction f as [|f IH]; intros n Hn; [reflexivity|].
  cbn [str_of_nonneg]. destruct (Z.ltb_spec n 10) as [Hlt|Hge].
  - cbn [all_digits]. now rewrite (proj1 (digit_char_spec n (conj Hn Hlt))).
  - rewrite all_digits_app, IH by (apply Z.div_pos; lia).
    cbn [all_digits andb].
    rewrite (proj1 (digit_char_spec (n mod 10) (Z.mod_pos_bound n 10 eq_refl))).
    reflexivity.
Qed.

Lemma str_of_nonneg_not_empty (f : nat) (n : Z) : str_of_nonneg (S f) n <> "".
Proof.
  cbn [str_of_nonneg]. destruct (n <? 10); [discriminate|].
  destruct (str_of_nonneg f (n / 10)); discriminate.
Qed.

Lemma digits_value_app_last (s : string) (c : ascii) (acc : Z) :
  digits_value acc (s ++ String c "") = 10 * digits_value acc s + digit_val c.
Proof.
  revert acc. induction s as [|x s IH]; intros acc; [reflexivity|].
  cbn [append digits_value]. apply IH.
Qed.

Lemma digits_value_str_of_nonneg (f : nat) (n : Z) :
  0 <= n < 2 ^ Z.of_nat f -> digits_value 0 (str_of_nonneg f n) = n.
Proof.
  revert n. induction f as [|f IH]; intros n Hn.
  - cbn in Hn. cbn. lia.
  - cbn [str_of_nonneg]. destruct (Z.ltb_spec n 10) as [Hlt|Hge].
    + cbn [digits_value].
      rewrite (proj2 (digit_char_spec n (conj (proj1 Hn) Hlt))). lia.
    + rewrite digits_value_app_last.
      rewrite (proj2 (digit_char_spec (n mod 10) (Z.mod_pos_bound n 10 eq_refl))).
      rewrite IH; [pose proof (Z.div_mod n 10); lia|].
      rewrite Nat2Z.inj_succ, Z.pow_succ_r in Hn by lia.
      pose proof (Z.mul_div_le n 10 eq_refl).
      split; [apply Z.div_pos; lia | lia].
Qed.

Lemma int_digits_all_digits (s : string) (acc : Z) :
  all_digits s = true -> int_digits acc true s = Some (digits_value acc s).
Proof.
  revert acc. induction s as [|c s IH]; intros acc H; [reflexivity|].
  cbn [all_digits] in H. apply andb_true_iff in H as [Hc Hs].
  cbn [int_digits digits_value]. rewrite Hc. now apply IH.
Qed.

Lemma rstrip_all_digits (s : string) : all_digits s = true -> rstrip s = s.
Proof.
  induction s as [|c s IH]; intros H; [reflexivity|].
  cbn [all_digits] in H. apply andb_true_iff in H as [Hc Hs].
  cbn [rstrip]. rewrite (IH Hs), (digit_not_space c Hc). now destruct s.
Qed.

Lemma strip_all_digits (s : string) : all_digits s = true -> strip s = s.
Proof.
  intros H. unfold strip.
  destruct s as [|c s]; [reflexivity|].
  pose proof H as H'. cbn [all_digits] in H'. apply andb_true_iff in H' as [Hc _].
  cbn [lstrip]. rewrite (digit_not_space c Hc). now apply rstrip_all_digits.
Qed.

(** [int] reads a non-empty digit string as its decimal value. *)
Lemma int_of_str_all_digits (s : string) :
  all_digits s = true -> s <> "" -> int_of_str s = Ok (digits_value 0 s).
Proof.
  intros H Hne. unfold int_of_str. rewrite (strip_all_digits s H).
  destruct s as [|c s]; [now elim Hne|].
  pose proof H as H'. cbn [all_digits] in H'. apply andb_true_iff in H' as [Hc Hs].
  assert (E : int_digits 0 false (String c s) = Some (digits_value 0 (String c s))).
  { cbn [int_digits digits_value]. rewrite Hc. now apply int_digits_all_digits. }
  transitivity (of_option ValueError (int_digits 0 false (String c s)));
    [|now rewrite E].
  clear E. destruct c as [[] [] [] [] [] [] [] []]; try discriminate Hc; reflexivity.
Qed.

Lemma str_of_int_nonneg (n : Z) :
  0 <= n -> str_of_int n = str_of_nonneg (S (Z.to_nat (Z.log2 n))) n.
Proof.
  intros H. unfold str_of_int. rewrite Z.abs_eq by exact H.
  destruct (Z.ltb_spec n 0); [lia | reflexivity].
Qed.

Lemma all_digits_str_of_int (n : Z) : 0 <= n -> all_digits (str_of_int n) = true.
Proof.
  intros H. rewrite (str_of_int_nonneg n H). now apply all_digits_str_of_nonneg.
Qed.

(** [int(str(n)) = n] for a non-negative integer. *)
Lemma int_of_str_str_of_int (n : Z) : 0 <= n -> int_of_str (str_of_int n) = Ok n.
Proof.
  intros H. rewrite int_of_str_all_digits.
  - f_equal. rewrite (str_of_int_nonneg n H). apply digits_value_str_of_nonneg.
    split; [exact H|].
    rewrite Nat2Z.inj_succ, Z2Nat.id by apply Z.log2_nonneg.
    destruct (Z.eq_dec n 0) as [->|Hnz]; [reflexivity|].
    apply Z.log2_spec. lia.
  - now apply all_digits_str_of_int.
  - rewrite (str_of_int_nonneg n H). apply str_of_nonneg_not_empty.
Qed.

Lemma str_mem_all_digits (c : ascii) (s : string) :
  is_digit c = false -> all_digits s = true -> str_mem c s = false.
Proof.
  intros Hc. induction s as [|x s IH]; intros H; [reflexivity|].
  cbn [all_digits] in H. apply andb_true_iff in H as [Hx Hs].
  cbn [str_mem]. rewrite (IH Hs), orb_false_r.
  apply Ascii.eqb_neq. intros ->. congruence.
Qed.

End IntegerText.

(** ** The scan identity of a file name *)

Section ScanIdentity.

Import compile_edx.

(** The chain of splits of [get_scan_numbers] isolates the two index texts
    of a canonical file name. *)
Lemma scan_index_texts (stem dx dy : string) :
  all_digits dx = true -> all_digits dy = true ->
  contains ".spx" stem = false ->
  split
    (first_item
       (split
          (last_item
             (split
                (first_item
                   (split (stem ++ "(" ++ dx ++ "," ++ dy ++ ").spx") ".spx"))
                "("))
          ")"))
    ","
  = [dx; dy].
Proof.
  intros Hx Hy Hstem.
  assert (M : forall c, is_digit c = false ->
                str_mem c dx = false /\ str_mem c dy = false)
    by (intros c Hc; split; now apply str_mem_all_digits).
  set (t := dx ++ String "," dy).
  assert (E : stem ++ "(" ++ dx ++ "," ++ dy ++ ").spx"
              = (stem ++ String "(" (t ++ ")")) ++ ".spx" ++ "").
  { unfold t. cbn [append]. repeat (rewrite append_assoc; cbn [append]).
    reflexivity. }
  rewrite E. rewrite first_item_split; [|discriminate|].
  - rewrite split_char_last.
    + change (t ++ ")") with (t ++ ")" ++ "").
      rewrite first_item_split; [|discriminate|].
      * unfold t. apply split_char_two; now apply M.
      * apply occurs_within_first_char. unfold t.
        rewrite str_mem_app. cbn [str_mem].
        destruct (M ")"%char eq_refl) as [-> ->]. reflexivity.
    + unfold t. rewrite !str_mem_app. cbn [str_mem].
      destruct (M "("%char eq_refl) as [-> ->]. reflexivity.
  - rewrite occurs_within_app. apply orb_false_iff. split.
    + cbn [append]. now apply occurs_within_contains.
    + apply occurs_within_first_char. unfold t.
      cbn [str_mem]. rewrite !str_mem_app. cbn [str_mem].
      destruct (M "."%char eq_refl) as [-> ->]. reflexivity.
Qed.

(** A string path whose last component is [name]. *)
Lemma filename_of_str (dir name : string) :
  str_mem "/" name = false ->
  filename_of (FStr (dir ++ "/" ++ name)) = Ok name.
Proof.
  intros H. cbn [filename_of append]. f_equal. now apply split_char_last.
Qed.

(** C3, as the code has it: for 1-based positive indices [x] and [y], the
    parser applied to a file whose name is "<stem>(<x>,<y>).spx" returns
    exactly [(x, y)], provided the stem does not itself contain the marker
    ".spx"; the file may be given as a string path or as a path object. *)
Theorem get_scan_numbers_embed_roundtrip
    (filepath : filepath_arg) (stem : string) (x y : Z) :
  1 <= x -> 1 <= y ->
  contains ".spx" stem = false ->
  filename_of filepath = Ok (embed_filename stem x y) ->
  get_scan_numbers filepath = Ok (x, y).
Proof.
  intros Hx Hy Hstem Hname. unfold get_scan_numbers.
  rewrite Hname. cbn [bind]. unfold embed_filename.
  rewrite scan_index_texts by (try apply all_digits_str_of_int; lia || assumption).
  rewrite !int_of_str_str_of_int by lia. reflexivity.
Qed.

Lemma get_scan_numbers_embed_roundtrip_witness :
  get_scan_numbers (FStr "run.2/Nd-Fe-B_map(3,12).spx") = Ok (3, 12)
  /\ get_scan_numbers (FPath {| name := "wafer(10,1).spx" |}) = Ok (10, 1).
Proof.
  split.
  - apply (get_scan_numbers_embed_roundtrip _ "Nd-Fe-B_map" 3 12);
      [lia | lia | reflexivity | reflexivity].
  - apply (get_scan_numbers_embed_roundtrip _ "wafer" 10 1);
      [lia | lia | reflexivity | reflexivity].
Defined.

(** The claim of C3 fails on a stem that contains the marker: the name
    below has the indices right before its extension, yet the first ".spx"
    ends the text that is searched, and unpacking the single piece raises. *)
Lemma get_scan_numbers_marker_in_stem :
  embed_filename "old.spx_copy" 3 12 = "old.spx_copy(3,12).spx"
  /\ get_scan_numbers (FStr "old.spx_copy(3,12).spx") = Raise ValueError
  /\ get_scan_numbers (FPath {| name := "old.spx_copy(3,12).spx" |}) = Raise ValueError.
Proof. repeat split. Qed.

End ScanIdentity.

(** ** Wafer positions *)

Section WaferPosition.

Import compile_edx.

(** C4: the wafer position of a scan identity is
    [((x_idx-1)*step_x + start_x, (y_idx-1)*step_y + start_y)], an omitted
    step being 5 and an omitted start being -40; the result is a function of
    these inputs alone. *)
Theorem get_wafer_positions_affine
    (x_idx y_idx : Z) (step_x step_y start_x start_y : option Z) :
  get_wafer_positions (x_idx, y_idx) step_x step_y start_x start_y
  = ((x_idx - 1) * default 5 step_x + default (-40) start_x,
     (y_idx - 1) * default 5 step_y + default (-40) start_y).
Proof.
  destruct step_x, step_y, start_x, start_y; reflexivity.
Qed.

Example get_wafer_positions_defaults :
  get_wafer_positions (1, 1) None None None None = (-40, -40)
  /\ get_wafer_positions (9, 9) None None None None = (0, 0)
  /\ get_wafer_positions (17, 3) None None None None = (40, -30)
  /\ get_wafer_positions (2, 3) (Some 10) None (Some 0) None = (10, -30).
Proof. repeat split. Qed.

End WaferPosition.

(** ** The XML normalizer *)

Section Normalizer.

Import xml compile_edx.

(** Induction on elements, with the hypothesis for every child. *)
Lemma Element_forall_ind (P : Element -> Prop) :
  (forall tg at_ tx cs, Forall P cs -> P (Elem tg at_ tx cs)) ->
  forall e, P e.
Proof.
  intros H. fix IH 1. intros [tg at_ tx cs]. apply H.
  induction cs as [|c cs IHcs]; constructor; [apply IH | exact IHcs].
Qed.

Lemma dict_get_set_eq (k : string) (v : pyval) (d : dict) :
  dict_get k (dict_set k v d) = Some v.
Proof.
  induction d as [|[k' v'] d IH]; cbn [dict_set dict_get].
  - now rewrite String.eqb_refl.
  - destruct (String.eqb k k') eqn:E; cbn [dict_get]; rewrite ?String.eqb_refl, ?E; auto.
Qed.

Lemma dict_get_set_neq (k k' : string) (v : pyval) (d : dict) :
  k <> k' -> dict_get k (dict_set k' v d) = dict_get k d.
Proof.
  intros N. induction d as [|[k2 v2] d IH]; cbn [dict_set dict_get].
  - apply String.eqb_neq in N. now rewrite N.
  - destruct (String.eqb k' k2) eqn:E; cbn [dict_get].
    + apply String.eqb_eq in E. subst k2.
      apply String.eqb_neq in N. now rewrite N.
    + now rewrite IH.
Qed.

Lemma visit_items_eq (item : Element) (acc : dict) :
  visit_items item acc
  = match parent_name_of item with
    | Raise e => (Raised e, acc)
    | Ok p => children_loop visit_items p (children item) (dict_set p (VDict []) acc)
    end.
Proof. now destruct item. Qed.

Lemma set_nested_frame (d d' : dict) (p key k : string) (v : pyval) :
  set_nested d p key v = Ok d' -> k <> p -> dict_get k d' = dict_get k d.
Proof.
  unfold set_nested. intros H N.
  destruct (dict_get p d) as [[| | |inner]|]; try discriminate.
  injection H as <-. now apply dict_get_set_neq.
Qed.

Lemma set_nested_at (d : dict) (p key : string) (v : pyval) (m : dict) :
  dict_get p d = Some (VDict m) ->
  exists d', set_nested d p key v = Ok d'
             /\ dict_get p d' = Some (VDict (dict_set key v m)).
Proof.
  intros H. unfold set_nested. rewrite H. eexists. split; [reflexivity|].
  apply dict_get_set_eq.
Qed.

Lemma entered_spec (c : Element) :
  entered c = true <-> in_list (tag c) parse_ignore = false /\ children c <> [].
Proof.
  unfold entered, ignored, is_leaf.
  destruct (in_list (tag c) parse_ignore), (children c); cbn; split;
    intros H; try discriminate; try (destruct H; congruence); auto.
  split; [reflexivity | discriminate].
Qed.

(** A key that the visits of the children do not touch keeps its value
    through the loop. *)
Lemma children_loop_frame (visit : Element -> dict -> outcome * dict)
    (p k : string) (cs : list Element) :
  k <> p ->
  Forall (fun c => entered c = true ->
                   forall acc, dict_get k (snd (visit c acc)) = dict_get k acc) cs ->
  forall d, dict_get k (snd (children_loop visit p cs d)) = dict_get k d.
Proof.
  intros N F. induction F as [|c cs Hc F IH]; intros d; [reflexivity|].
  cbn [children_loop].
  destruct (in_list (tag c) parse_ignore) eqn:Ig; [apply IH|].
  destruct (children c) as [|c1 cc] eqn:Ch.
  - destruct (set_nested d p (tag c) (text_value c)) as [d1|e] eqn:S; [|reflexivity].
    rewrite IH. eapply set_nested_frame; eauto.
  - assert (En : entered c = true)
      by (apply entered_spec; split; [exact Ig | rewrite Ch; discriminate]).
    specialize (Hc En d).
    destruct (visit c d) as [[|e] d1]; cbn [snd] in *; [now rewrite IH | exact Hc].
Qed.

Lemma names_of_children_in (names : Element -> list string) (cs : list Element)
    (c : Element) (k : string) :
  In c cs -> entered c = true -> In k (names c) -> In k (names_of_children names cs).
Proof.
  induction cs as [|x cs IH]; intros Hin En Hk; [contradiction|].
  cbn [names_of_children]. apply in_or_app.
  destruct Hin as [->|Hin]; [left; now rewrite En | right; now apply IH].
Qed.

Lemma visit_items_frame (item : Element) :
  forall (k : string) (acc : dict),
    ~ In k (visited_names item) ->
    dict_get k (snd (visit_items item acc)) = dict_get k acc.
Proof.
  induction item as [tg at_ tx cs IH] using Element_forall_ind.
  intros k acc Hk. rewrite visit_items_eq.
  cbn [visited_names] in Hk.
  destruct (parent_name_of (Elem tg at_ tx cs)) as [p|e]; [|reflexivity].
  cbn [children].
  assert (N : k <> p) by (intros ->; apply Hk; now left).
  rewrite children_loop_frame; [now apply dict_get_set_neq | exact N |].
  apply Forall_forall. intros c Hc En acc'.
  rewrite Forall_forall in IH. apply (IH c Hc).
  intros Hin. apply Hk. apply in_or_app. right.
  eapply names_of_children_in; eauto.
Qed.

Lemma dict_set_holds (q k : string) (m : dict) (d : dict) :
  holds_dict q d -> holds_dict q (dict_set k (VDict m) d).
Proof.
  intros [m0 H]. destruct (String.eqb_spec q k) as [->|N].
  - exists m. apply dict_get_set_eq.
  - exists m0. now rewrite dict_get_set_neq.
Qed.

Lemma set_nested_holds (d d' : dict) (p key q : string) (v : pyval) :
  set_nested d p key v = Ok d' -> holds_dict q d -> holds_dict q d'.
Proof.
  unfold set_nested. intros H Hq.
  destruct (dict_get p d) as [[| | |inner]|]; try discriminate.
  injection H as <-. now apply dict_set_holds.
Qed.

Lemma children_loop_holds (visit : Element -> dict -> outcome * dict)
    (p q : string) (cs : list Element) :
  Forall (fun c => forall acc, holds_dict q acc -> holds_dict q (snd (visit c acc))) cs ->
  forall d, holds_dict q d -> holds_dict q (snd (children_loop visit p cs d)).
Proof.
  intros F. induction F as [|c cs Hc F IH]; intros d Hd; [exact Hd|].
  cbn [children_loop].
  destruct (in_list (tag c) parse_ignore); [now apply IH|].
  destruct (children c) as [|c1 cc].
  - destruct (set_nested d p (tag c) (text_value c)) as [d1|e] eqn:S; [|exact Hd].
    apply IH. eapply set_nested_holds; eauto.
  - specialize (Hc d Hd).
    destruct (visit c d) as [[|e] d1]; cbn [snd] in *; [now apply IH | exact Hc].
Qed.

(** A key that holds a mapping still holds one after any visit. *)
Lemma visit_items_holds (item : Element) :
  forall (q : string) (acc : dict),
    holds_dict q acc -> holds_dict q (snd (visit_items item acc)).
Proof.
  induction item as [tg at_ tx cs IH] using Element_forall_ind.
  intros q acc Hq. rewrite visit_items_eq.
  destruct (parent_name_of (Elem tg at_ tx cs)) as [p|e]; [|exact Hq].
  apply children_loop_holds; [|now apply dict_set_holds].
  eapply Forall_impl; [|exact IH]. intros c Hc acc'. apply Hc.
Qed.

(** A visit that gets past the naming files a mapping under the name. *)
Lemma visit_items_own_key (item : Element) (q : string) (acc : dict) :
  parent_name_of item = Ok q -> holds_dict q (snd (visit_items item acc)).
Proof.
  intros H. rewrite visit_items_eq, H.
  apply children_loop_holds.
  - apply Forall_forall. intros c _ acc'. apply visit_items_holds.
  - exists []. apply dict_get_set_eq.
Qed.

Lemma children_loop_entered_keys (p : string) (cs : list Element) :
  forall d d', children_loop visit_items p cs d = (Returned, d') ->
  forall c q, In c cs -> entered c = true -> parent_name_of c = Ok q ->
              holds_dict q d'.
Proof.
  induction cs as [|x cs IH]; intros d d' H c q Hin En Hq; [contradiction|].
  cbn [children_loop] in H.
  assert (Tail : forall d1, children_loop visit_items p cs d1 = (Returned, d') ->
                            In c cs -> holds_dict q d')
    by (intros d1 H1 Hc; eapply IH; eauto).
  assert (Keep : forall d1, children_loop visit_items p cs d1 = (Returned, d') ->
                            holds_dict q d1 -> holds_dict q d').
  { intros d1 H1 Hd1. change d' with (snd (Returned, d')). rewrite <- H1.
    apply children_loop_holds; [|exact Hd1].
    apply Forall_forall. intros y _ acc'. apply visit_items_holds. }
  destruct Hin as [->|Hin].
  - apply entered_spec in En as [Ig Ch]. rewrite Ig in H.
    destruct (children c) as [|c1 cc] eqn:E; [now elim Ch|].
    pose proof (visit_items_own_key c q d Hq) as Own.
    destruct (visit_items c d) as [[|e] d1]; [|discriminate].
    eapply Keep; eauto.
  - destruct (in_list (tag x) parse_ignore); [eauto|].
    destruct (children x) as [|c1 cc].
    + destruct (set_nested d p (tag x) (text_value x)) as [d1|e]; [eauto | discriminate].
    + destruct (visit_items x d) as [[|e] d1]; [eauto | discriminate].
Qed.

(** The mapping under the parent's key collects the leaves, in order. *)
Lemma children_loop_parent_mapping (visit : Element -> dict -> outcome * dict)
    (p : string) (cs : list Element) :
  Forall (fun c => entered c = true ->
                   forall acc, dict_get p (snd (visit c acc)) = dict_get p acc) cs ->
  forall d d' m,
    dict_get p d = Some (VDict m) ->
    children_loop visit p cs d = (Returned, d') ->
    dict_get p d' = Some (VDict (leaf_entries (non_ignored_leaves cs) m)).
Proof.
  intros F. induction F as [|c cs Hc F IH]; intros d d' m Hm H.
  - cbn in H. injection H as <-. exact Hm.
  - cbn [children_loop] in H. unfold non_ignored_leaves. cbn [filter].
    unfold ignored, is_leaf.
    destruct (in_list (tag c) parse_ignore) eqn:Ig; cbn [negb andb]; [eauto|].
    destruct (children c) as [|c1 cc] eqn:Ch.
    + destruct (set_nested_at d p (tag c) (text_value c) m Hm) as (d1 & S & Hd1).
      rewrite S in H. cbn [leaf_entries fold_left]. eapply IH; eauto.
    + assert (En : entered c = true)
        by (apply entered_spec; split; [exact Ig | rewrite Ch; discriminate]).
      specialize (Hc En d).
      destruct (visit c d) as [[|e] d1]; [|discriminate].
      cbn [snd] in Hc. eapply IH; [|exact H]. now rewrite Hc.
Qed.

Lemma dict_set_length_le (k : string) (v : pyval) (d : dict) :
  (length (dict_set k v d) <= S (length d))%nat.
Proof.
  induction d as [|[k' v'] d IH]; cbn [dict_set]; [cbn; lia|].
  destruct (String.eqb k k'); cbn [length]; lia.
Qed.

Lemma dict_set_new (k : string) (v : pyval) (d : dict) :
  ~ In k (map fst d) -> dict_set k v d = (d ++ [(k, v)])%list.
Proof.
  induction d as [|[k' v'] d IH]; intros H; [reflexivity|].
  cbn [dict_set]. destruct (String.eqb_spec k k') as [->|N].
  - elim H. now left.
  - cbn [app]. rewrite IH; [reflexivity|]. intros Hin. apply H. now right.
Qed.

Lemma leaf_entries_length_le (leaves : list Element) (m : dict) :
  (length (leaf_entries leaves m) <= length m + length leaves)%nat.
Proof.
  revert m. induction leaves as [|c leaves IH]; intros m; cbn [leaf_entries fold_left].
  - cbn. lia.
  - fold (leaf_entries leaves (dict_set (tag c) (text_value c) m)).
    specialize (IH (dict_set (tag c) (text_value c) m)).
    pose proof (dict_set_length_le (tag c) (text_value c) m). cbn [length]. lia.
Qed.

Lemma leaf_entries_length (leaves : list Element) (m : dict) :
  NoDup (map fst m ++ map tag leaves) ->
  length (leaf_entries leaves m) = (length m + length leaves)%nat.
Proof.
  revert m. induction leaves as [|c leaves IH]; intros m H; cbn [leaf_entries fold_left].
  - cbn. lia.
  - fold (leaf_entries leaves (dict_set (tag c) (text_value c) m)).
    cbn [map] in H.
    rewrite dict_set_new by (apply NoDup_remove_2 in H; intros Hin; apply H;
                             apply in_or_app; now left).
    rewrite IH.
    + rewrite length_app. cbn [length]. lia.
    + rewrite map_app. cbn [map fst]. now rewrite <- app_assoc.
Qed.

(** C2, as the code has it: when a visit of [item] returns, every non-ignored
    leaf child is a scalar entry of the mapping filed under the item's key
    (a later leaf of the same tag replacing an earlier one), so that mapping
    has as many entries as there are non-ignored leaf children when their
    tags differ, and never more; a non-ignored child with children of its
    own is no entry of that mapping: it has a mapping of its own at the top
    level of the accumulator, under its own key.  The item's key must not be
    reused by a descendant that the recursion enters. *)
Theorem visit_items_shape (item : Element) (acc d : dict) (p : string) :
  parent_name_of item = Ok p ->
  visit_items item acc = (Returned, d) ->
  (forall c, In c (children item) -> entered c = true -> ~ In p (visited_names c)) ->
  dict_get p d = Some (VDict (leaf_entries (non_ignored_leaves (children item)) []))
  /\ (NoDup (map tag (non_ignored_leaves (children item))) ->
      length (leaf_entries (non_ignored_leaves (children item)) [])
      = length (non_ignored_leaves (children item)))
  /\ (length (leaf_entries (non_ignored_leaves (children item)) [])
      <= length (non_ignored_leaves (children item)))%nat
  /\ (forall c q, In c (children item) -> entered c = true ->
                  parent_name_of c = Ok q -> holds_dict q d).
Proof.
  intros Hp Hv Hfresh. rewrite visit_items_eq, Hp in Hv.
  repeat split.
  - eapply children_loop_parent_mapping; [| |exact Hv].
    + apply Forall_forall. intros c Hc En acc'.
      apply visit_items_frame. now apply Hfresh.
    + apply dict_get_set_eq.
  - intros ND. now rewrite leaf_entries_length.
  - apply (leaf_entries_length_le _ []).
  - intros c q Hc En Hq. eapply children_loop_entered_keys; eauto.
Qed.

Lemma visit_items_shape_witness :
  dict_get "TRTSpectrum" (snd (visit_items doc_spectrum []))
  = Some (VDict [("Date", VStr "3.11.2026"); ("Time", VStr "12:00")])
  /\ holds_dict "TRTSpectrumHeader" (snd (visit_items doc_spectrum []))
  /\ holds_dict "Result 26" (snd (visit_items doc_spectrum [])).
Proof.
  destruct (visit_items_shape doc_spectrum [] (snd (visit_items doc_spectrum []))
              "TRTSpectrum") as (M & _ & _ & K).
  - reflexivity.
  - reflexivity.
  - intros c Hc En Hin. cbn in Hc.
    repeat (destruct Hc as [<-|Hc]; [cbn in En, Hin; try discriminate En;
                                     repeat (destruct Hin as [Hin|Hin]; [discriminate Hin|]);
                                     contradiction|]).
    contradiction.
  - split; [exact M|]. split.
    + apply (K (Elem "ClassInstance" [("Type", "TRTSpectrumHeader")] None
                  [leaf "CalibAbs" "-0.5"; leaf "CalibLin" "0.01"; leaf "Channels" "1,2"]));
        [cbn; tauto | reflexivity | reflexivity].
    + apply (K (Elem "Result" [] None [leaf "Atom" "26"; leaf "AtomPercent" "0.42"]));
        [cbn; tauto | reflexivity | reflexivity].
Defined.

(** The claim of C2 fails on a child that has children: [doc_nested] has one
    non-ignored child, yet the mapping under "Root" is empty, and the child's
    mapping sits beside it, not inside it. *)
Lemma visit_items_child_not_nested :
  length (non_ignored (children doc_nested)) = 1%nat
  /\ visit_items doc_nested []
     = (Returned, [("Root", VDict []); ("Child", VDict [("Leaf", VStr "v")])])
  /\ dict_get "Root" (snd (visit_items doc_nested [])) = Some (VDict [])
  /\ ~ (exists m, dict_get "Root" (snd (visit_items doc_nested [])) = Some (VDict m)
                  /\ length m = length (non_ignored (children doc_nested))).
Proof.
  repeat split. intros (m & H & L). cbn in H. injection H as <-. discriminate L.
Qed.

(** The flat result on a document shaped like an instrument export. *)
Example visit_items_spectrum :
  visit_items doc_spectrum []
  = (Returned,
     [ ("TRTSpectrum", VDict [("Date", VStr "3.11.2026"); ("Time", VStr "12:00")]);
       ("TRTSpectrumHeader", VDict [("CalibAbs", VStr "-0.5"); ("CalibLin", VStr "0.01")]);
       ("Result 26", VDict [("Atom", VStr "26"); ("AtomPercent", VStr "0.42")]) ]).
Proof. reflexivity. Qed.

(** A descendant that reuses the key of its ancestor resets the mapping. *)
Example visit_items_key_reused :
  visit_items (Elem "A" [] None [leaf "x" "1"; Elem "A" [] None [leaf "y" "2"]; leaf "z" "3"]) []
  = (Returned, [("A", VDict [("y", VStr "2"); ("z", VStr "3")])]).
Proof. reflexivity. Qed.

(** With an explicit accumulator the result is a function of the arguments,
    and the shared default is left alone. *)
Lemma call_visit_items_explicit (item : Element) (d shared : dict) :
  call_visit_items item (Some d) shared = (visit_items item d, shared).
Proof. reflexivity. Qed.

(** Without the argument the call continues from what earlier calls left in
    the default. *)
Lemma call_visit_items_default (item : Element) (shared : dict) :
  fst (call_visit_items item None shared) = visit_items item shared
  /\ snd (call_visit_items item None shared) = snd (visit_items item shared).
Proof. split; reflexivity. Qed.

(** C1, at the failing input: two calls that omit the accumulator, first on
    [doc_a], then on [doc_b].  The second call returns the entry "A" of the
    first call along with "B", while a fresh accumulator gives "B" alone; and
    a third call, again on [doc_a], does not return what the first one did. *)
Theorem visit_items_default_is_shared :
  let r1 := call_visit_items doc_a None empty_default in
  let r2 := call_visit_items doc_b None (snd r1) in
  let r3 := call_visit_items doc_a None (snd r2) in
  fst r1 = (Returned, [("A", VDict [("x", VStr "1")])])
  /\ fst r2 = (Returned, [("A", VDict [("x", VStr "1")]); ("B", VDict [("y", VStr "2")])])
  /\ visit_items doc_b [] = (Returned, [("B", VDict [("y", VStr "2")])])
  /\ fst r3 <> fst r1.
Proof. repeat split. discriminate. Qed.

End Normalizer.

(** ** The store *)

Section StoreFacts.

Import h5py.

Local Open Scope list_scope.

Lemma get_app_new (k : string) (n : node) (m : members) :
  mem k m = false -> get k (m ++ [(k, n)]) = Some n.
Proof.
  unfold mem. induction m as [|[k' x] m IH]; cbn [get app]; intros H.
  - now rewrite String.eqb_refl.
  - destruct (String.eqb k k'); [discriminate | now apply IH].
Qed.

Lemma get_app_other (k k' : string) (n : node) (m : members) :
  k <> k' -> get k (m ++ [(k', n)]) = get k m.
Proof.
  intros N. induction m as [|[k2 x] m IH]; cbn [get app].
  - apply String.eqb_neq in N. now rewrite N.
  - now rewrite IH.
Qed.

Lemma get_unlinked (k old : string) (m : members) :
  get k (filter (fun e => negb (String.eqb (fst e) old)) m)
  = if String.eqb k old then None else get k m.
Proof.
  induction m as [|[k2 x] m IH]; cbn [filter get fst].
  - now destruct (String.eqb k old).
  - destruct (String.eqb_spec k2 old) as [->|N]; cbn [negb].
    + rewrite IH. now destruct (String.eqb k old).
    + cbn [get]. rewrite IH.
      destruct (String.eqb_spec k old) as [->|N']; [|reflexivity].
      apply not_eq_sym in N. apply String.eqb_neq in N. now rewrite N.
Qed.

Lemma get_put_same (k : string) (n x : node) (m : members) :
  get k m = Some x -> get k (put k n m) = Some n.
Proof.
  induction m as [|[k2 y] m IH]; cbn [get put]; [discriminate|].
  destruct (String.eqb k k2) eqn:E; cbn [get]; rewrite E; auto.
Qed.

Lemma get_put_other (k k' : string) (n : node) (m : members) :
  k <> k' -> get k (put k' n m) = get k m.
Proof.
  intros N. induction m as [|[k2 y] m IH]; cbn [get put]; [reflexivity|].
  destruct (String.eqb_spec k' k2) as [->|N2]; cbn [get].
  - apply String.eqb_neq in N. now rewrite N.
  - now rewrite IH.
Qed.

Lemma mem_get (k : string) (m : members) (n : node) : get k m = Some n -> mem k m = true.
Proof. unfold mem. now intros ->. Qed.

End StoreFacts.

(** ** Ingest: fields, units, and the element groups *)

Section IngestFacts.

Import h5py compile_edx.

Local Open Scope list_scope.

Variable convertFloat : pyval -> pyval.
Variable format_other : pyval -> string.

Lemma owner_members_with_owner (o : owner) (m : members) (st : groups) :
  owner_members o (with_owner o m st) = m.
Proof. now destruct o. Qed.

Lemma in_subgroup_ok (o : owner) (name : string) (f : members -> res members)
    (st : groups) (ms ms' : members) (a : dict) :
  get name (owner_members o st) = Some (Group ms a) ->
  f ms = Ok ms' ->
  in_subgroup (o, name) f st
  = Ok (with_owner o (put name (Group ms' a) (owner_members o st)) st)
  /\ get name (owner_members o
                 (with_owner o (put name (Group ms' a) (owner_members o st)) st))
     = Some (Group ms' a).
Proof.
  intros G F. unfold in_subgroup. rewrite G, F. cbn [bind]. split; [reflexivity|].
  rewrite owner_members_with_owner. eapply get_put_same; eauto.
Qed.

Lemma in_subgroup_inv (o : owner) (name : string) (f : members -> res members)
    (st st' : groups) :
  in_subgroup (o, name) f st = Ok st' ->
  exists ms a ms',
    get name (owner_members o st) = Some (Group ms a)
    /\ f ms = Ok ms'
    /\ st' = with_owner o (put name (Group ms' a) (owner_members o st)) st.
Proof.
  unfold in_subgroup. intros H.
  destruct (get name (owner_members o st)) as [[d da|ms a]|] eqn:G; try discriminate.
  destruct (f ms) as [ms'|] eqn:F; [|discriminate].
  cbn [bind] in H. injection H as <-. now exists ms, a, ms'.
Qed.

Lemma mapM_map {A B : Type} (f : A -> res B) (g : A -> B) (l : list A) :
  (forall a, In a l -> f a = Ok (g a)) -> mapM f l = Ok (map g l).
Proof.
  induction l as [|a l IH]; intros H; [reflexivity|].
  cbn [mapM map]. rewrite (H a (or_introl eq_refl)). cbn [bind].
  rewrite IH by (intros b Hb; apply H; now right). reflexivity.
Qed.

(** C5: with the header fields CalibAbs and CalibLin present and coerced to
    floats, the energy axis has [len(channels) // 2] entries, entry [i] being
    [(i+1)*calibLin + calibAbs] in float arithmetic; for six channels,
    calibAbs = 0.0 and calibLin = 2.0 it is [2.0, 4.0, 6.0]. *)
Theorem make_energy_dataset_axis (edx_dict header : dict) (channels : list Z)
    (abs_raw lin_raw : pyval) (calibAbs calibLin : float) :
  dict_get "TRTSpectrumHeader" edx_dict = Some (VDict header) ->
  dict_get "CalibAbs" header = Some abs_raw ->
  dict_get "CalibLin" header = Some lin_raw ->
  convertFloat abs_raw = VFloat calibAbs ->
  convertFloat lin_raw = VFloat calibLin ->
  exists energy,
    make_energy_dataset convertFloat edx_dict channels = Ok energy
    /\ length energy = (length channels / 2)%nat
    /\ (forall i, (i < length channels / 2)%nat ->
                  nth_error energy i
                  = Some (VFloat (float_of_int (Z.of_nat i + 1) * calibLin + calibAbs)%float))
    /\ (length channels = 6%nat -> calibAbs = 0%float -> calibLin = 2%float ->
        energy = [VFloat 2; VFloat 4; VFloat 6]).
Proof.
  intros Hh Ha Hl Ca Cl.
  set (g := fun i : nat =>
              VFloat (float_of_int (Z.of_nat i + 1) * calibLin + calibAbs)%float).
  exists (map g (seq 0 (length channels / 2))).
  repeat split.
  - unfold make_energy_dataset. rewrite Hh. cbn [of_option bind subscript].
    rewrite Ha, Hl. cbn [of_option bind]. rewrite Ca, Cl.
    apply mapM_map. intros i _. reflexivity.
  - now rewrite length_map, length_seq.
  - intros i Hi. rewrite nth_error_map.
    rewrite (nth_error_nth' _ 0%nat) by now rewrite length_seq.
    now rewrite seq_nth.
  - intros L -> ->. rewrite L. reflexivity.
Qed.

Lemma get_units_percent (subkey : string) :
  subkey = "AtomPercent" \/ subkey = "MassPercent" ->
  get_units subkey
  = Some (if String.eqb subkey "AtomPercent" then "at.%" else "mass.%").
Proof. intros [-> | ->]; reflexivity. Qed.

(** The field step on a percent field, in a destination group where the
    name is free: a field named AtomPercent or MassPercent whose text
    [convertFloat] turns into the float [f] is stored as [f * 100] with the
    unit of the lookup, "at.%" or "mass.%". *)
Lemma write_field_percent (h : subgroup) (subkey raw : string) (f : float)
    (st : groups) (ms : members) (a : dict) :
  subkey = "AtomPercent" \/ subkey = "MassPercent" ->
  convertFloat (VStr raw) = VFloat f ->
  get (snd h) (owner_members (fst h) st) = Some (Group ms a) ->
  mem subkey ms = false ->
  exists st' ms' unit,
    write_field convertFloat h subkey (VStr raw) st = Ok st'
    /\ get (snd h) (owner_members (fst h) st') = Some (Group ms' a)
    /\ get_units subkey = Some unit
    /\ unit = (if String.eqb subkey "AtomPercent" then "at.%" else "mass.%")
    /\ get subkey ms' = Some (Dataset (VFloat (f * 100)%float) [("units", VStr unit)])
    /\ (subkey = "AtomPercent" -> raw = "0.42" -> f = float_0_42 ->
        get subkey ms' = Some (Dataset (VFloat 42) [("units", VStr "at.%")])).
Proof.
  intros Hk Hc Hg Hfree. destruct h as [o name]. cbn [fst snd] in *.
  pose proof (get_units_percent subkey Hk) as Hu.
  set (unit := if String.eqb subkey "AtomPercent" then "at.%" else "mass.%") in *.
  set (ds := Dataset (VFloat (f * 100)%float) []).
  destruct (in_subgroup_ok o name (create_dataset subkey (VFloat (f * 100)%float))
              st ms (ms ++ [(subkey, ds)]) a Hg) as [S1 G1].
  { unfold create_dataset, link. cbn [storable]. now rewrite Hfree. }
  set (st1 := with_owner o (put name (Group (ms ++ [(subkey, ds)]) a)
                              (owner_members o st)) st) in *.
  set (ms2 := put subkey (set_attr "units" (VStr unit) ds) (ms ++ [(subkey, ds)])).
  destruct (in_subgroup_ok o name (set_member_attr subkey "units" (VStr unit))
              st1 (ms ++ [(subkey, ds)]) ms2 a G1) as [S2 G2].
  { unfold set_member_attr, getitem. rewrite (get_app_new _ _ _ Hfree). reflexivity. }
  assert (Stored : get subkey ms2 = Some (Dataset (VFloat (f * 100)%float) [("units", VStr unit)])).
  { unfold ms2. erewrite get_put_same; [reflexivity | now apply get_app_new]. }
  eexists _, ms2, unit. split; [|split; [exact G2|]].
  - unfold write_field.
    assert (P : (String.eqb subkey "AtomPercent" || String.eqb subkey "MassPercent")%bool = true)
      by (destruct Hk as [-> | ->]; reflexivity).
    rewrite P, Hc. cbn [times_int bind]. change (float_of_int 100) with 100%float.
    fold ds. rewrite S1. cbn [bind]. rewrite Hu. exact S2.
  - repeat split; [exact Hu | exact Stored|].
    intros -> _ ->. exact Stored.
Qed.

Lemma prefix_split (p s : string) :
  prefix p s = true -> exists rest, s = (p ++ rest)%string.
Proof.
  revert s. induction p as [|c p IH]; intros s H.
  - now exists s.
  - destruct s as [|d s]; [discriminate|].
    apply prefix_head in H as [-> H]. destruct (IH s H) as [rest ->].
    now exists rest.
Qed.

(** For a non-empty mapping the loop body is the dispatch followed by the
    fields. *)
Lemma process_pair_mapping (key k0 : string) (v0 : pyval) (d : dict) (st : groups) :
  process_pair convertFloat format_other key (VDict ((k0, v0) :: d)) st
  = bind (dispatch format_other key ((k0, v0) :: d) st)
      (fun r => foldM (fun kv => write_field convertFloat (fst r) (fst kv) (snd kv))
                  (get_all_keys ((k0, v0) :: d)) (snd r)).
Proof.
  unfold process_pair.
  destruct (dispatch format_other key ((k0, v0) :: d) st) as [[h st1]|e]; reflexivity.
Qed.

(** The dispatch step on an element key, in a store that is ready for it:
    for a key that begins with "TRTPSEElement" and a mapping whose "Element"
    field is [sym], when "Result <sym>" exists with an "Atom" field and the
    name "Element <name>" is free, the group is found under the new name,
    without its "Atom" field, and the old name is gone. *)
Lemma dispatch_element_moves_group (key : string) (value : dict) (st : groups)
    (sym : string) (g : members) (a : dict) (atom : node) :
  startswith key "TRTPSEElement" = true ->
  dict_get "Element" value = Some (VStr sym) ->
  get ("Result " ++ sym)%string (result_group st) = Some (Group g a) ->
  get "Atom" g = Some atom ->
  mem ("Element " ++ replace key "TRTPSEElement " "")%string (result_group st) = false ->
  exists st',
    dispatch format_other key value st
    = Ok ((InResults, ("Element " ++ replace key "TRTPSEElement " "")%string), st')
    /\ get ("Element " ++ replace key "TRTPSEElement " "")%string (result_group st')
       = Some (Group (filter (fun e => negb (String.eqb (fst e) "Atom")) g) a)
    /\ get "Atom" (filter (fun e => negb (String.eqb (fst e) "Atom")) g) = None
    /\ get ("Result " ++ sym)%string (result_group st') = None
    /\ instrument_group st' = instrument_group st
    /\ (forall k, k <> ("Element " ++ replace key "TRTPSEElement " "")%string ->
                  k <> ("Result " ++ sym)%string ->
                  get k (result_group st') = get k (result_group st)).
Proof.
  intros Hkey Hel Hold Hatom Hfree.
  set (new_key := ("Element " ++ replace key "TRTPSEElement " "")%string) in *.
  set (old_key := ("Result " ++ sym)%string) in *.
  set (rg := result_group st) in *.
  set (rg1 := rg ++ [(new_key, Group g a)]).
  set (rg2 := filter (fun e => negb (String.eqb (fst e) old_key)) rg1).
  set (g' := filter (fun e => negb (String.eqb (fst e) "Atom")) g).
  assert (Nk : new_key <> old_key) by discriminate.
  assert (G1 : get old_key rg1 = Some (Group g a))
    by (unfold rg1; rewrite get_app_other by (apply not_eq_sym; exact Nk); exact Hold).
  assert (G2 : get new_key rg2 = Some (Group g a)).
  { unfold rg2. rewrite get_unlinked.
    apply String.eqb_neq in Nk. rewrite Nk. now apply get_app_new. }
  destruct (in_subgroup_ok InResults new_key (unlink "Atom")
              (with_owner InResults rg2 st) g g' a) as [S3 G3].
  { exact G2. }
  { unfold unlink. now rewrite (mem_get _ _ _ Hatom). }
  cbn [owner_members with_owner result_group instrument_group] in S3, G3.
  exists {| instrument_group := instrument_group st;
            result_group := put new_key (Group g' a) rg2 |}.
  split; [|split; [exact G3|]].
  - unfold dispatch, startswith in *.
    destruct (prefix_split _ _ Hkey) as [rest Ekey].
    assert (C1 : (prefix "Result" key || String.eqb key "TRTResult")%bool = false)
      by (rewrite Ekey; reflexivity).
    assert (C2 : prefix "ExtResults" key = false) by (rewrite Ekey; reflexivity).
    rewrite C1, C2, Hkey, Hel. cbn [of_option bind format_value].
    fold old_key new_key rg. unfold getitem. rewrite Hold. cbn [of_option bind].
    unfold link. rewrite Hfree. cbn [bind]. fold rg1.
    unfold unlink at 1. rewrite (mem_get _ _ _ G1). cbn [bind]. fold rg2.
    cbn [with_owner]. rewrite S3. reflexivity.
  - cbn [result_group instrument_group]. repeat split.
    + unfold g'. rewrite get_unlinked. reflexivity.
    + rewrite get_put_other by (apply not_eq_sym; exact Nk).
      unfold rg2. rewrite get_unlinked. now rewrite String.eqb_refl.
    + intros k N1 N2. rewrite get_put_other by exact N1.
      unfold rg2. rewrite get_unlinked.
      apply String.eqb_neq in N2. rewrite N2.
      unfold rg1. now apply get_app_other.
Qed.

End IngestFacts.

Section IngestExamples.

Import h5py compile_edx.

Lemma make_energy_dataset_axis_witness :
  make_energy_dataset convertFloat_sample tree_sample [0; 1; 2; 3; 4; 5]
  = Ok [VFloat 2; VFloat 4; VFloat 6].
Proof.
  destruct (make_energy_dataset_axis convertFloat_sample tree_sample
              [("CalibAbs", VStr "0.0"); ("CalibLin", VStr "2.0")] [0; 1; 2; 3; 4; 5]
              (VStr "0.0") (VStr "2.0") 0%float 2%float
              eq_refl eq_refl eq_refl eq_refl eq_refl) as (energy & E & _ & _ & V).
  rewrite E. f_equal. apply V; reflexivity.
Defined.

Lemma write_field_percent_witness :
  exists st' ms',
    write_field convertFloat_sample (InResults, "Result 26") "AtomPercent" (VStr "0.42")
      {| instrument_group := []; result_group := [("Result 26", Group [] [])] |}
    = Ok st'
    /\ get "Result 26" (result_group st') = Some (Group ms' [])
    /\ get "AtomPercent" ms' = Some (Dataset (VFloat 42) [("units", VStr "at.%")]).
Proof.
  destruct (write_field_percent convertFloat_sample (InResults, "Result 26")
              "AtomPercent" "0.42" float_0_42
              {| instrument_group := []; result_group := [("Result 26", Group [] [])] |}
              [] [] (or_introl eq_refl) eq_refl eq_refl eq_refl)
    as (st' & ms' & unit & W & G & _ & _ & _ & V).
  exists st', ms'. repeat split; [exact W | exact G | now apply V].
Defined.

Lemma dispatch_element_moves_group_witness :
  exists st',
    dispatch format_sample "TRTPSEElement Fe" [("Element", VStr "26")]
      {| instrument_group := []; result_group := results_sample |}
    = Ok ((InResults, "Element Fe"), st')
    /\ get "Element Fe" (result_group st')
       = Some (Group [("AtomPercent", Dataset (VFloat 42) [("units", VStr "at.%")])] [])
    /\ get "Result 26" (result_group st') = None.
Proof.
  destruct (dispatch_element_moves_group format_sample "TRTPSEElement Fe"
              [("Element", VStr "26")]
              {| instrument_group := []; result_group := results_sample |}
              "26" _ [] (Dataset (VFloat 26) [])
              eq_refl eq_refl eq_refl eq_refl eq_refl)
    as (st' & D & G & _ & O & _).
  exists st'. repeat split; assumption.
Defined.

(** The whole of [set_instrument_and_result_from_dict] on a small tree: the
    header goes to the instrument group without the vendor prefix, the
    result of atom 26 is created, scaled to percent, and then moved to
    "Element Fe". *)
Example set_instrument_and_result_from_dict_sample :
  set_instrument_and_result_from_dict convertFloat_sample format_sample tree_sample
    {| instrument_group := []; result_group := [] |}
  = Ok {| instrument_group :=
            [ ("SpectrumHeader",
               Group [ ("CalibAbs", Dataset (VFloat 0) [("units", VStr "keV")]);
                       ("CalibLin", Dataset (VFloat 2) [("units", VStr "keV")]) ] []) ];
          result_group :=
            [ ("Element Fe",
               Group [ ("AtomPercent", Dataset (VFloat 42) [("units", VStr "at.%")]);
                       ("Element", Dataset (VFloat 26) []) ] []) ] |}.
Proof. reflexivity. Qed.

(** An element mapping that comes before its result finds no group to move. *)
Example set_instrument_and_result_from_dict_order :
  set_instrument_and_result_from_dict convertFloat_sample format_sample
    [ ("TRTPSEElement Fe", VDict [("Element", VStr "26")]);
      ("Result 26", VDict [("Atom", VStr "26")]) ]
    {| instrument_group := []; result_group := [] |}
  = Raise KeyError.
Proof. reflexivity. Qed.

End IngestExamples.

(** ** The store writer as a whole *)

Section WriterRuns.

Import h5py compile_edx.

Local Open Scope list_scope.

Variable convertFloat : pyval -> pyval.
Variable format_other : pyval -> string.

Lemma foldM_app_inv {A S : Type} (body : A -> S -> res S) (l1 l2 : list A) (s s' : S) :
  foldM body (l1 ++ l2) s = Ok s' ->
  exists s1, foldM body l1 s = Ok s1 /\ foldM body l2 s1 = Ok s'.
Proof.
  revert s. induction l1 as [|a l1 IH]; intros s H.
  - now exists s.
  - cbn [app foldM] in *. destruct (body a s) as [s0|]; [|discriminate].
    cbn [bind] in *. now apply IH.
Qed.

Lemma foldM_keeps {A S : Type} (body : A -> S -> res S) (P : S -> Prop) (l : list A) :
  (forall a s s', body a s = Ok s' -> P s -> P s') ->
  forall s s', foldM body l s = Ok s' -> P s -> P s'.
Proof.
  intros Hb. induction l as [|a l IH]; intros s s' H Hs.
  - cbn [foldM] in H. now injection H as <-.
  - cbn [foldM] in H. destruct (body a s) as [s0|] eqn:E; [|discriminate].
    cbn [bind] in H. eapply IH; eauto.
Qed.

Lemma get_app_present (k : string) (n : node) (m l : members) :
  get k m = Some n -> get k (m ++ l) = Some n.
Proof.
  induction m as [|[k' x] m IH]; cbn [get app]; [discriminate|].
  destruct (String.eqb k k'); auto.
Qed.

Lemma put_put (k : string) (n n' : node) (m : members) :
  put k n (put k n' m) = put k n m.
Proof.
  induction m as [|[k' x] m IH]; cbn [put]; [reflexivity|].
  destruct (String.eqb k k') eqn:E; cbn [put]; rewrite E; [reflexivity | now rewrite IH].
Qed.

Lemma owner_members_with_other (o o' : owner) (m : members) (st : groups) :
  o <> o' -> owner_members o (with_owner o' m st) = owner_members o st.
Proof. destruct o, o'; intros N; try reflexivity; now destruct N. Qed.

Lemma with_owner_twice (o : owner) (m m' : members) (st : groups) :
  with_owner o m (with_owner o m' st) = with_owner o m st.
Proof. now destruct o. Qed.

(** Two updates of the same subgroup, one after the other, are one update. *)
Lemma in_subgroup_twice (h : subgroup) (f g : members -> res members)
    (st st1 st2 : groups) :
  in_subgroup h f st = Ok st1 ->
  in_subgroup h g st1 = Ok st2 ->
  in_subgroup h (fun ms => bind (f ms) g) st = Ok st2.
Proof.
  destruct h as [o name]. intros H1 H2.
  apply in_subgroup_inv in H1 as (ms & a & ms1 & G & F & ->).
  apply in_subgroup_inv in H2 as (ms' & a' & ms2 & G' & F' & ->).
  rewrite owner_members_with_owner in *.
  rewrite (get_put_same _ _ _ _ G) in G'. injection G' as <- <-.
  unfold in_subgroup. rewrite G, F. cbn [bind]. rewrite F'. cbn [bind].
  now rewrite put_put, with_owner_twice.
Qed.

(** An update of a subgroup that keeps the dataset [d] where it finds it
    keeps it in the store. *)
Lemma in_subgroup_keeps (h : subgroup) (f : members -> res members) (st st' : groups)
    (subkey : string) (d : node) :
  (forall ms ms', f ms = Ok ms' -> get subkey ms = Some d -> get subkey ms' = Some d) ->
  in_subgroup h f st = Ok st' ->
  holds_field st subkey d -> holds_field st' subkey d.
Proof.
  destruct h as [o name]. intros Hf H (o1 & name1 & ms1 & a1 & G1 & D1).
  apply in_subgroup_inv in H as (ms & a & ms' & G & F & ->).
  assert (Ho : o1 = o \/ o1 <> o) by (destruct o1, o; (now left) || (right; discriminate)).
  destruct Ho as [-> | No].
  - destruct (String.eqb_spec name1 name) as [-> | Nn].
    + rewrite G in G1. injection G1 as <- <-.
      exists o, name, ms', a. split; [|eauto].
      rewrite owner_members_with_owner. eapply get_put_same; eauto.
    + exists o, name1, ms1, a1. split; [|exact D1].
      now rewrite owner_members_with_owner, get_put_other.
  - exists o1, name1, ms1, a1. split; [|exact D1].
    now rewrite owner_members_with_other.
Qed.

Lemma unlink_keeps (name subkey : string) (d : node) (ms ms' : members) :
  subkey <> name ->
  unlink name ms = Ok ms' -> get subkey ms = Some d -> get subkey ms' = Some d.
Proof.
  intros N U G. unfold unlink in U. destruct (mem name ms); [|discriminate].
  injection U as <-. rewrite get_unlinked.
  apply String.eqb_neq in N. now rewrite N.
Qed.

Lemma create_dataset_keeps (k subkey : string) (data : pyval) (d : node)
    (ms ms' : members) :
  create_dataset k data ms = Ok ms' -> get subkey ms = Some d ->
  get subkey ms' = Some d /\ subkey <> k.
Proof.
  unfold create_dataset, link. intros C G.
  destruct (storable data); [|discriminate].
  destruct (mem k ms) eqn:M; [discriminate|]. injection C as <-.
  split; [now apply get_app_present|].
  intros ->. unfold mem in M. now rewrite G in M.
Qed.

(** A field written into a subgroup once is not touched by the writing of
    another field: a name that is taken makes the store refuse. *)
Lemma write_field_keeps (h : subgroup) (k : string) (v : pyval) (st st' : groups)
    (subkey : string) (d : node) :
  write_field convertFloat h k v st = Ok st' ->
  holds_field st subkey d -> holds_field st' subkey d.
Proof.
  intros H Hh.
  assert (Core : forall data,
             (st1 <- in_subgroup h (create_dataset k data) st ;;
              match get_units k with
              | Some u => in_subgroup h (set_member_attr k "units" (VStr u)) st1
              | None => Ok st1
              end) = Ok st' ->
             holds_field st' subkey d).
  { intros data H1.
    destruct (in_subgroup h (create_dataset k data) st) as [st1|] eqn:S1; [|discriminate].
    cbn [bind] in H1. destruct (get_units k) as [u|].
    - pose proof (in_subgroup_twice _ _ _ _ _ _ S1 H1) as S.
      eapply in_subgroup_keeps; [|exact S|exact Hh].
      intros ms ms' F G. cbv beta in F.
      destruct (create_dataset k data ms) as [ms1|] eqn:C; [|discriminate].
      cbn [bind] in F. destruct (create_dataset_keeps _ _ _ _ _ _ C G) as [G1 N].
      unfold set_member_attr in F. destruct (getitem k ms1) as [n|]; [|discriminate].
      cbn [bind] in F. injection F as <-. now rewrite get_put_other.
    - injection H1 as <-. eapply in_subgroup_keeps; [|exact S1|exact Hh].
      intros ms ms' C G. exact (proj1 (create_dataset_keeps _ _ _ _ _ _ C G)). }
  unfold write_field in H.
  destruct v; [injection H as <-; exact Hh | | | ];
    (match type of H with
     | bind ?c _ = _ => destruct c as [data|]; [|discriminate]
     end; cbn [bind] in H; exact (Core data H)).
Qed.

(** The dispatch keeps what the subgroups hold, their "Atom" fields apart:
    it adds an empty group, or removes "Atom" from one, or moves one to
    another name. *)
Lemma dispatch_keeps (key : string) (value : dict) (st st' : groups) (h : subgroup)
    (subkey : string) (d : node) :
  subkey <> "Atom" ->
  dispatch format_other key value st = Ok (h, st') ->
  holds_field st subkey d -> holds_field st' subkey d.
Proof.
  intros Na H Hh. unfold dispatch in H.
  assert (New : forall o name m',
             create_group name (owner_members o st) = Ok m' ->
             holds_field (with_owner o m' st) subkey d).
  { intros o name m' C. unfold create_group, link in C.
    destruct (mem name (owner_members o st)); [discriminate|]. injection C as <-.
    destruct Hh as (o1 & name1 & ms1 & a1 & G1 & D1).
    exists o1, name1, ms1, a1. split; [|exact D1].
    assert (Ho : o1 = o \/ o1 <> o) by (destruct o1, o; (now left) || (right; discriminate)).
    destruct Ho as [-> | No].
    - rewrite owner_members_with_owner. now apply get_app_present.
    - now rewrite owner_members_with_other. }
  destruct (startswith key "Result" || String.eqb key "TRTResult")%bool.
  { destruct (create_group key (result_group st)) as [rg|] eqn:C; [|discriminate].
    cbn [bind] in H. injection H as _ <-. exact (New InResults key rg C). }
  destruct (startswith key "ExtResults").
  { destruct (of_option KeyError (dict_get "Atom" value)) as [atom|]; [|discriminate].
    cbn [bind] in H.
    destruct (getitem ("Result " ++ format_value format_other atom) (result_group st));
      [|discriminate].
    cbn [bind] in H.
    destruct (in_subgroup (InResults, ("Result " ++ format_value format_other atom)%string)
                (unlink "Atom") st) as [st1|] eqn:S; [|discriminate].
    cbn [bind] in H. injection H as _ <-.
    eapply in_subgroup_keeps; [|exact S|exact Hh].
    intros ms ms'. now apply unlink_keeps. }
  destruct (startswith key "TRTPSEElement").
  { destruct (of_option KeyError (dict_get "Element" value)) as [el|]; [|discriminate].
    cbn [bind] in H.
    set (old_key := ("Result " ++ format_value format_other el)%string) in *.
    set (new_key := ("Element " ++ replace key "TRTPSEElement " "")%string) in *.
    unfold getitem in H.
    destruct (get old_key (result_group st)) as [tmp|] eqn:Hold; [|discriminate].
    cbn [of_option bind] in H. unfold link in H.
    destruct (mem new_key (result_group st)) eqn:Hfree; [discriminate|].
    cbn [bind] in H.
    destruct (unlink old_key (result_group st ++ [(new_key, tmp)])) as [rg2|] eqn:U;
      [|discriminate].
    cbn [bind] in H.
    destruct (in_subgroup (InResults, new_key) (unlink "Atom")
                (with_owner InResults rg2 st)) as [st2|] eqn:S; [|discriminate].
    cbn [bind] in H. injection H as _ <-.
    eapply in_subgroup_keeps; [|exact S|].
    { intros ms ms'. now apply unlink_keeps. }
    unfold unlink in U.
    destruct (mem old_key (result_group st ++ [(new_key, tmp)])); [|discriminate].
    injection U as <-.
    assert (Nk : new_key <> old_key) by discriminate.
    destruct Hh as (o1 & name1 & ms1 & a1 & G1 & D1).
    destruct o1; cbn [owner_members] in G1.
    - exists InInstrument, name1, ms1, a1. split; [exact G1 | exact D1].
    - destruct (String.eqb_spec name1 old_key) as [-> | Nn].
      + exists InResults, new_key, ms1, a1. split; [|exact D1].
        cbn [owner_members with_owner result_group]. rewrite get_unlinked.
        apply String.eqb_neq in Nk. rewrite Nk.
        rewrite Hold in G1. injection G1 as ->. now apply get_app_new.
      + exists InResults, name1, ms1, a1. split; [|exact D1].
        cbn [owner_members with_owner result_group]. rewrite get_unlinked.
        apply String.eqb_neq in Nn. rewrite Nn. now apply get_app_present. }
  destruct (create_group (replace key "TRT" "") (instrument_group st)) as [ig|] eqn:C;
    [|discriminate].
  cbn [bind] in H. injection H as _ <-. exact (New InInstrument _ ig C).
Qed.

Lemma process_pair_keeps (key : string) (v : pyval) (st st' : groups)
    (subkey : string) (d : node) :
  subkey <> "Atom" ->
  process_pair convertFloat format_other key v st = Ok st' ->
  holds_field st subkey d -> holds_field st' subkey d.
Proof.
  intros Na H Hh.
  destruct v as [| | |[|[k0 v0] m]]; try (cbn in H; injection H as <-; exact Hh).
  rewrite process_pair_mapping in H.
  destruct (dispatch format_other key ((k0, v0) :: m) st) as [[h st1]|] eqn:Dd;
    [|discriminate].
  cbn [bind fst snd] in H.
  eapply (foldM_keeps _ (fun s => holds_field s subkey d)); [|exact H|].
  - intros [k v] s s'. cbn [fst snd]. apply write_field_keeps.
  - eapply dispatch_keeps; eauto.
Qed.

(** When the field step returns on a percent field, the destination holds
    the field scaled and with its unit. *)
Lemma write_field_percent_stored (h : subgroup) (subkey raw : string) (f : float)
    (st st' : groups) :
  subkey = "AtomPercent" \/ subkey = "MassPercent" ->
  convertFloat (VStr raw) = VFloat f ->
  write_field convertFloat h subkey (VStr raw) st = Ok st' ->
  holds_field st' subkey
    (Dataset (VFloat (f * 100)%float)
       [("units", VStr (if String.eqb subkey "AtomPercent" then "at.%" else "mass.%"))]).
Proof.
  intros Hk Hc W. pose proof W as W0. unfold write_field in W0.
  assert (P : (String.eqb subkey "AtomPercent" || String.eqb subkey "MassPercent")%bool = true)
    by (destruct Hk as [-> | ->]; reflexivity).
  rewrite P, Hc in W0. cbn [times_int bind] in W0.
  destruct h as [o name].
  destruct (in_subgroup (o, name) (create_dataset subkey (VFloat (f * float_of_int 100)))
              st) as [st1|] eqn:S1; [|discriminate].
  apply in_subgroup_inv in S1 as (ms & a & ms1 & G & C & _).
  assert (Hfree : mem subkey ms = false).
  { unfold create_dataset, link in C. cbn [storable] in C.
    destruct (mem subkey ms); [discriminate | reflexivity]. }
  destruct (write_field_percent convertFloat (o, name) subkey raw f st ms a Hk Hc G Hfree)
    as (st'' & ms' & unit & W' & G' & _ & Eu & D & _).
  rewrite W in W'. injection W' as <-. subst unit.
  exists o, name, ms', a. split; assumption.
Qed.

(** C6: whenever [set_instrument_and_result_from_dict] returns, every field
    named AtomPercent or MassPercent of a mapping it traversed, whose text
    [convertFloat] turns into the float [f], is in the store as [f * 100]
    with the unit of the lookup, "at.%" for AtomPercent and "mass.%" for
    MassPercent: the group it was written into holds it under the field's
    name, whatever the later pairs did to that group.  In particular
    AtomPercent with the text "0.42" is stored as 42.0 with unit "at.%". *)
Theorem set_instrument_and_result_from_dict_percent
    (edx_dict : dict) (st st' : groups) (key : string) (value : dict)
    (subkey raw : string) (f : float) :
  set_instrument_and_result_from_dict convertFloat format_other edx_dict st = Ok st' ->
  In (key, VDict value) (get_all_keys edx_dict) ->
  In (subkey, VStr raw) (get_all_keys value) ->
  subkey = "AtomPercent" \/ subkey = "MassPercent" ->
  convertFloat (VStr raw) = VFloat f ->
  exists unit,
    get_units subkey = Some unit
    /\ unit = (if String.eqb subkey "AtomPercent" then "at.%" else "mass.%")
    /\ holds_field st' subkey (Dataset (VFloat (f * 100)%float) [("units", VStr unit)])
    /\ (subkey = "AtomPercent" -> raw = "0.42" -> f = float_0_42 ->
        holds_field st' "AtomPercent" (Dataset (VFloat 42) [("units", VStr "at.%")])).
Proof.
  intros Hrun Hpair Hleaf Hk Hc.
  set (unit := if String.eqb subkey "AtomPercent" then "at.%" else "mass.%").
  set (D := Dataset (VFloat (f * 100)%float) [("units", VStr unit)]).
  assert (Na : subkey <> "Atom") by (destruct Hk as [-> | ->]; discriminate).
  assert (Held : holds_field st' subkey D).
  { unfold set_instrument_and_result_from_dict in Hrun.
    apply in_split in Hpair as (before & after & Esplit). rewrite Esplit in Hrun.
    apply foldM_app_inv in Hrun as (s1 & _ & Hrun). cbn [foldM fst snd] in Hrun.
    destruct (process_pair convertFloat format_other key (VDict value) s1) as [s3|] eqn:P;
      [|discriminate].
    cbn [bind] in Hrun.
    eapply (foldM_keeps _ (fun s => holds_field s subkey D)); [|exact Hrun|].
    { intros [k v] s s'. cbn [fst snd]. now apply process_pair_keeps. }
    destruct value as [|[k0 v0] m]; [destruct Hleaf|].
    rewrite process_pair_mapping in P.
    destruct (dispatch format_other key ((k0, v0) :: m) s1) as [[h s2]|]; [|discriminate].
    cbn [bind fst snd] in P.
    apply in_split in Hleaf as (m1 & m2 & Em). rewrite Em in P.
    apply foldM_app_inv in P as (sa & _ & P). cbn [foldM fst snd] in P.
    destruct (write_field convertFloat h subkey (VStr raw) sa) as [sb|] eqn:W;
      [|discriminate].
    cbn [bind] in P.
    eapply (foldM_keeps _ (fun s => holds_field s subkey D)); [|exact P|].
    { intros [k v] s s'. cbn [fst snd]. apply write_field_keeps. }
    exact (write_field_percent_stored h subkey raw f sa sb Hk Hc W). }
  exists unit. split; [now apply get_units_percent|]. split; [reflexivity|].
  split; [exact Held|].
  intros -> _ ->. exact Held.
Qed.

(** C7: whenever [set_instrument_and_result_from_dict] returns, it has moved
    a group for every pair it traversed whose key begins with
    "TRTPSEElement" and whose value is a non-empty mapping.  When the pair
    is reached (the pairs before it having been written, the store being
    [s1]), the mapping has an "Element" field, the results group holds a
    group named "Result <symbol>" for it, and that group has an "Atom"
    field; the writer takes "Element <name>", the name being the key without
    the marker, as the destination of the mapping, and in the store [s2]
    that it writes the fields of the mapping into, the group is found under
    "Element <name>" without its "Atom" field and the name
    "Result <symbol>" is gone. *)
Theorem set_instrument_and_result_from_dict_moves_element
    (edx_dict : dict) (st st' : groups) (before after : list (string * pyval))
    (key : string) (value : dict) :
  set_instrument_and_result_from_dict convertFloat format_other edx_dict st = Ok st' ->
  get_all_keys edx_dict = before ++ (key, VDict value) :: after ->
  value <> [] ->
  startswith key "TRTPSEElement" = true ->
  exists s1 s2 s3 element g a,
    foldM (fun kv => process_pair convertFloat format_other (fst kv) (snd kv)) before st
    = Ok s1
    /\ dict_get "Element" value = Some element
    /\ get ("Result " ++ format_value format_other element)%string (result_group s1)
       = Some (Group g a)
    /\ mem "Atom" g = true
    /\ dispatch format_other key value s1
       = Ok ((InResults, ("Element " ++ replace key "TRTPSEElement " "")%string), s2)
    /\ get ("Element " ++ replace key "TRTPSEElement " "")%string (result_group s2)
       = Some (Group (filter (fun e => negb (String.eqb (fst e) "Atom")) g) a)
    /\ get "Atom" (filter (fun e => negb (String.eqb (fst e) "Atom")) g) = None
    /\ get ("Result " ++ format_value format_other element)%string (result_group s2) = None
    /\ foldM (fun kv =>
                write_field convertFloat
                  (InResults, ("Element " ++ replace key "TRTPSEElement " "")%string)
                  (fst kv) (snd kv))
         (get_all_keys value) s2
       = Ok s3
    /\ foldM (fun kv => process_pair convertFloat format_other (fst kv) (snd kv)) after s3
       = Ok st'.
Proof.
  intros Hrun Esplit Hne Hkey.
  unfold set_instrument_and_result_from_dict in Hrun. rewrite Esplit in Hrun.
  apply foldM_app_inv in Hrun as (s1 & Hbefore & Hrun). cbn [foldM fst snd] in Hrun.
  destruct (process_pair convertFloat format_other key (VDict value) s1) as [s3|] eqn:P;
    [|discriminate].
  cbn [bind] in Hrun.
  destruct value as [|[k0 v0] m]; [now destruct Hne|].
  rewrite process_pair_mapping in P.
  destruct (dispatch format_other key ((k0, v0) :: m) s1) as [[h s2]|] eqn:Dd;
    [|discriminate].
  cbn [bind fst snd] in P.
  pose proof Dd as Dd0. unfold dispatch, startswith in Dd0, Hkey.
  destruct (prefix_split _ _ Hkey) as [rest Ekey].
  assert (C1 : (prefix "Result" key || String.eqb key "TRTResult")%bool = false)
    by (rewrite Ekey; reflexivity).
  assert (C2 : prefix "ExtResults" key = false) by (rewrite Ekey; reflexivity).
  rewrite C1, C2, Hkey in Dd0.
  destruct (dict_get "Element" ((k0, v0) :: m)) as [element|] eqn:Hel; [|discriminate].
  cbn [of_option bind] in Dd0.
  set (old_key := ("Result " ++ format_value format_other element)%string) in *.
  set (new_key := ("Element " ++ replace key "TRTPSEElement " "")%string) in *.
  unfold getitem in Dd0.
  destruct (get old_key (result_group s1)) as [tmp|] eqn:Hold; [|discriminate].
  cbn [of_option bind] in Dd0. unfold link in Dd0.
  destruct (mem new_key (result_group s1)) eqn:Hfree; [discriminate|].
  cbn [bind] in Dd0.
  destruct (unlink old_key (result_group s1 ++ [(new_key, tmp)])) as [rg2|] eqn:U;
    [|discriminate].
  cbn [bind] in Dd0.
  destruct (in_subgroup (InResults, new_key) (unlink "Atom")
              (with_owner InResults rg2 s1)) as [st2|] eqn:S; [|discriminate].
  cbn [bind] in Dd0. injection Dd0 as <- <-.
  unfold unlink in U.
  destruct (mem old_key (result_group s1 ++ [(new_key, tmp)])); [|discriminate].
  injection U as <-.
  assert (Nk : new_key <> old_key) by discriminate.
  apply in_subgroup_inv in S as (g & a & g' & G2 & Ua & ->).
  cbn [owner_members with_owner result_group] in *.
  rewrite get_unlinked in G2.
  pose proof Nk as Nkb. apply String.eqb_neq in Nkb. rewrite Nkb in G2.
  rewrite (get_app_new _ _ _ Hfree) in G2. injection G2 as ->.
  unfold unlink in Ua. destruct (mem "Atom" g) eqn:Hatom; [|discriminate].
  injection Ua as <-.
  eexists s1, _, s3, element, g, a.
  split; [exact Hbefore|]. split; [reflexivity|]. split; [exact Hold|].
  split; [exact Hatom|]. split; [exact Dd|].
  cbn [result_group]. split; [|split; [|split; [|split; [exact P | exact Hrun]]]].
  - eapply get_put_same. rewrite get_unlinked, Nkb. now apply get_app_new.
  - rewrite get_unlinked. reflexivity.
  - rewrite get_put_other by (apply not_eq_sym; exact Nk).
    rewrite get_unlinked. now rewrite String.eqb_refl.
Qed.

End WriterRuns.

Lemma set_instrument_and_result_from_dict_percent_witness :
  exists st',
    compile_edx.set_instrument_and_result_from_dict convertFloat_sample format_sample
      tree_sample
      {| compile_edx.instrument_group := []; compile_edx.result_group := [] |}
    = Ok st'
    /\ holds_field st' "AtomPercent"
         (h5py.Dataset (VFloat 42) [("units", VStr "at.%")]).
Proof.
  assert (R : compile_edx.set_instrument_and_result_from_dict convertFloat_sample
                format_sample tree_sample
                {| compile_edx.instrument_group := []; compile_edx.result_group := [] |}
              = Ok {| compile_edx.instrument_group :=
                        [ ("SpectrumHeader",
                           h5py.Group
                             [ ("CalibAbs", h5py.Dataset (VFloat 0) [("units", VStr "keV")]);
                               ("CalibLin", h5py.Dataset (VFloat 2) [("units", VStr "keV")]) ]
                             []) ];
                      compile_edx.result_group :=
                        [ ("Element Fe",
                           h5py.Group
                             [ ("AtomPercent",
                                h5py.Dataset (VFloat 42) [("units", VStr "at.%")]);
                               ("Element", h5py.Dataset (VFloat 26) []) ] []) ] |})
    by (vm_compute; reflexivity).
  eexists. split; [exact R|].
  destruct (set_instrument_and_result_from_dict_percent convertFloat_sample format_sample
              tree_sample _ _
              "Result 26" [("Atom", VStr "26"); ("AtomPercent", VStr "0.42")]
              "AtomPercent" "0.42" float_0_42
              R
              (or_intror (or_intror (or_intror (or_introl eq_refl))))
              (or_intror (or_introl eq_refl))
              (or_introl eq_refl)
              eq_refl) as (unit & _ & _ & _ & V).
  now apply V.
Defined.

(** The extended results of an atom go into the group of its results; a
    percent field that both carry is refused by the store the second time,
    and the writer stops there: the second value is never stored. *)
Lemma set_instrument_and_result_from_dict_repeated_field :
  In ("ExtResults 26", VDict [("Atom", VStr "26"); ("AtomPercent", VStr "2.0")])
     (compile_edx.get_all_keys tree_repeated_field)
  /\ In ("AtomPercent", VStr "2.0")
        (compile_edx.get_all_keys [("Atom", VStr "26"); ("AtomPercent", VStr "2.0")])
  /\ convertFloat_sample (VStr "2.0") = VFloat 2
  /\ compile_edx.set_instrument_and_result_from_dict convertFloat_sample format_sample
       tree_repeated_field
       {| compile_edx.instrument_group := []; compile_edx.result_group := [] |}
     = Raise StoreError.
Proof.
  split; [|split; [|split]].
  - cbn. right. right. right. left. reflexivity.
  - cbn. right. left. reflexivity.
  - reflexivity.
  - vm_compute. reflexivity.
Qed.

Lemma set_instrument_and_result_from_dict_moves_element_witness :
  exists s1 s2,
    foldM (fun kv =>
             compile_edx.process_pair convertFloat_sample format_sample (fst kv) (snd kv))
      [ ("TRTSpectrumHeader", VDict [("CalibAbs", VStr "0.0"); ("CalibLin", VStr "2.0")]);
        ("CalibAbs", VStr "0.0"); ("CalibLin", VStr "2.0");
        ("Result 26", VDict [("Atom", VStr "26"); ("AtomPercent", VStr "0.42")]);
        ("Atom", VStr "26"); ("AtomPercent", VStr "0.42") ]
      {| compile_edx.instrument_group := []; compile_edx.result_group := [] |}
    = Ok s1
    /\ compile_edx.dispatch format_sample "TRTPSEElement Fe" [("Element", VStr "26")] s1
       = Ok ((compile_edx.InResults, "Element Fe"), s2)
    /\ h5py.get "Element Fe" (compile_edx.result_group s2)
       = Some (h5py.Group
                 [("AtomPercent", h5py.Dataset (VFloat 42) [("units", VStr "at.%")])] [])
    /\ h5py.get "Result 26" (compile_edx.result_group s2) = None.
Proof.
  assert (R : compile_edx.set_instrument_and_result_from_dict convertFloat_sample
                format_sample tree_sample
                {| compile_edx.instrument_group := []; compile_edx.result_group := [] |}
              = Ok {| compile_edx.instrument_group :=
                        [ ("SpectrumHeader",
                           h5py.Group
                             [ ("CalibAbs", h5py.Dataset (VFloat 0) [("units", VStr "keV")]);
                               ("CalibLin", h5py.Dataset (VFloat 2) [("units", VStr "keV")]) ]
                             []) ];
                      compile_edx.result_group :=
                        [ ("Element Fe",
                           h5py.Group
                             [ ("AtomPercent",
                                h5py.Dataset (VFloat 42) [("units", VStr "at.%")]);
                               ("Element", h5py.Dataset (VFloat 26) []) ] []) ] |})
    by (vm_compute; reflexivity).
  destruct (set_instrument_and_result_from_dict_moves_element convertFloat_sample
              format_sample tree_sample _ _
              [ ("TRTSpectrumHeader",
                 VDict [("CalibAbs", VStr "0.0"); ("CalibLin", VStr "2.0")]);
                ("CalibAbs", VStr "0.0"); ("CalibLin", VStr "2.0");
                ("Result 26", VDict [("Atom", VStr "26"); ("AtomPercent", VStr "0.42")]);
                ("Atom", VStr "26"); ("AtomPercent", VStr "0.42") ]
              [("Element", VStr "26")]
              "TRTPSEElement Fe" [("Element", VStr "26")]
              R eq_refl (fun E => nil_cons (eq_sym E)) eq_refl)
    as (s1 & s2 & s3 & element & g & a & B & El & Gold & _ & Dd & Gnew & _ & Gone & _).
  injection El as <-.
  exists s1, s2. split; [exact B|]. split; [exact Dd|]. split; [|exact Gone].
  vm_compute in B. injection B as <-.
  vm_compute in Gold. injection Gold as <- <-. exact Gnew.
Defined.

(** The normalizer names a Result after any "Atom" below it: when the
    "Atom" is not a leaf of the Result itself, the mapping of the Result has
    no "Atom" field. *)
Example visit_items_result_without_atom_field :
  compile_edx.visit_items
    (xml.Elem "Result" [] None
       [xml.Elem "Sub" [] None [leaf "Atom" "26"]; leaf "AtomPercent" "0.42"])
    []
  = (compile_edx.Returned,
     [ ("Result 26", VDict [("AtomPercent", VStr "0.42")]);
       ("Sub", VDict [("Atom", VStr "26")]) ]).
Proof. reflexivity. Qed.

(** A result whose "Atom" is not among its own leaves is filed without an
    "Atom" field; when its element mapping is reached the group
    "Result 26" exists, and the writer stops with [KeyError] on the removal
    of the field. *)
Lemma set_instrument_and_result_from_dict_without_atom :
  exists s1,
    compile_edx.process_pair convertFloat_sample format_sample "Result 26"
      (VDict [("AtomPercent", VStr "0.42")])
      {| compile_edx.instrument_group := []; compile_edx.result_group := [] |}
    = Ok s1
    /\ h5py.get "Result 26" (compile_edx.result_group s1)
       = Some (h5py.Group
                 [("AtomPercent", h5py.Dataset (VFloat 42) [("units", VStr "at.%")])] [])
    /\ compile_edx.get_all_keys tree_without_atom
       = [ ("Result 26", VDict [("AtomPercent", VStr "0.42")]);
           ("AtomPercent", VStr "0.42");
           ("TRTPSEElement Fe", VDict [("Element", VStr "26")]);
           ("Element", VStr "26") ]
    /\ compile_edx.set_instrument_and_result_from_dict convertFloat_sample format_sample
         tree_without_atom
         {| compile_edx.instrument_group := []; compile_edx.result_group := [] |}
       = Raise KeyError.
Proof.
  eexists. split; [vm_compute; reflexivity|].
  split; [vm_compute; reflexivity|]. split; [reflexivity|]. vm_compute. reflexivity.
Qed.

(** ** The grid assemblers *)

Section Assemblers.

Import h5py read_hdf5.

Local Open Scope list_scope.

Variable position_of : pyval -> res float.
Variable sorted_set : list (float * float) -> list (float * float).
Variable coord_text : float -> string.
Variable E T : Type.

Lemma bind_ext {A B : Type} (c : res A) (k k' : A -> res B) :
  (forall a, k a = k' a) -> bind c k = bind c k'.
Proof. intros H. destruct c; cbn [bind]; [apply H | reflexivity]. Qed.

(** A loop with [continue] on a test runs its body on the positions that
    fail the test, in order. *)
Lemma positions_loop_filter (edge : float -> float -> bool)
    (step : float -> float -> E -> res E) (positions : list (float * float)) (env : E) :
  positions_loop edge step positions env
  = foldM (fun pos => step (fst pos) (snd pos))
      (filter (fun pos => negb (edge (fst pos) (snd pos))) positions) env.
Proof.
  revert env. induction positions as [|[x y] positions IH]; intros env; [reflexivity|].
  unfold positions_loop in *. cbn [foldM filter fst snd].
  destruct (edge x y); cbn [negb bind foldM fst snd].
  - apply IH.
  - destruct (step x y env) as [env'|e]; cbn [bind]; [apply IH | reflexivity].
Qed.

(** The two edge tests, and the loops that [continue] on them: with
    exclusion on the first test is |x| + |y| >= 60 and the second
    |x| + |y| > 60; with exclusion off neither holds anywhere. *)
Lemma edge_tests_and_loops :
  (forall x y,
      edge_full_dataset x y true = PrimFloat.leb 60 (PrimFloat.abs x + PrimFloat.abs y)%float
      /\ edge_measurement_data x y true
         = PrimFloat.ltb 60 (PrimFloat.abs x + PrimFloat.abs y)%float
      /\ edge_full_dataset x y false = false
      /\ edge_measurement_data x y false = false)
  /\ (forall (step : float -> float -> E -> res E) positions env,
        positions_loop (fun x y => edge_full_dataset x y true) step positions env
        = foldM (fun pos => step (fst pos) (snd pos))
            (filter (fun pos =>
                       negb (PrimFloat.leb 60
                               (PrimFloat.abs (fst pos) + PrimFloat.abs (snd pos))%float))
                    positions) env)
  /\ (forall (step : float -> float -> E -> res E) positions env,
        positions_loop (fun x y => edge_measurement_data x y true) step positions env
        = foldM (fun pos => step (fst pos) (snd pos))
            (filter (fun pos =>
                       negb (PrimFloat.ltb 60
                               (PrimFloat.abs (fst pos) + PrimFloat.abs (snd pos))%float))
                    positions) env)
  /\ edge_full_dataset 30 30 true = true
  /\ edge_measurement_data 30 30 true = false.
Proof.
  assert (P : forall x y,
             edge_full_dataset x y true
             = PrimFloat.leb 60 (PrimFloat.abs x + PrimFloat.abs y)%float
             /\ edge_measurement_data x y true
                = PrimFloat.ltb 60 (PrimFloat.abs x + PrimFloat.abs y)%float
             /\ edge_full_dataset x y false = false
             /\ edge_measurement_data x y false = false).
  { intros x y. unfold edge_full_dataset, edge_measurement_data.
    now rewrite !andb_true_r, !andb_false_r. }
  split; [exact P|]. repeat split.
  - intros step positions env. rewrite positions_loop_filter.
    f_equal. apply filter_ext. intros [x y]. cbn [fst snd]. now rewrite (proj1 (P x y)).
  - intros step positions env. rewrite positions_loop_filter.
    f_equal. apply filter_ext. intros [x y]. cbn [fst snd].
    now rewrite (proj1 (proj2 (P x y))).
Qed.

Variable start : list (float * float) -> E.
Variable edx_step moke_step xrd_step : members -> float -> float -> E -> res E.
Variable finish_full : pyval * pyval -> E -> res T.
Variable fresh : E.
Variable measurement_step :
  members -> string -> list (float * float) -> float -> float -> E -> res E.
Variable units_step : string -> pyval * pyval -> E -> res E.
Variable make_tree : E -> T.

(** The three loops of [get_full_dataset] all use the first test, the loop
    of [get_measurement_data] the second. *)
Lemma get_full_dataset_loops (hdf5_file : members) (exclude : bool) :
  get_full_dataset position_of sorted_set coord_text E T start edx_step moke_step xrd_step
    finish_full hdf5_file exclude
  = (positions <- get_all_positions position_of sorted_set coord_text hdf5_file "EDX" ;;
     position_units <- get_position_units coord_text hdf5_file "EDX" ;;
     env <- foldM (fun pos => edx_step hdf5_file (fst pos) (snd pos))
              (filter (fun pos => negb (edge_full_dataset (fst pos) (snd pos) exclude))
                 positions)
              (start positions) ;;
     positions <- get_all_positions position_of sorted_set coord_text hdf5_file "MOKE" ;;
     env <- foldM (fun pos => moke_step hdf5_file (fst pos) (snd pos))
              (filter (fun pos => negb (edge_full_dataset (fst pos) (snd pos) exclude))
                 positions)
              env ;;
     positions <- get_all_positions position_of sorted_set coord_text hdf5_file "XRD" ;;
     env <- foldM (fun pos => xrd_step hdf5_file (fst pos) (snd pos))
              (filter (fun pos => negb (edge_full_dataset (fst pos) (snd pos) exclude))
                 positions)
              env ;;
     finish_full position_units env).
Proof.
  unfold get_full_dataset.
  repeat (apply bind_ext; intros ?; rewrite ?positions_loop_filter).
  reflexivity.
Qed.

Lemma foldM_ext {A S : Type} (f g : A -> S -> res S) (l : list A) (s : S) :
  (forall a s, f a s = g a s) -> foldM f l s = foldM g l s.
Proof.
  intros H. revert s. induction l as [|a l IH]; intros s; [reflexivity|].
  cbn [foldM]. rewrite H. apply bind_ext. exact IH.
Qed.

(** With exclusion on, each loop of [get_full_dataset] runs its body on the
    positions with |x| + |y| >= 60 false. *)
Lemma get_full_dataset_excluding (hdf5_file : members) :
  get_full_dataset position_of sorted_set coord_text E T start edx_step moke_step xrd_step
    finish_full hdf5_file true
  = (positions <- get_all_positions position_of sorted_set coord_text hdf5_file "EDX" ;;
     position_units <- get_position_units coord_text hdf5_file "EDX" ;;
     env <- foldM (fun pos => edx_step hdf5_file (fst pos) (snd pos))
              (filter (fun pos =>
                         negb (PrimFloat.leb 60
                                 (PrimFloat.abs (fst pos) + PrimFloat.abs (snd pos))%float))
                 positions)
              (start positions) ;;
     positions <- get_all_positions position_of sorted_set coord_text hdf5_file "MOKE" ;;
     env <- foldM (fun pos => moke_step hdf5_file (fst pos) (snd pos))
              (filter (fun pos =>
                         negb (PrimFloat.leb 60
                                 (PrimFloat.abs (fst pos) + PrimFloat.abs (snd pos))%float))
                 positions)
              env ;;
     positions <- get_all_positions position_of sorted_set coord_text hdf5_file "XRD" ;;
     env <- foldM (fun pos => xrd_step hdf5_file (fst pos) (snd pos))
              (filter (fun pos =>
                         negb (PrimFloat.leb 60
                                 (PrimFloat.abs (fst pos) + PrimFloat.abs (snd pos))%float))
                 positions)
              env ;;
     finish_full position_units env).
Proof.
  unfold get_full_dataset.
  repeat (apply bind_ext; intros ?;
          rewrite ?(proj1 (proj2 edge_tests_and_loops))).
  reflexivity.
Qed.

(** With exclusion on, the loop of [get_measurement_data] runs its body on
    the positions with |x| + |y| > 60 false. *)
Lemma measurement_tree_excluding (hdf5_file : members) (datatypes : list string) :
  measurement_tree position_of sorted_set coord_text E T fresh measurement_step units_step
    make_tree hdf5_file datatypes true
  = (env <-
       foldM (fun (data_type : string) (env : E) =>
                positions <- get_all_positions position_of sorted_set coord_text
                               hdf5_file data_type ;;
                env <- foldM (fun pos =>
                                measurement_step hdf5_file data_type positions
                                  (fst pos) (snd pos))
                         (filter (fun pos =>
                                    negb (PrimFloat.ltb 60
                                            (PrimFloat.abs (fst pos)
                                             + PrimFloat.abs (snd pos))%float))
                            positions)
                         env ;;
                position_units <- get_position_units coord_text hdf5_file data_type ;;
                units_step data_type position_units env)
             datatypes fresh ;;
     Ok (make_tree env)).
Proof.
  unfold measurement_tree. f_equal.
  apply foldM_ext. intros data_type env.
  apply bind_ext. intros positions.
  now rewrite (proj1 (proj2 (proj2 edge_tests_and_loops))).
Qed.

(** C10: a [data_type] that is none of "all", "edx", "moke", "xrd" once
    lowered makes [get_measurement_data] print one line and return the
    integer 1: nothing is raised, and the value is not a tree. *)
Theorem get_measurement_data_invalid_type
    (hdf5_file : members) (data_type : string) (exclude_wafer_edges : bool) :
  in_list (lower data_type) ["all"; "edx"; "moke"; "xrd"] = false ->
  get_measurement_data position_of sorted_set coord_text E T fresh measurement_step units_step
    make_tree hdf5_file data_type exclude_wafer_edges
  = (Ok (RetInt 1), [invalid_data_type]).
Proof.
  intros H. unfold get_measurement_data. cbn [in_list existsb] in *.
  apply orb_false_iff in H as [Hall Hrest]. now rewrite Hall, Hrest.
Qed.

End Assemblers.

Lemma get_measurement_data_invalid_type_witness :
  read_hdf5.get_measurement_data (fun _ => Raise TypeError) (fun l => l) (fun _ => "") unit unit tt
    (fun _ _ _ _ _ env => Ok env) (fun _ _ env => Ok env) (fun env => env)
    [] "SEM" true
  = (Ok (read_hdf5.RetInt 1), [read_hdf5.invalid_data_type]).
Proof.
  apply (get_measurement_data_invalid_type (fun _ => Raise TypeError) (fun l => l)
           (fun _ => "") unit unit tt (fun _ _ _ _ _ env => Ok env) (fun _ _ env => Ok env)
           (fun env => env) [] "SEM" true).
  reflexivity.
Defined.

(** C8: with edge exclusion on, [get_full_dataset] runs the body of each of
    its three loops exactly on the positions where |x| + |y| >= 60 is false,
    and [get_measurement_data] runs the body of its loop exactly on the
    positions where |x| + |y| > 60 is false: the two assemblers compare the
    same cutoff differently.  On a wafer with scans at (0,0), (30,30) and
    (35,30), the first visits (0,0) alone in each category, the second (0,0)
    and (30,30): the position whose sum is exactly 60 is left out by the
    first and kept by the second. *)
Theorem edge_exclusion_comparators :
  (forall (position_of : pyval -> res float)
          (sorted_set : list (float * float) -> list (float * float))
          (coord_text : float -> string) (E T : Type)
          (start : list (float * float) -> E)
          (edx_step moke_step xrd_step : h5py.members -> float -> float -> E -> res E)
          (finish_full : pyval * pyval -> E -> res T) (hdf5_file : h5py.members),
      read_hdf5.get_full_dataset position_of sorted_set coord_text E T start
        edx_step moke_step xrd_step finish_full hdf5_file true
      = (positions <- read_hdf5.get_all_positions position_of sorted_set coord_text
                        hdf5_file "EDX" ;;
         position_units <- read_hdf5.get_position_units coord_text hdf5_file "EDX" ;;
         env <- foldM (fun pos => edx_step hdf5_file (fst pos) (snd pos))
                  (filter (fun pos =>
                             negb (PrimFloat.leb 60
                                     (PrimFloat.abs (fst pos) + PrimFloat.abs (snd pos))%float))
                     positions)
                  (start positions) ;;
         positions <- read_hdf5.get_all_positions position_of sorted_set coord_text
                        hdf5_file "MOKE" ;;
         env <- foldM (fun pos => moke_step hdf5_file (fst pos) (snd pos))
                  (filter (fun pos =>
                             negb (PrimFloat.leb 60
                                     (PrimFloat.abs (fst pos) + PrimFloat.abs (snd pos))%float))
                     positions)
                  env ;;
         positions <- read_hdf5.get_all_positions position_of sorted_set coord_text
                        hdf5_file "XRD" ;;
         env <- foldM (fun pos => xrd_step hdf5_file (fst pos) (snd pos))
                  (filter (fun pos =>
                             negb (PrimFloat.leb 60
                                     (PrimFloat.abs (fst pos) + PrimFloat.abs (snd pos))%float))
                     positions)
                  env ;;
         finish_full position_units env))
  /\ (forall (position_of : pyval -> res float)
             (sorted_set : list (float * float) -> list (float * float))
             (coord_text : float -> string) (E T : Type) (fresh : E)
             (measurement_step :
                h5py.members -> string -> list (float * float) -> float -> float -> E -> res E)
             (units_step : string -> pyval * pyval -> E -> res E) (make_tree : E -> T)
             (hdf5_file : h5py.members) (data_type : string),
         read_hdf5.get_measurement_data position_of sorted_set coord_text E T fresh
           measurement_step units_step make_tree hdf5_file data_type true
         = let tree (datatypes : list string) : res (read_hdf5.retval T) :=
             env <-
               foldM (fun (data_type : string) (env : E) =>
                        positions <- read_hdf5.get_all_positions position_of sorted_set
                                       coord_text hdf5_file data_type ;;
                        env <- foldM (fun pos =>
                                        measurement_step hdf5_file data_type positions
                                          (fst pos) (snd pos))
                                 (filter (fun pos =>
                                            negb (PrimFloat.ltb 60
                                                    (PrimFloat.abs (fst pos)
                                                     + PrimFloat.abs (snd pos))%float))
                                    positions)
                                 env ;;
                        position_units <- read_hdf5.get_position_units coord_text
                                            hdf5_file data_type ;;
                        units_step data_type position_units env)
                     datatypes fresh ;;
             Ok (read_hdf5.RetObject (make_tree env)) in
           if String.eqb (lower data_type) "all" then (tree ["EDX"; "MOKE"; "XRD"], [])
           else if negb (in_list (lower data_type) ["edx"; "moke"; "xrd"]) then
             (Ok (read_hdf5.RetInt 1), [read_hdf5.invalid_data_type])
           else (tree [data_type], []))
  /\ read_hdf5.get_full_dataset position_of_sample (fun l => l) (fun _ => "") _ _
       (fun _ => []) (fun _ => record_step "EDX") (fun _ => record_step "MOKE")
       (fun _ => record_step "XRD") (fun _ env => Ok env) wafer_sample true
     = Ok [ ("EDX", (0%float, 0%float)); ("MOKE", (0%float, 0%float));
            ("XRD", (0%float, 0%float)) ]
  /\ read_hdf5.get_measurement_data position_of_sample (fun l => l) (fun _ => "") _ _
       [] (fun _ data_type _ => record_step data_type) (fun _ _ env => Ok env)
       (fun env => env) wafer_sample "all" true
     = (Ok (read_hdf5.RetObject
              [ ("EDX", (0%float, 0%float)); ("EDX", (30%float, 30%float));
                ("MOKE", (0%float, 0%float)); ("MOKE", (30%float, 30%float));
                ("XRD", (0%float, 0%float)); ("XRD", (30%float, 30%float)) ]),
        []).
Proof.
  split; [|split; [|split]].
  - intros. apply get_full_dataset_excluding.
  - intros. unfold read_hdf5.get_measurement_data.
    rewrite !measurement_tree_excluding. cbv zeta.
    destruct (String.eqb (lower data_type) "all").
    + f_equal. now destruct (foldM _ _ _).
    + destruct (negb _); [reflexivity|].
      f_equal. now destruct (foldM _ _ _).
  - reflexivity.
  - reflexivity.
Qed.

(** A valid type is checked without regard to case and goes on to read the
    file: on an empty file the start group is not found. *)
Example get_measurement_data_valid_type :
  read_hdf5.get_measurement_data (fun _ => Raise TypeError) (fun l => l) (fun _ => "") unit unit tt
    (fun _ _ _ _ _ env => Ok env) (fun _ _ env => Ok env) (fun env => env)
    [] "Moke" true
  = (Raise ValueError, []).
Proof. reflexivity. Qed.

(** ** Compaction onto the canonical grid *)

Section CompactionFacts.

Import h5py read_hdf5.

Local Open Scope list_scope.



Lemma put_app_new (k : string) (x n : node) (m : members) :
  mem k m = false -> put k x (m ++ [(k, n)]) = m ++ [(k, x)].
Proof.
  unfold mem. induction m as [|[k' y] m IH]; cbn [get put app]; intros H.
  - now rewrite String.eqb_refl.
  - destruct (String.eqb k k'); [discriminate | now rewrite IH].
Qed.

Lemma create_dataset_fresh (k : string) (v : pyval) (m : members) :
  mem k m = false -> storable v = true ->
  create_dataset k v m = Ok (m ++ [(k, Dataset v [])]).
Proof. intros H S. unfold create_dataset, link. now rewrite S, H. Qed.

Lemma set_member_attr_last (k a : string) (v : pyval) (n : node) (m : members) :
  mem k m = false ->
  set_member_attr k a v (m ++ [(k, n)]) = Ok (m ++ [(k, set_attr a v n)]).
Proof.
  intros H. unfold set_member_attr, getitem.
  rewrite (get_app_new _ _ _ H). cbn [of_option bind]. now rewrite put_app_new.
Qed.








Lemma valid_name_spec (s : string) :
  valid_name s = true ->
  str_mem "/" s = false /\ String.eqb s "" = false /\ String.eqb s "." = false.
Proof.
  unfold valid_name. intros H.
  apply andb_true_iff in H as [H H3]. apply andb_true_iff in H as [H1 H2].
  repeat split; now apply negb_true_iff.
Qed.

(** A path of two names is followed one name at a time. *)
Lemma open_path_two (root : members) (group name : string) :
  valid_name group = true -> valid_name name = true ->
  open_path root (group ++ "/" ++ name)
  = (g <- getitem group root ;;
     match g with
     | Group ms _ => getitem name ms
     | Dataset _ _ => Raise KeyError
     end).
Proof.
  intros Vg Vn.
  apply valid_name_spec in Vg as (G1 & G2 & G3).
  apply valid_name_spec in Vn as (N1 & N2 & N3).
  unfold open_path. cbn [append].
  rewrite split_char_two by assumption.
  cbn [walk]. rewrite G2, G3. cbn [orb].
  destruct (getitem group root) as [[d da|ms ma]|e]; cbn [bind]; try reflexivity.
  - now rewrite N2, N3.
  - rewrite N2, N3. cbn [orb]. now destruct (getitem name ms).
Qed.

Lemma coord_list_valid : forallb valid_name coord_list = true.
Proof. vm_compute. reflexivity. Qed.

Lemma coord_valid (coord : string) : In coord coord_list -> valid_name coord = true.
Proof.
  intros H. pose proof coord_list_valid as V.
  rewrite forallb_forall in V. now apply V.
Qed.

Variable py_str : pyval -> string.


End CompactionFacts.

Section CompactionExamples.

Import h5py read_hdf5.




End CompactionExamples.

(* ================================================================= *)
(** * Part III: further properties of the code *)
(* ================================================================= *)

(** ** The normalizer: what a visit touches, when it returns, what it builds *)

Section NormalizerMore.

Import xml compile_edx.

(** A call that omits the accumulator leaves in the shared default every
    entry whose key is not a name that the visit files: what earlier calls
    left there stays. *)
Theorem call_visit_items_keeps_other_entries (item : Element) (shared : dict) (k : string) :
  ~ In k (visited_names item) ->
  dict_get k (snd (call_visit_items item None shared)) = dict_get k shared.
Proof.
  intros H. cbn [call_visit_items snd]. now apply visit_items_frame.
Qed.

Lemma call_visit_items_keeps_other_entries_witness :
  dict_get "A" (snd (call_visit_items doc_b None [("A", VDict [("x", VStr "1")])]))
  = Some (VDict [("x", VStr "1")]).
Proof.
  apply (call_visit_items_keeps_other_entries doc_b [("A", VDict [("x", VStr "1")])] "A").
  cbn. intros [H|H]; [discriminate H | exact H].
Defined.

Lemma entered_cases (c : Element) :
  entered c = (negb (in_list (tag c) parse_ignore)
               && match children c with [] => false | _ :: _ => true end).
Proof. unfold entered, ignored, is_leaf. now destruct (children c). Qed.

Lemma children_loop_returns (p : string) (cs : list Element) :
  Forall (fun c => forall acc, fst (visit_items c acc) = Returned <-> names_resolve c = true)
         cs ->
  forall d, holds_dict p d ->
            (fst (children_loop visit_items p cs d) = Returned
             <-> resolves_children names_resolve cs = true).
Proof.
  intros F. induction F as [|c cs Hc F IH]; intros d Hd; [cbn; tauto|].
  cbn [children_loop resolves_children]. rewrite entered_cases.
  destruct (in_list (tag c) parse_ignore) eqn:Ig; cbn [negb andb]; [now apply IH|].
  destruct (children c) as [|c1 cc] eqn:Ch.
  - destruct Hd as [m Hm].
    destruct (set_nested_at d p (tag c) (text_value c) m Hm) as (d1 & S & Hd1).
    rewrite S. apply IH. eexists; eauto.
  - specialize (Hc d). pose proof (visit_items_holds c p d Hd) as Hd1.
    destruct (visit_items c d) as [[|e] d1]; cbn [fst snd] in *.
    + rewrite (proj1 Hc eq_refl). cbn [andb]. now apply IH.
    + destruct (names_resolve c).
      * destruct Hc as [_ Hc]. discriminate (Hc eq_refl).
      * cbn [andb]. split; discriminate.
Qed.

(** A visit returns exactly when the naming succeeds at every element it
    has to name. *)
Lemma visit_items_returns_iff (item : Element) (acc : dict) :
  fst (visit_items item acc) = Returned <-> names_resolve item = true.
Proof.
  revert acc. induction item as [tg at_ tx cs IH] using Element_forall_ind.
  intros acc. rewrite visit_items_eq. cbn [names_resolve children].
  destruct (parent_name_of (Elem tg at_ tx cs)) as [p|e]; cbn [andb fst].
  - apply children_loop_returns; [exact IH|]. exists []. apply dict_get_set_eq.
  - split; discriminate.
Qed.

Lemma attrib_get_has (k : string) (a : list (string * string)) :
  match attrib_get k a with Ok _ => true | Raise _ => false end
  = existsb (fun kv => String.eqb k (fst kv)) a.
Proof.
  induction a as [|[k' v] a IH]; cbn [attrib_get existsb fst]; [reflexivity|].
  now destruct (String.eqb k k').
Qed.

Lemma atom_name_bound (t : string) (l : list Element) (p : option string) :
  match bind (atom_name t l p) (of_option UnboundLocalError) with
  | Ok _ => true
  | Raise _ => false
  end
  = (forallb has_text (filter (fun c => String.eqb (tag c) "Atom") l)
     && match filter (fun c => String.eqb (tag c) "Atom") l with
        | [] => match p with Some _ => true | None => false end
        | _ :: _ => true
        end)%bool.
Proof.
  revert p. induction l as [|c l IH]; intros p.
  - now destruct p.
  - cbn [atom_name filter]. destruct (String.eqb (tag c) "Atom").
    + cbn [forallb]. unfold has_text at 1. destruct (text c) as [tx|]; [|reflexivity].
      rewrite IH. cbn [andb].
      now destruct (filter (fun c => String.eqb (tag c) "Atom") l);
        rewrite ?andb_true_r.
    + apply IH.
Qed.

Lemma nameable_spec (item : Element) :
  nameable item = match parent_name_of item with Ok _ => true | Raise _ => false end.
Proof.
  unfold nameable, parent_name_of.
  destruct (String.eqb (tag item) "ClassInstance").
  - destruct (attrib_get "Type" (attrib item)) as [ty|]; [|reflexivity].
    cbn [bind]. destruct (String.eqb ty "TRTPSEElement"); [|reflexivity].
    unfold has_attrib. rewrite <- attrib_get_has.
    now destruct (attrib_get "Name" (attrib item)).
  - destruct (String.eqb (tag item) "Result" || String.eqb (tag item) "ExtResults")%bool;
      [|reflexivity].
    rewrite atom_name_bound. unfold atoms.
    destruct (filter (fun c => String.eqb (tag c) "Atom") (iter item)); [reflexivity|].
    now rewrite andb_true_r.
Qed.

Lemma all_nameable_names_resolve (item : Element) : all_nameable item = names_resolve item.
Proof.
  induction item as [tg at_ tx cs IH] using Element_forall_ind.
  cbn [all_nameable names_resolve]. rewrite nameable_spec. f_equal.
  induction IH as [|c cs Hc _ IHcs]; [reflexivity|].
  cbn [resolves_children]. now rewrite Hc, IHcs.
Qed.

(** A visit returns, rather than raises, exactly when the item and every
    descendant that the recursion enters can be named: a ClassInstance has
    its "Type" attribute, and its "Name" when the type is TRTPSEElement; a
    Result or ExtResults has at least one "Atom" among itself and its
    descendants, and every one of these "Atom" elements has a text.  Leaf
    texts and ignored children play no part. *)
Theorem visit_items_returns_iff_nameable (item : Element) (acc : dict) :
  fst (visit_items item acc) = Returned <-> all_nameable item = true.
Proof. rewrite all_nameable_names_resolve. apply visit_items_returns_iff. Qed.

(** One "Atom" without text is enough to stop the visit of a Result, also
    when another "Atom" has a text. *)
Example visit_items_atom_without_text :
  all_nameable (Elem "Result" [] None [leaf "Atom" "26"; Elem "Atom" [] None []]) = false
  /\ visit_items (Elem "Result" [] None [leaf "Atom" "26"; Elem "Atom" [] None []]) []
     = (Raised TypeError, []).
Proof. split; reflexivity. Qed.

(** A naming failure at the item itself leaves the accumulator as it was. *)
Theorem visit_items_unnamed_root (item : Element) (acc : dict) (e : exn) :
  parent_name_of item = Raise e -> visit_items item acc = (Raised e, acc).
Proof. intros H. now rewrite visit_items_eq, H. Qed.

Lemma visit_items_unnamed_root_witness :
  visit_items (Elem "Result" [] None [leaf "AtomPercent" "0.42"]) [("A", VDict [])]
  = (Raised UnboundLocalError, [("A", VDict [])]).
Proof.
  apply (visit_items_unnamed_root (Elem "Result" [] None [leaf "AtomPercent" "0.42"])).
  reflexivity.
Defined.

Lemma forallb_dict_set (P : pyval -> bool) (k : string) (v : pyval) (d : dict) :
  P v = true -> forallb (fun kv => P (snd kv)) d = true ->
  forallb (fun kv => P (snd kv)) (dict_set k v d) = true.
Proof.
  intros Hv. induction d as [|[k' v'] d IH]; cbn [dict_set forallb snd]; intros H.
  - now rewrite Hv.
  - apply andb_true_iff in H as [H1 H2].
    destruct (String.eqb k k'); cbn [forallb snd].
    + now rewrite Hv, H2.
    + now rewrite H1, IH.
Qed.

Lemma flat_dict_get (k : string) (d : dict) (v : pyval) :
  flat d = true -> dict_get k d = Some v -> flat_value v = true.
Proof.
  unfold flat. induction d as [|[k' v'] d IH]; cbn [forallb dict_get snd]; [discriminate|].
  intros H G. apply andb_true_iff in H as [H1 H2].
  destruct (String.eqb k k'); [now injection G as <- | now apply IH].
Qed.

Lemma set_nested_flat (d d' : dict) (p key : string) (v : pyval) :
  scalar v = true -> flat d = true -> set_nested d p key v = Ok d' -> flat d' = true.
Proof.
  intros Hv Hd. unfold set_nested.
  destruct (dict_get p d) as [[| | |inner]|] eqn:G; try discriminate.
  intros H. injection H as <-.
  apply (forallb_dict_set flat_value); [|exact Hd].
  pose proof (flat_dict_get _ _ _ Hd G) as Hi. cbn [flat_value] in *.
  now apply (forallb_dict_set scalar).
Qed.

Lemma text_value_scalar (c : Element) : scalar (text_value c) = true.
Proof. unfold text_value. now destruct (text c). Qed.

Lemma children_loop_flat (visit : Element -> dict -> outcome * dict)
    (p : string) (cs : list Element) :
  Forall (fun c => forall acc, flat acc = true -> flat (snd (visit c acc)) = true) cs ->
  forall d, flat d = true -> flat (snd (children_loop visit p cs d)) = true.
Proof.
  intros F. induction F as [|c cs Hc F IH]; intros d Hd; [exact Hd|].
  cbn [children_loop].
  destruct (in_list (tag c) parse_ignore); [now apply IH|].
  destruct (children c) as [|c1 cc].
  - destruct (set_nested d p (tag c) (text_value c)) as [d1|e] eqn:S; [|exact Hd].
    apply IH. eapply set_nested_flat; eauto using text_value_scalar.
  - specialize (Hc d Hd).
    destruct (visit c d) as [[|e] d1]; cbn [snd] in *; [now apply IH | exact Hc].
Qed.

(** A visit keeps the accumulator two levels deep: when every value of the
    accumulator is a mapping of texts, so is every value afterwards, whether
    the visit returns or raises.  No element, however deep in the document,
    is filed below the second level. *)
Theorem visit_items_flat (item : Element) (acc : dict) :
  flat acc = true -> flat (snd (visit_items item acc)) = true.
Proof.
  revert acc. induction item as [tg at_ tx cs IH] using Element_forall_ind.
  intros acc Hacc. rewrite visit_items_eq.
  destruct (parent_name_of (Elem tg at_ tx cs)) as [p|e]; [|exact Hacc].
  apply children_loop_flat; [exact IH|].
  now apply (forallb_dict_set flat_value).
Qed.

Lemma visit_items_flat_witness :
  flat (snd (visit_items doc_spectrum [])) = true
  /\ flat (snd (visit_items doc_nested (snd (visit_items doc_spectrum [])))) = true.
Proof.
  split.
  - apply (visit_items_flat doc_spectrum []). reflexivity.
  - apply (visit_items_flat doc_nested). apply (visit_items_flat doc_spectrum []).
    reflexivity.
Defined.

End NormalizerMore.

(** ** From the name of an element to its group *)

Section ElementNames.

Import xml h5py compile_edx.

Lemma replace_from_skip (old new a s : string) :
  replace_from old new (String.length a) (a ++ s) = replace_from old new 0 s.
Proof. induction a as [|c a IH]; [reflexivity | exact IH]. Qed.

Lemma replace_prefix (c : ascii) (old new s : string) :
  replace (String c old ++ s) (String c old) new = new ++ replace s (String c old) new.
Proof.
  unfold replace. cbn [append replace_from].
  change (String c (old ++ s)) with (String c old ++ s).
  rewrite prefix_app_self. cbn [String.length Nat.sub].
  now rewrite Nat.sub_0_r, replace_from_skip.
Qed.

Lemma replace_absent (old new s : string) :
  contains old s = false -> replace s old new = s.
Proof.
  unfold replace. induction s as [|c s IH]; intros H; [reflexivity|].
  cbn [contains] in H. apply orb_false_iff in H as [Hp Hs].
  cbn [replace_from]. rewrite Hp. now rewrite IH.
Qed.

(** The two halves of the ingest agree on the elements: an element instance
    of name [n] is filed by the normalizer under "TRTPSEElement <n>", and for
    that key the writer, whenever its dispatch returns, has chosen the results
    subgroup "Element <n>" (the name must not contain the marker itself). *)
Theorem element_name_reaches_group (format_other : pyval -> string)
    (item : Element) (n : string) :
  tag item = "ClassInstance" ->
  attrib_get "Type" (attrib item) = Ok "TRTPSEElement" ->
  attrib_get "Name" (attrib item) = Ok n ->
  contains "TRTPSEElement " n = false ->
  parent_name_of item = Ok ("TRTPSEElement " ++ n)
  /\ (forall value st h st',
        dispatch format_other ("TRTPSEElement " ++ n) value st = Ok (h, st') ->
        h = (InResults, "Element " ++ n)).
Proof.
  intros Htag Hty Hname Hn. split.
  - unfold parent_name_of. rewrite Htag. cbn [String.eqb Ascii.eqb Bool.eqb].
    rewrite Hty. cbn [bind String.eqb Ascii.eqb Bool.eqb]. rewrite Hname. reflexivity.
  - intros value st h st' H.
    assert (R : replace ("TRTPSEElement " ++ n) "TRTPSEElement " "" = n).
    { rewrite (replace_prefix "T" "RTPSEElement " "" n). cbn [append].
      now apply replace_absent. }
    unfold dispatch in H. rewrite R in H.
    assert (C1 : (startswith ("TRTPSEElement " ++ n) "Result"
                  || String.eqb ("TRTPSEElement " ++ n) "TRTResult")%bool = false)
      by reflexivity.
    assert (C2 : startswith ("TRTPSEElement " ++ n) "ExtResults" = false) by reflexivity.
    assert (C3 : startswith ("TRTPSEElement " ++ n) "TRTPSEElement" = true)
      by reflexivity.
    rewrite C1, C2, C3 in H.
    destruct (of_option KeyError (dict_get "Element" value)) as [el|]; [|discriminate].
    cbn [bind] in H.
    destruct (getitem ("Result " ++ format_value format_other el) (result_group st))
      as [tmp|]; [|discriminate].
    cbn [bind] in H.
    destruct (link ("Element " ++ n) tmp (result_group st)) as [rg1|]; [|discriminate].
    cbn [bind] in H.
    destruct (unlink ("Result " ++ format_value format_other el) rg1) as [rg2|];
      [|discriminate].
    cbn [bind] in H.
    destruct (in_subgroup (InResults, "Element " ++ n) (unlink "Atom")
                (with_owner InResults rg2 st)) as [st2|]; [|discriminate].
    cbn [bind] in H. now injection H as <- _.
Qed.

Lemma element_name_reaches_group_witness :
  parent_name_of (Elem "ClassInstance" [("Type", "TRTPSEElement"); ("Name", "Fe")] None [])
  = Ok "TRTPSEElement Fe"
  /\ (forall h st',
        dispatch format_sample "TRTPSEElement Fe" [("Element", VStr "26")]
          {| instrument_group := []; result_group := results_sample |}
        = Ok (h, st') ->
        h = (InResults, "Element Fe")).
Proof.
  destruct (element_name_reaches_group format_sample
              (Elem "ClassInstance" [("Type", "TRTPSEElement"); ("Name", "Fe")] None [])
              "Fe" eq_refl eq_refl eq_refl eq_refl) as [N D].
  split; [exact N|]. intros h st'. apply D.
Defined.

End ElementNames.

(** ** Channel counts *)

Section Channels.

Import xml compile_edx.

Local Open Scope list_scope.

Lemma split_from_char_first (c : ascii) (a b : string) :
  str_mem c a = false ->
  split_from (String c "") 0 (a ++ String c b)
  = (a, let (p, ps) := split_from (String c "") 0 b in p :: ps).
Proof.
  induction a as [|x a IH]; intros H.
  - cbn [append]. now rewrite split_from_char, Ascii.eqb_refl.
  - cbn [str_mem] in H. apply orb_false_iff in H as [Hx Ha].
    cbn [append]. rewrite split_from_char, Hx, (IH Ha). reflexivity.
Qed.

(** Splitting undoes joining, for pieces free of the separator. *)
Lemma split_join (c : ascii) (x : string) (l : list string) :
  Forall (fun d => str_mem c d = false) (x :: l) ->
  split (join (String c "") (x :: l)) (String c "") = x :: l.
Proof.
  revert x. induction l as [|y l IH]; intros x F.
  - cbn [join]. unfold split. rewrite split_from_char_none; [reflexivity|].
    now inversion F.
  - inversion F as [|? ? Hx F']; subst.
    change (join (String c "") (x :: y :: l))
      with (x ++ String c (join (String c "") (y :: l)))%string.
    unfold split. rewrite (split_from_char_first c x _ Hx).
    specialize (IH y F'). unfold split in IH. now rewrite IH.
Qed.

Lemma mapM_int_of_str (l : list Z) :
  Forall (fun n => 0 <= n) l -> mapM int_of_str (map str_of_int l) = Ok l.
Proof.
  induction 1 as [|n l Hn F IH]; [reflexivity|].
  cbn [map mapM]. rewrite (int_of_str_str_of_int n Hn). cbn [bind].
  now rewrite IH.
Qed.

(** The text of a "Channels" element read back as the counts it was written
    from. *)
Lemma channel_counts_join (n : Z) (l : list Z) :
  Forall (fun n => 0 <= n) (n :: l) ->
  channel_counts (join "," (map str_of_int (n :: l))) = Ok (n :: l).
Proof.
  intros F. unfold channel_counts. cbn [map]. rewrite split_join.
  - now apply (mapM_int_of_str (n :: l)).
  - change (Forall (fun d => str_mem "," d = false) (map str_of_int (n :: l))).
    apply Forall_map. eapply Forall_impl; [|exact F].
    intros m Hm. apply str_mem_all_digits; [reflexivity|].
    now apply all_digits_str_of_int.
Qed.

Lemma foldM_no_channels (elems : list Element) (channels : list Z) :
  Forall (fun x => String.eqb (tag x) "Channels" = false) elems ->
  foldM channels_body elems channels = Ok channels.
Proof.
  induction 1 as [|x elems Hx F IH]; [reflexivity|].
  cbn [foldM]. unfold channels_body at 1. rewrite Hx. exact IH.
Qed.

(** A document without a "Channels" element has no channels: the result is
    the empty list, not an error. *)
Theorem get_channels_none (xml_root : Element) :
  Forall (fun x => String.eqb (tag x) "Channels" = false) (iter xml_root) ->
  get_channels xml_root = Ok [].
Proof. intros F. now apply (foldM_no_channels (iter xml_root) []). Qed.

Lemma get_channels_none_witness : get_channels doc_nested = Ok [].
Proof.
  apply (get_channels_none doc_nested). cbn. repeat constructor.
Defined.

Lemma foldM_channels_parse (elems : list Element) (channels : list Z) :
  Forall (fun x => String.eqb (tag x) "Channels" = false
                   \/ exists t l, text x = Some t /\ channel_counts t = Ok l) elems ->
  exists l, foldM channels_body elems channels = Ok l.
Proof.
  intros F. revert channels. induction F as [|x elems Hx F IH]; intros channels.
  - now exists channels.
  - cbn [foldM]. unfold channels_body at 1.
    destruct Hx as [Hx | (t & l & Ht & Hl)].
    + rewrite Hx. apply IH.
    + destruct (String.eqb (tag x) "Channels"); [|apply IH].
      rewrite Ht, Hl. apply IH.
Qed.

(** The last "Channels" element of the document decides, wherever it is,
    once the earlier ones have been read without error: the result is the
    counts when its text is their decimal forms joined by commas, a
    [ValueError] when its text is empty, an [AttributeError] when it has no
    text. *)
Theorem get_channels_last (xml_root e : Element) (before after : list Element) :
  iter xml_root = before ++ e :: after ->
  Forall (fun x => String.eqb (tag x) "Channels" = false
                   \/ exists t l, text x = Some t /\ channel_counts t = Ok l) before ->
  Forall (fun x => String.eqb (tag x) "Channels" = false) after ->
  tag e = "Channels" ->
  (forall n l, Forall (fun n => 0 <= n) (n :: l) ->
               text e = Some (join "," (map str_of_int (n :: l))) ->
               get_channels xml_root = Ok (n :: l))
  /\ (text e = Some "" -> get_channels xml_root = Raise ValueError)
  /\ (text e = None -> get_channels xml_root = Raise AttributeError).
Proof.
  intros Hiter Fb Fa Htag.
  assert (G : get_channels xml_root
              = bind (match text e with
                      | Some t => channel_counts t
                      | None => Raise AttributeError
                      end)
                  (foldM channels_body after)).
  { unfold get_channels. fold channels_body. rewrite Hiter.
    assert (A : forall a b acc,
               foldM channels_body (a ++ b) acc
               = bind (foldM channels_body a acc) (foldM channels_body b)).
    { induction a as [|x a IH]; intros b acc; [reflexivity|].
      cbn [app foldM]. destruct (channels_body x acc); cbn [bind]; [apply IH | reflexivity]. }
    rewrite A. destruct (foldM_channels_parse before [] Fb) as [l0 ->].
    cbn [bind foldM]. unfold channels_body at 1. now rewrite Htag. }
  rewrite G. repeat split.
  - intros n l Fl ->. rewrite (channel_counts_join n l Fl). cbn [bind].
    now apply foldM_no_channels.
  - intros ->. reflexivity.
  - intros ->. reflexivity.
Qed.

Lemma get_channels_last_witness :
  get_channels doc_spectrum = Ok [4; 8; 15; 16].
Proof.
  destruct (get_channels_last doc_spectrum
              (Elem "Channels" [] (Some "4,8,15,16") [])
              [ doc_spectrum; leaf "Date" "3.11.2026";
                Elem "ClassInstance" [("Type", "TRTSpectrumHeader")] None
                  [leaf "CalibAbs" "-0.5"; leaf "CalibLin" "0.01"; leaf "Channels" "1,2"];
                leaf "CalibAbs" "-0.5"; leaf "CalibLin" "0.01"; leaf "Channels" "1,2" ]
              [ leaf "Time" "12:00";
                Elem "Result" [] None [leaf "Atom" "26"; leaf "AtomPercent" "0.42"];
                leaf "Atom" "26"; leaf "AtomPercent" "0.42" ]) as (R & _ & _).
  - reflexivity.
  - repeat (constructor; [first [left; reflexivity
                                | right; exists "1,2", [1; 2]; split; reflexivity]|]).
    constructor.
  - cbn. repeat constructor.
  - reflexivity.
  - apply (R 4 [8; 15; 16]); [repeat constructor; lia | reflexivity].
Defined.

End Channels.

(** ** File names that carry no scan identity *)

Section ScanIdentityErrors.

Import compile_edx.

Local Open Scope list_scope.

(** A piece of a split holds no character that the text does not hold. *)
Lemma split_from_pieces (c : ascii) (sep s : string) :
  forall skip,
    str_mem c s = false ->
    str_mem c (fst (split_from sep skip s)) = false
    /\ Forall (fun q => str_mem c q = false) (snd (split_from sep skip s)).
Proof.
  induction s as [|x s IH]; intros skip H; [cbn; auto|].
  cbn [str_mem] in H. apply orb_false_iff in H as [Hx Hs].
  cbn [split_from]. destruct skip as [|k]; [|now apply IH].
  destruct (prefix sep (String x s)).
  - destruct (IH (String.length sep - 1)%nat Hs) as [P Q].
    destruct (split_from sep (String.length sep - 1) s) as [p ps].
    cbn [fst snd] in *. split; [reflexivity | now constructor].
  - destruct (IH 0%nat Hs) as [P Q].
    destruct (split_from sep 0 s) as [p ps].
    cbn [fst snd str_mem] in *. now rewrite Hx, P.
Qed.

Lemma first_item_pieces (c : ascii) (s sep : string) :
  str_mem c s = false -> str_mem c (first_item (split s sep)) = false.
Proof.
  intros H. unfold split, first_item.
  destruct (split_from_pieces c sep s 0 H) as [P _].
  now destruct (split_from sep 0 s).
Qed.

Lemma last_item_pieces (c : ascii) (s sep : string) :
  str_mem c s = false -> str_mem c (last_item (split s sep)) = false.
Proof.
  intros H. unfold split, last_item.
  destruct (split_from_pieces c sep s 0 H) as [P Q].
  destruct (split_from sep 0 s) as [p ps]. cbn [fst snd] in *.
  revert p P. induction Q as [|q ps Hq Q IH]; intros p P; [exact P|].
  change (last (p :: q :: ps) "") with (last (q :: ps) ""). now apply IH.
Qed.

(** A file name without a comma has no scan identity: the unpacking of the
    single piece raises [ValueError], whatever else the name holds. *)
Theorem get_scan_numbers_no_comma (filepath : filepath_arg) (filename : string) :
  filename_of filepath = Ok filename ->
  str_mem "," filename = false ->
  get_scan_numbers filepath = Raise ValueError.
Proof.
  intros Hname Hc. unfold get_scan_numbers. rewrite Hname. cbn [bind].
  set (t := first_item (split (last_item (split (first_item (split filename ".spx")) "("))
                          ")")).
  assert (Ht : str_mem "," t = false)
    by (unfold t; now apply first_item_pieces, last_item_pieces, first_item_pieces).
  unfold split. rewrite (split_from_char_none "," t Ht). reflexivity.
Qed.

Lemma get_scan_numbers_no_comma_witness :
  get_scan_numbers (FStr "data,old/Spectrum_12.spx") = Raise ValueError
  /\ get_scan_numbers (FPath {| name := "wafer(3;12).spx" |}) = Raise ValueError.
Proof.
  split.
  - apply (get_scan_numbers_no_comma _ "Spectrum_12.spx"); reflexivity.
  - apply (get_scan_numbers_no_comma _ "wafer(3;12).spx"); reflexivity.
Defined.

End ScanIdentityErrors.

(** ** Wafer positions: order and grid *)

Section WaferGrid.

Import compile_edx read_hdf5.

Local Open Scope list_scope.

(** With positive steps the position grows strictly with the index, on each
    axis by itself; in particular two scan identities with the same position
    are the same. *)
Theorem get_wafer_positions_monotone
    (x1 y1 x2 y2 : Z) (step_x step_y start_x start_y : option Z) :
  0 < default 5 step_x -> 0 < default 5 step_y ->
  (x1 < x2 <-> fst (get_wafer_positions (x1, y1) step_x step_y start_x start_y)
               < fst (get_wafer_positions (x2, y2) step_x step_y start_x start_y))
  /\ (y1 < y2 <-> snd (get_wafer_positions (x1, y1) step_x step_y start_x start_y)
                  < snd (get_wafer_positions (x2, y2) step_x step_y start_x start_y))
  /\ (get_wafer_positions (x1, y1) step_x step_y start_x start_y
      = get_wafer_positions (x2, y2) step_x step_y start_x start_y ->
      (x1, y1) = (x2, y2)).
Proof.
  intros Hx Hy.
  assert (E : forall x y, get_wafer_positions (x, y) step_x step_y start_x start_y
                          = ((x - 1) * default 5 step_x + default (-40) start_x,
                             (y - 1) * default 5 step_y + default (-40) start_y))
    by (intros; destruct step_x, step_y, start_x, start_y; reflexivity).
  rewrite !E. cbn [fst snd]. repeat split; try nia.
  intros H. injection H as H1 H2. f_equal; nia.
Qed.

Lemma get_wafer_positions_monotone_witness :
  fst (get_wafer_positions (3, 9) None None None None)
  < fst (get_wafer_positions (4, 1) None None None None).
Proof.
  destruct (get_wafer_positions_monotone 3 9 4 1 None None None None) as [[H _] _];
    [reflexivity | reflexivity |].
  apply H. reflexivity.
Defined.

Lemma grid_axis_spec (v : Z) : In v grid_axis <-> exists i, 0 <= i <= 16 /\ v = -40 + 5 * i.
Proof.
  unfold grid_axis. rewrite in_map_iff. split.
  - intros (i & <- & Hi). apply in_seq in Hi. exists (Z.of_nat i). split; lia.
  - intros (i & Hi & ->). exists (Z.to_nat i). split; [lia|]. apply in_seq. lia.
Qed.

(** With the default step and start, the position of a scan lies on the
    axis of the canonical grid of the compaction, [range(-40, 45, 5)],
    exactly when its index is between 1 and 17. *)
Theorem get_wafer_positions_on_grid (x_idx y_idx : Z) :
  (In (fst (get_wafer_positions (x_idx, y_idx) None None None None)) grid_axis
   <-> 1 <= x_idx <= 17)
  /\ (In (snd (get_wafer_positions (x_idx, y_idx) None None None None)) grid_axis
      <-> 1 <= y_idx <= 17).
Proof.
  cbn [get_wafer_positions fst snd]. rewrite !grid_axis_spec.
  split; (split; [intros (i & Hi & E); lia | intros H]).
  - exists (x_idx - 1). lia.
  - exists (y_idx - 1). lia.
Qed.

End WaferGrid.

(** ** The energy axis: missing fields and short spectra *)

Section EnergyEdges.

Import compile_edx.

Variable convertFloat : pyval -> pyval.

(** Without the header, or without one of its two calibration fields, the
    energy axis fails with [KeyError], even when there are no channels at
    all. *)
Theorem make_energy_dataset_missing_field (edx_dict : dict) (channels : list Z) :
  dict_get "TRTSpectrumHeader" edx_dict = None
  \/ (exists header,
        dict_get "TRTSpectrumHeader" edx_dict = Some (VDict header)
        /\ (dict_get "CalibAbs" header = None \/ dict_get "CalibLin" header = None)) ->
  make_energy_dataset convertFloat edx_dict channels = Raise KeyError.
Proof.
  unfold make_energy_dataset. intros [H | (header & H & [A | L])]; rewrite H.
  - reflexivity.
  - cbn [of_option bind subscript]. now rewrite A.
  - cbn [of_option bind subscript]. destruct (dict_get "CalibAbs" header); [|reflexivity].
    cbn [of_option bind]. now rewrite L.
Qed.

(** With fewer than two channels the axis is empty, whatever the two fields
    hold, numbers or not. *)
Theorem make_energy_dataset_short (edx_dict header : dict) (channels : list Z)
    (abs_raw lin_raw : pyval) :
  dict_get "TRTSpectrumHeader" edx_dict = Some (VDict header) ->
  dict_get "CalibAbs" header = Some abs_raw ->
  dict_get "CalibLin" header = Some lin_raw ->
  (length channels < 2)%nat ->
  make_energy_dataset convertFloat edx_dict channels = Ok [].
Proof.
  intros H A L Hlen. unfold make_energy_dataset.
  rewrite H. cbn [of_option bind subscript]. rewrite A, L. cbn [of_option bind].
  destruct channels as [|c [|c' channels]]; [reflexivity | reflexivity|].
  cbn [length] in Hlen. lia.
Qed.

End EnergyEdges.

Lemma make_energy_dataset_missing_field_witness :
  compile_edx.make_energy_dataset convertFloat_sample
    [("TRTSpectrumHeader", VDict [("CalibAbs", VStr "0.0")])] []
  = Raise KeyError.
Proof.
  apply (make_energy_dataset_missing_field convertFloat_sample). right.
  exists [("CalibAbs", VStr "0.0")]. split; [reflexivity | right; reflexivity].
Defined.

Lemma make_energy_dataset_short_witness :
  compile_edx.make_energy_dataset convertFloat_sample
    [("TRTSpectrumHeader", VDict [("CalibAbs", VStr "n/a"); ("CalibLin", VNone)])] [7]
  = Ok [].
Proof.
  apply (make_energy_dataset_short convertFloat_sample _
           [("CalibAbs", VStr "n/a"); ("CalibLin", VNone)] [7] (VStr "n/a") VNone);
    [reflexivity | reflexivity | reflexivity | cbn; lia].
Defined.

(** ** The store writer: where a mapping goes, and what a field needs *)

Section WriterMore.

Import h5py compile_edx.

Local Open Scope list_scope.

Variable convertFloat : pyval -> pyval.
Variable format_other : pyval -> string.

Lemma in_subgroup_result (name : string) (f : members -> res members) (st st' : groups) :
  in_subgroup (InResults, name) f st = Ok st' ->
  (exists ms a, get name (result_group st') = Some (Group ms a))
  /\ instrument_group st' = instrument_group st.
Proof.
  intros H. apply in_subgroup_inv in H as (ms & a & ms' & G & _ & ->).
  cbn [with_owner owner_members result_group instrument_group] in *.
  split; [|reflexivity]. exists ms', a. eapply get_put_same; eauto.
Qed.

Lemma create_group_new (name : string) (m m' : members) :
  create_group name m = Ok m' -> get name m' = Some (Group [] []).
Proof.
  unfold create_group, link. destruct (mem name m) eqn:M; [discriminate|].
  intros H. injection H as <-. now apply get_app_new.
Qed.

(** Whenever the dispatch returns, the subgroup it hands to the field loop
    is a group that exists in the store afterwards, and the dispatch has
    changed only the side it chose: a results destination leaves the
    instrument group as it was, and an instrument destination the results
    group. *)
Theorem dispatch_destination (key : string) (value : dict) (st st' : groups)
    (h : subgroup) :
  dispatch format_other key value st = Ok (h, st') ->
  (exists ms a, get (snd h) (owner_members (fst h) st') = Some (Group ms a))
  /\ (fst h = InResults -> instrument_group st' = instrument_group st)
  /\ (fst h = InInstrument -> result_group st' = result_group st).
Proof.
  unfold dispatch. intros H.
  destruct (startswith key "Result" || String.eqb key "TRTResult")%bool.
  { destruct (create_group key (result_group st)) as [rg|] eqn:C; [|discriminate].
    cbn [bind] in H. injection H as <- <-.
    cbn [fst snd owner_members with_owner result_group instrument_group].
    repeat split; [|discriminate]. exists [], []. eapply create_group_new; eauto. }
  destruct (startswith key "ExtResults").
  { destruct (of_option KeyError (dict_get "Atom" value)) as [atom|]; [|discriminate].
    cbn [bind] in H.
    destruct (getitem ("Result " ++ format_value format_other atom) (result_group st));
      [|discriminate].
    cbn [bind] in H.
    destruct (in_subgroup (InResults, ("Result " ++ format_value format_other atom)%string)
                (unlink "Atom") st) as [st1|] eqn:S; [|discriminate].
    cbn [bind] in H. injection H as <- <-.
    apply in_subgroup_result in S as [G I].
    cbn [fst snd owner_members]. repeat split; [exact G | intros _; exact I | discriminate]. }
  destruct (startswith key "TRTPSEElement").
  { destruct (of_option KeyError (dict_get "Element" value)) as [el|]; [|discriminate].
    cbn [bind] in H.
    destruct (getitem ("Result " ++ format_value format_other el) (result_group st))
      as [tmp|]; [|discriminate].
    cbn [bind] in H.
    destruct (link ("Element " ++ replace key "TRTPSEElement " "") tmp (result_group st))
      as [rg1|]; [|discriminate].
    cbn [bind] in H.
    destruct (unlink ("Result " ++ format_value format_other el) rg1) as [rg2|];
      [|discriminate].
    cbn [bind] in H.
    destruct (in_subgroup
                (InResults, ("Element " ++ replace key "TRTPSEElement " "")%string)
                (unlink "Atom") (with_owner InResults rg2 st)) as [st2|] eqn:S;
      [|discriminate].
    cbn [bind] in H. injection H as <- <-.
    apply in_subgroup_result in S as [G I].
    cbn [fst snd owner_members]. repeat split; [exact G | intros _; exact I | discriminate]. }
  destruct (create_group (replace key "TRT" "") (instrument_group st)) as [ig|] eqn:C;
    [|discriminate].
  cbn [bind] in H. injection H as <- <-.
  cbn [fst snd owner_members with_owner result_group instrument_group].
  repeat split; [|discriminate]. exists [], []. eapply create_group_new; eauto.
Qed.

End WriterMore.

Lemma dispatch_destination_witness :
  exists ms a,
    h5py.get "SpectrumHeader"
      (compile_edx.instrument_group
         {| compile_edx.instrument_group := [("SpectrumHeader", h5py.Group [] [])];
            compile_edx.result_group := results_sample |})
    = Some (h5py.Group ms a).
Proof.
  destruct (dispatch_destination format_sample "TRTSpectrumHeader"
              [("CalibAbs", VStr "0.0")]
              {| compile_edx.instrument_group := [];
                 compile_edx.result_group := results_sample |}
              {| compile_edx.instrument_group := [("SpectrumHeader", h5py.Group [] [])];
                 compile_edx.result_group := results_sample |}
              (compile_edx.InInstrument, "SpectrumHeader") eq_refl) as [G _].
  exact G.
Defined.

Section WriterBranches.

Import h5py compile_edx.

Local Open Scope list_scope.

Variable convertFloat : pyval -> pyval.
Variable format_other : pyval -> string.

(** An extended result is merged into the results subgroup of its atom: for
    a key that begins with "ExtResults" and a mapping whose "Atom" field is
    [sym], the destination is the existing group "Result <sym>", which loses
    its "Atom" field and keeps its name; nothing else changes.  No group is
    created. *)
Theorem dispatch_extended_merges (key : string) (value : dict) (st : groups)
    (sym : string) (g : members) (a : dict) (atom : node) :
  startswith key "ExtResults" = true ->
  dict_get "Atom" value = Some (VStr sym) ->
  get ("Result " ++ sym)%string (result_group st) = Some (Group g a) ->
  get "Atom" g = Some atom ->
  exists st',
    dispatch format_other key value st = Ok ((InResults, ("Result " ++ sym)%string), st')
    /\ get ("Result " ++ sym)%string (result_group st')
       = Some (Group (filter (fun e => negb (String.eqb (fst e) "Atom")) g) a)
    /\ keys (result_group st') = keys (result_group st)
    /\ instrument_group st' = instrument_group st
    /\ (forall k, k <> ("Result " ++ sym)%string ->
                  get k (result_group st') = get k (result_group st)).
Proof.
  intros Hkey Hatom Hg Ha.
  destruct (in_subgroup_ok InResults ("Result " ++ sym)%string (unlink "Atom") st g
              (filter (fun e => negb (String.eqb (fst e) "Atom")) g) a Hg) as [S G].
  { unfold unlink. now rewrite (mem_get _ _ _ Ha). }
  cbn [owner_members with_owner] in S, G.
  eexists. split; [|split; [exact G|]].
  - unfold dispatch, startswith in *.
    destruct (prefix_split _ _ Hkey) as [rest Ekey].
    assert (C1 : (prefix "Result" key || String.eqb key "TRTResult")%bool = false)
      by (rewrite Ekey; reflexivity).
    rewrite C1, Hkey, Hatom. cbn [of_option bind format_value].
    unfold getitem. rewrite Hg. cbn [of_option bind]. rewrite S. reflexivity.
  - cbn [result_group instrument_group]. repeat split.
    + unfold keys. clear. induction (result_group st) as [|[k n] m IH]; [reflexivity|].
      cbn [put]. destruct (String.eqb ("Result " ++ sym) k) eqn:E; cbn [map fst].
      * reflexivity.
      * now rewrite IH.
    + intros k N. now apply get_put_other.
Qed.

(** The extended results and the elements need the result of their atom to
    be in the store already: when the group "Result <sym>" is not there, the
    dispatch raises [KeyError].  The order of the keys of the tree matters. *)
Theorem dispatch_needs_result_group (key field : string) (value : dict) (st : groups)
    (sym : string) :
  (startswith key "ExtResults" = true /\ field = "Atom")
  \/ (startswith key "TRTPSEElement" = true /\ field = "Element") ->
  dict_get field value = Some (VStr sym) ->
  get ("Result " ++ sym)%string (result_group st) = None ->
  dispatch format_other key value st = Raise KeyError.
Proof.
  intros Hkey Hf Hg. unfold dispatch, startswith in *.
  destruct Hkey as [[Hkey ->] | [Hkey ->]];
    destruct (prefix_split _ _ Hkey) as [rest Ekey].
  - assert (C1 : (prefix "Result" key || String.eqb key "TRTResult")%bool = false)
      by (rewrite Ekey; reflexivity).
    rewrite C1, Hkey, Hf. cbn [of_option bind format_value].
    unfold getitem. now rewrite Hg.
  - assert (C1 : (prefix "Result" key || String.eqb key "TRTResult")%bool = false)
      by (rewrite Ekey; reflexivity).
    assert (C2 : prefix "ExtResults" key = false) by (rewrite Ekey; reflexivity).
    rewrite C1, C2, Hkey, Hf. cbn [of_option bind format_value].
    unfold getitem. now rewrite Hg.
Qed.

(** A field other than the two percentages is stored as [convertFloat]
    gives it, unscaled, and carries a units attribute exactly when
    [get_units] knows its name. *)
Theorem write_field_plain (h : subgroup) (subkey raw : string) (d : pyval)
    (st : groups) (ms : members) (a : dict) :
  subkey <> "AtomPercent" -> subkey <> "MassPercent" ->
  convertFloat (VStr raw) = d -> storable d = true ->
  get (snd h) (owner_members (fst h) st) = Some (Group ms a) ->
  mem subkey ms = false ->
  exists st' ms',
    write_field convertFloat h subkey (VStr raw) st = Ok st'
    /\ get (snd h) (owner_members (fst h) st') = Some (Group ms' a)
    /\ get subkey ms'
       = Some (Dataset d match get_units subkey with
                         | Some u => [("units", VStr u)]
                         | None => []
                         end).
Proof.
  intros N1 N2 Hc Hs Hg Hfree. destruct h as [o name]. cbn [fst snd] in *.
  apply String.eqb_neq in N1, N2.
  destruct (in_subgroup_ok o name (create_dataset subkey d) st ms
              (ms ++ [(subkey, Dataset d [])]) a Hg) as [S1 G1].
  { unfold create_dataset, link. now rewrite Hs, Hfree. }
  unfold write_field. rewrite N1, N2, Hc. cbn [orb bind]. rewrite S1. cbn [bind].
  destruct (get_units subkey) as [u|].
  - destruct (in_subgroup_ok o name (set_member_attr subkey "units" (VStr u)) _
                (ms ++ [(subkey, Dataset d [])])
                (put subkey (set_attr "units" (VStr u) (Dataset d []))
                   (ms ++ [(subkey, Dataset d [])])) a G1) as [S2 G2].
    { unfold set_member_attr, getitem. now rewrite (get_app_new _ _ _ Hfree). }
    eexists _, _. split; [exact S2|]. split; [exact G2|].
    erewrite get_put_same; [reflexivity | now apply get_app_new].
  - eexists _, _. split; [reflexivity|]. split; [exact G1|]. now apply get_app_new.
Qed.

(** A field whose name the subgroup already holds is not overwritten: the
    write raises. *)
Theorem write_field_existing (h : subgroup) (subkey : string) (subvalue d : pyval)
    (st : groups) (ms : members) (a : dict) :
  subvalue <> VNone ->
  (if (String.eqb subkey "AtomPercent" || String.eqb subkey "MassPercent")%bool
   then times_int (convertFloat subvalue) 100
   else Ok (convertFloat subvalue)) = Ok d ->
  storable d = true ->
  get (snd h) (owner_members (fst h) st) = Some (Group ms a) ->
  mem subkey ms = true ->
  write_field convertFloat h subkey subvalue st = Raise StoreError.
Proof.
  intros Hv Hd Hs Hg Hm. destruct h as [o name]. cbn [fst snd] in *.
  unfold write_field. rewrite Hd. cbn [bind].
  assert (S : in_subgroup (o, name) (create_dataset subkey d) st = Raise StoreError).
  { unfold in_subgroup. rewrite Hg. unfold create_dataset, link. now rewrite Hs, Hm. }
  rewrite S. destruct subvalue; try reflexivity. now elim Hv.
Qed.

End WriterBranches.

Lemma dispatch_extended_merges_witness :
  exists st',
    compile_edx.dispatch format_sample "ExtResults 26" [("Atom", VStr "26")]
      {| compile_edx.instrument_group := []; compile_edx.result_group := results_sample |}
    = Ok ((compile_edx.InResults, "Result 26"), st')
    /\ h5py.get "Result 26" (compile_edx.result_group st')
       = Some (h5py.Group
                 [("AtomPercent", h5py.Dataset (VFloat 42) [("units", VStr "at.%")])] []).
Proof.
  destruct (dispatch_extended_merges format_sample "ExtResults 26" [("Atom", VStr "26")]
              {| compile_edx.instrument_group := [];
                 compile_edx.result_group := results_sample |}
              "26" _ [] (h5py.Dataset (VFloat 26) []) eq_refl eq_refl eq_refl eq_refl)
    as (st' & D & G & _).
  exists st'. split; assumption.
Defined.

Lemma dispatch_needs_result_group_witness :
  compile_edx.dispatch format_sample "TRTPSEElement Fe" [("Element", VStr "26")]
    {| compile_edx.instrument_group := []; compile_edx.result_group := [] |}
  = Raise KeyError.
Proof.
  apply (dispatch_needs_result_group format_sample "TRTPSEElement Fe" "Element" _ _ "26");
    [right; split; reflexivity | reflexivity | reflexivity].
Defined.

Lemma write_field_plain_witness :
  exists st' ms',
    compile_edx.write_field convertFloat_sample (compile_edx.InInstrument, "SpectrumHeader")
      "CalibLin" (VStr "2.0")
      {| compile_edx.instrument_group := [("SpectrumHeader", h5py.Group [] [])];
         compile_edx.result_group := [] |}
    = Ok st'
    /\ h5py.get "SpectrumHeader" (compile_edx.instrument_group st')
       = Some (h5py.Group ms' [])
    /\ h5py.get "CalibLin" ms' = Some (h5py.Dataset (VFloat 2) [("units", VStr "keV")]).
Proof.
  apply (write_field_plain convertFloat_sample (compile_edx.InInstrument, "SpectrumHeader")
           "CalibLin" "2.0" (VFloat 2)
           {| compile_edx.instrument_group := [("SpectrumHeader", h5py.Group [] [])];
              compile_edx.result_group := [] |} [] []);
    first [discriminate | reflexivity].
Defined.

Lemma write_field_existing_witness :
  compile_edx.write_field convertFloat_sample (compile_edx.InResults, "Result 26")
    "AtomPercent" (VStr "0.42")
    {| compile_edx.instrument_group := []; compile_edx.result_group := results_sample |}
  = Raise StoreError.
Proof.
  apply (write_field_existing convertFloat_sample (compile_edx.InResults, "Result 26")
           "AtomPercent" (VStr "0.42") (VFloat 42)
           {| compile_edx.instrument_group := []; compile_edx.result_group := results_sample |}
           [ ("Atom", h5py.Dataset (VFloat 26) []);
             ("AtomPercent", h5py.Dataset (VFloat 42) [("units", VStr "at.%")]) ] []);
    first [discriminate | reflexivity].
Defined.

(** ** Finding the group of a category *)

Section StartGroup.

Import h5py read_hdf5.

Local Open Scope list_scope.

Variable coord_text : float -> string.

(** The search for the group of a data type goes through the groups of the
    root in order and compares the lowered data type with each HT_type.  Past
    groups of other categories: it fails with [ValueError] when the groups
    end, returns "./<group>" at the first group of the category, and fails
    with [KeyError] at a group without the attribute, even when the category
    comes later in the file. *)
Theorem make_group_path_search (data_type : string) (before : members) :
  Forall (fun e => exists v, dict_get "HT_type" (attrs_of (snd e)) = Some v
                             /\ is_str v (lower data_type) = false) before ->
  make_group_path coord_text before data_type None = Raise ValueError
  /\ (forall group n after v,
        dict_get "HT_type" (attrs_of n) = Some v ->
        is_str v (lower data_type) = true ->
        make_group_path coord_text (before ++ (group, n) :: after) data_type None
        = Ok ("./" ++ group)%string)
  /\ (forall group n after,
        dict_get "HT_type" (attrs_of n) = None ->
        make_group_path coord_text (before ++ (group, n) :: after) data_type None
        = Raise KeyError).
Proof.
  intros F. unfold make_group_path.
  assert (A : forall rest,
             find_start_group (before ++ rest) data_type = find_start_group rest data_type).
  { induction F as [|[g n] before (v & Hv & Hs) F IH]; intros rest; [reflexivity|].
    cbn [app find_start_group]. unfold get_attr. cbn [snd] in Hv. rewrite Hv.
    cbn [of_option bind]. rewrite Hs. apply IH. }
  repeat split.
  - rewrite <- (app_nil_r before), A. reflexivity.
  - intros group n after v Hv Hs. rewrite A. cbn [find_start_group].
    unfold get_attr. rewrite Hv. cbn [of_option bind]. now rewrite Hs.
  - intros group n after Hv. rewrite A. cbn [find_start_group].
    unfold get_attr. now rewrite Hv.
Qed.

Lemma open_path_start (root : members) (group : string) :
  valid_name group = true ->
  open_path root ("./" ++ group) = getitem group root.
Proof.
  intros V. apply valid_name_spec in V as (V1 & V2 & V3).
  unfold open_path. change ("./" ++ group)%string with ("." ++ String "/" group)%string.
  rewrite split_char_two by (reflexivity || assumption).
  cbn [walk String.eqb Ascii.eqb Bool.eqb orb]. rewrite V2, V3. cbn [orb].
  destruct (getitem group root) as [[d a|ms a]|e]; reflexivity.
Qed.

(** The units of the positions are read at the scan "(0.0,0.0)" only: a
    category that has scans but none at the origin gives [KeyError]. *)
Theorem get_position_units_needs_origin (hdf5_file : members) (data_type group : string)
    (scans : members) (a : dict) :
  make_group_path coord_text hdf5_file data_type None = Ok ("./" ++ group)%string ->
  valid_name group = true ->
  get group hdf5_file = Some (Group scans a) ->
  get "(0.0,0.0)" scans = None ->
  get_position_units coord_text hdf5_file data_type = Raise KeyError.
Proof.
  intros Hp V Hg Ho. unfold get_position_units. rewrite Hp. cbn [bind].
  rewrite (open_path_start _ _ V). unfold getitem at 1. rewrite Hg.
  cbn [of_option bind child]. unfold getitem. now rewrite Ho.
Qed.

End StartGroup.

Lemma make_group_path_search_witness :
  read_hdf5.make_group_path (fun _ => "") source_sample "MOKE" None = Ok "./kerr"
  /\ read_hdf5.make_group_path (fun _ => "")
       [("composition", h5py.Group edx_scans_sample [("HT_type", VStr "edx")])] "XRD" None
     = Raise ValueError.
Proof.
  destruct (make_group_path_search (fun _ => "") "MOKE"
              [("composition", h5py.Group edx_scans_sample [("HT_type", VStr "edx")])])
    as (_ & M & _).
  { repeat constructor. exists (VStr "edx"). split; reflexivity. }
  destruct (make_group_path_search (fun _ => "") "XRD"
              [("composition", h5py.Group edx_scans_sample [("HT_type", VStr "edx")])])
    as (X & _ & _).
  { repeat constructor. exists (VStr "edx"). split; reflexivity. }
  split; [|exact X].
  apply (M "kerr" (h5py.Group moke_scans_sample [("HT_type", VStr "moke")]) []
           (VStr "moke")); reflexivity.
Defined.

Lemma get_position_units_needs_origin_witness :
  read_hdf5.get_position_units (fun _ => "")
    [("kerr", h5py.Group [("(5.0,5.0)", moke_scan_sample 5 5)] [("HT_type", VStr "moke")])]
    "moke"
  = Raise KeyError.
Proof.
  apply (get_position_units_needs_origin (fun _ => "") _ "moke" "kerr"
           [("(5.0,5.0)", moke_scan_sample 5 5)] [("HT_type", VStr "moke")]);
    reflexivity.
Defined.

(** ** Compaction: what the output can hold *)

Section CompactionMore.

Import h5py read_hdf5.

Local Open Scope list_scope.

Variable py_str : pyval -> string.

Ltac bind_inv H :=
  repeat match type of H with
         | bind ?c _ = Ok _ =>
             let E := fresh "E" in
             destruct c eqn:E; cbn [bind] in H; [|discriminate H]
         end.

Lemma keys_put (k : string) (n : node) (m : members) : keys (put k n m) = keys m.
Proof.
  unfold keys. induction m as [|[k' x] m IH]; [reflexivity|].
  cbn [put]. destruct (String.eqb k k'); cbn [map fst]; [reflexivity | now rewrite IH].
Qed.

Lemma in_group_keys (name : string) (f : members -> res members) (m m' : members) :
  in_group name f m = Ok m' -> keys m' = keys m.
Proof.
  unfold in_group. intros H.
  destruct (get name m) as [[d a|ms a]|]; try discriminate.
  bind_inv H. injection H as <-. apply keys_put.
Qed.

Lemma create_position_keys (instrument : node) (coord : string) (m m' : members) :
  create_position instrument coord m = Ok m' -> keys m' = keys m ++ [coord].
Proof.
  unfold create_position. intros H. bind_inv H.
  repeat match goal with
         | E : in_group _ _ _ = Ok _ |- _ => apply in_group_keys in E
         end.
  unfold create_group, link in E. destruct (mem coord m); [discriminate|].
  injection E as <-. unfold keys in *. rewrite map_app in *. cbn [map fst] in *.
  congruence.
Qed.

Lemma fill_missing_keys (h5f : members) (group : string) (datatype : pyval)
    (coord : string) (m m' : members) :
  fill_missing h5f group datatype coord m = Ok m' -> keys m' = keys m.
Proof.
  unfold fill_missing. intros H. bind_inv H.
  destruct (is_str datatype "edx"); [bind_inv H; now apply in_group_keys in H|].
  destruct (is_str datatype "moke"); [bind_inv H; now apply in_group_keys in H|].
  destruct (is_str datatype "xrd"); [now apply in_group_keys in H|].
  now injection H as <-.
Qed.

Lemma copy_present_keys (h5f : members) (group : string) (datatype : pyval)
    (coord : string) (m m' : members) :
  copy_present py_str h5f group datatype coord m = Ok m' -> keys m' = keys m.
Proof.
  unfold copy_present. intros H.
  destruct (is_str datatype "edx"); [bind_inv H; now apply in_group_keys in H|].
  destruct (is_str datatype "moke"); [bind_inv H; now apply in_group_keys in H|].
  destruct (is_str datatype "xrd"); [bind_inv H; now apply in_group_keys in H|].
  now injection H as <-.
Qed.

Lemma coord_step_keys (h5f : members) (group : string) (source : node)
    (datatype : pyval) (coord : string) (m m' : members) :
  coord_step py_str h5f group source datatype coord m = Ok m' ->
  keys m' = keys m \/ keys m' = keys m ++ [coord].
Proof.
  unfold coord_step. intros H.
  assert (Rest : forall s s' : members,
             (scans <- members_of source ;;
              if negb (in_list coord (keys scans))
              then fill_missing h5f group datatype coord s
              else copy_present py_str h5f group datatype coord s) = Ok s' ->
             keys s' = keys s).
  { intros s s' R. bind_inv R.
    match type of R with
    | (if ?c then _ else _) = _ => destruct c
    end; [eapply fill_missing_keys | eapply copy_present_keys]; eauto. }
  destruct (negb (mem coord m)).
  - destruct (scan <- open_path h5f (group ++ "/" ++ coord) ;; child "instrument" scan)
      as [instrument|[]]; try discriminate.
    + bind_inv H. apply create_position_keys in E. apply Rest in H.
      right. congruence.
    + injection H as <-. now left.
  - left. now apply Rest.
Qed.

Lemma coords_loop_keys (h5f : members) (group : string) (source : node)
    (datatype : pyval) (coords : list string) :
  forall m m',
    foldM (coord_step py_str h5f group source datatype) coords m = Ok m' ->
    forall k, In k (keys m') -> In k (keys m) \/ In k coords.
Proof.
  induction coords as [|c coords IH]; intros m m' H k Hk.
  - cbn in H. injection H as <-. now left.
  - cbn [foldM] in H. bind_inv H.
    destruct (IH _ _ H k Hk) as [Hin | Hin]; [|right; now right].
    destruct (coord_step_keys _ _ _ _ _ _ _ E) as [K | K]; rewrite K in Hin;
      [now left|].
    apply in_app_or in Hin as [Hin | [<- | []]]; [now left | right; now left].
Qed.

(** Every node of the output is named by a coordinate of the canonical grid:
    the compaction never writes a node for a position outside the 17 x 17
    grid, whatever the source file holds. *)
Theorem create_simplified_dataset_on_grid (h5f saved : members) :
  create_simplified_dataset py_str h5f = Ok saved ->
  Forall (fun k => In k coord_list) (keys saved).
Proof.
  unfold create_simplified_dataset. intros H. apply Forall_forall.
  assert (G : forall groups m m',
             foldM (fun (entry : string * h5py.node) (h5f_save : members) =>
                      match get_attr "HT_type" (snd entry) with
                      | Raise KeyError => Ok h5f_save
                      | Raise e => Raise e
                      | Ok datatype =>
                          if existsb (is_str datatype) group_list
                          then foldM (coord_step py_str h5f (fst entry) (snd entry) datatype)
                                 coord_list h5f_save
                          else Ok h5f_save
                      end) groups m = Ok m' ->
             forall k, In k (keys m') -> In k (keys m) \/ In k coord_list).
  { induction groups as [|[g n] groups IH]; intros m m' F k Hk.
    - cbn in F. injection F as <-. now left.
    - cbn [foldM fst snd] in F. bind_inv F.
      destruct (IH _ _ F k Hk) as [Hin | Hin]; [|now right].
      destruct (get_attr "HT_type" n) as [datatype|[]]; try discriminate.
      + destruct (existsb (is_str datatype) group_list).
        * eapply coords_loop_keys; eauto.
        * injection E as <-. now left.
      + injection E as <-. now left. }
  intros k Hk. destruct (G _ _ _ H k Hk) as [[] | Hin]. exact Hin.
Qed.

(** A file in which no group carries an HT_type among "edx", "moke" and
    "xrd" compacts to an empty file; groups without the attribute are passed
    over, not reported. *)
Theorem create_simplified_dataset_no_category (h5f : members) :
  Forall (fun e => forall v, dict_get "HT_type" (attrs_of (snd e)) = Some v ->
                             existsb (is_str v) group_list = false) h5f ->
  create_simplified_dataset py_str h5f = Ok [].
Proof.
  intros F. unfold create_simplified_dataset.
  generalize (@nil (string * node)) as m. generalize h5f at 1 as root.
  intros root m. induction F as [|[g n] l Hn F IH]; [reflexivity|].
  cbn [foldM fst snd]. unfold get_attr. cbn [snd] in Hn.
  destruct (dict_get "HT_type" (attrs_of n)) as [v|]; cbn [of_option].
  - rewrite (Hn v eq_refl). cbn [bind]. exact IH.
  - cbn [bind]. exact IH.
Qed.

End CompactionMore.

Lemma create_simplified_dataset_on_grid_witness :
  Forall (fun k => In k read_hdf5.coord_list) ["(0.0,0.0)"; "(5.0,5.0)"].
Proof.
  apply (create_simplified_dataset_on_grid py_str_sample source_sample
           [ ("(0.0,0.0)",
              h5py.Group (saved_position_sample 0 0
                          ++ [ ("Fe", h5py.Dataset (VFloat 42)
                                        [("units", VStr "at.%"); ("HT_type", VStr "edx")]);
                               ("coercivity_m0",
                                h5py.Dataset (VFloat 0.5)
                                  [("units", VStr "Tesla (T)"); ("HT_type", VStr "moke")]) ])%list
                []);
             ("(5.0,5.0)",
              h5py.Group (saved_position_sample 5 5
                          ++ [ ("Fe", h5py.Dataset (VFloat 40)
                                        [("units", VStr "at.%"); ("HT_type", VStr "edx")]);
                               ("coercivity_m0",
                                h5py.Dataset (VFloat PrimFloat.nan)
                                  [("units", VStr "Tesla (T)"); ("HT_type", VStr "moke")]) ])%list
                []) ]).
  vm_compute. reflexivity.
Defined.

Lemma create_simplified_dataset_no_category_witness :
  read_hdf5.create_simplified_dataset py_str_sample
    [ ("notes", h5py.Group edx_scans_sample [("HT_type", VStr "sem")]);
      ("raw", h5py.Group edx_scans_sample []) ]
  = Ok [].
Proof.
  apply (create_simplified_dataset_no_category py_str_sample).
  repeat constructor; intros v H; cbn in H; [injection H as <-; reflexivity | discriminate H].
Defined.

Section CompactionCopies.

Import h5py read_hdf5.

Local Open Scope list_scope.

Variable py_str : pyval -> string.

Lemma in_group_last (coord : string) (f : members -> res members) (m ms ms' : members)
    (a : dict) :
  mem coord m = false -> f ms = Ok ms' ->
  in_group coord f (m ++ [(coord, Group ms a)]) = Ok (m ++ [(coord, Group ms' a)]).
Proof.
  intros M F. unfold in_group. rewrite (get_app_new _ _ _ M), F. cbn [bind].
  now rewrite put_app_new.
Qed.

(** The node of a coordinate met for the first time holds the two positions
    of the scan, with the units of the source and the HT_type "position". *)
Theorem create_position_copies (im : members) (ia : dict) (xv yv xu yu : pyval)
    (xa ya : dict) (coord : string) (h5f_save : members) :
  get "x_pos" im = Some (Dataset xv xa) ->
  get "y_pos" im = Some (Dataset yv ya) ->
  dict_get "units" xa = Some xu ->
  dict_get "units" ya = Some yu ->
  storable xv = true -> storable yv = true ->
  mem coord h5f_save = false ->
  create_position (Group im ia) coord h5f_save
  = Ok (h5f_save
        ++ [(coord,
             Group [ ("x_pos", Dataset xv [("units", xu); ("HT_type", VStr "position")]);
                     ("y_pos", Dataset yv [("units", yu); ("HT_type", VStr "position")]) ]
               [])]).
Proof.
  intros Hx Hy Hxu Hyu Sx Sy M.
  unfold create_position, create_group, link. rewrite M. cbn [bind child].
  unfold getitem, get_attr. rewrite Hx, Hy. cbn [of_option bind value_of attrs_of].
  rewrite Hxu, Hyu. cbn [of_option bind].
  rewrite (in_group_last coord _ h5f_save [] [("x_pos", Dataset xv [])] [] M)
    by (unfold create_dataset, link; now rewrite Sx).
  cbn [bind].
  rewrite (in_group_last coord _ h5f_save _
             [("x_pos", Dataset xv []); ("y_pos", Dataset yv [])] [] M)
    by (unfold create_dataset, link; now rewrite Sy).
  cbn [bind].
  repeat (erewrite (in_group_last coord _ h5f_save) by (exact M || reflexivity);
          cbn [bind]).
  reflexivity.
Qed.

(** For a coordinate that the output does not hold yet: a scan without an
    "instrument" group is passed over and the output stays as it is, but a
    scan whose "x_pos" or "y_pos" has no units attribute is not passed over:
    the [KeyError] of the missing attribute is raised outside the [try] and
    ends the compaction. *)
Theorem coord_step_position_without_units (h5f : members) (group : string)
    (scans : members) (ga : dict) (datatype : pyval) (coord : string)
    (h5f_save sm : members) (sa : dict) :
  In coord coord_list ->
  valid_name group = true ->
  get group h5f = Some (Group scans ga) ->
  get coord scans = Some (Group sm sa) ->
  mem coord h5f_save = false ->
  (get "instrument" sm = None ->
   coord_step py_str h5f group (Group scans ga) datatype coord h5f_save = Ok h5f_save)
  /\ (forall (im : members) (ia : dict) (xv yv : pyval) (xa ya : dict),
        get "instrument" sm = Some (Group im ia) ->
        get "x_pos" im = Some (Dataset xv xa) ->
        get "y_pos" im = Some (Dataset yv ya) ->
        storable xv = true -> storable yv = true ->
        dict_get "units" xa = None \/ dict_get "units" ya = None ->
        coord_step py_str h5f group (Group scans ga) datatype coord h5f_save
        = Raise KeyError).
Proof.
  intros Hc V Hg Hs M. split.
  - intros Hi. unfold coord_step. rewrite M. cbn [negb].
    rewrite open_path_two by (assumption || now apply coord_valid).
    unfold getitem. rewrite Hg. cbn [of_option bind]. rewrite Hs. cbn [of_option bind child].
    unfold getitem. now rewrite Hi.
  - intros im ia xv yv xa ya Hi Hx Hy Sx Sy Hu.
    unfold coord_step. rewrite M. cbn [negb].
    rewrite open_path_two by (assumption || now apply coord_valid).
    unfold getitem. rewrite Hg. cbn [of_option bind]. rewrite Hs. cbn [of_option bind child].
    unfold getitem. rewrite Hi. cbn [of_option].
    unfold create_position, create_group, link. rewrite M. cbn [bind child].
    unfold getitem, get_attr. rewrite Hx, Hy. cbn [of_option bind value_of attrs_of].
    rewrite (in_group_last coord _ h5f_save [] [("x_pos", Dataset xv [])] [] M)
      by (unfold create_dataset, link; now rewrite Sx).
    cbn [bind].
    rewrite (in_group_last coord _ h5f_save _
               [("x_pos", Dataset xv []); ("y_pos", Dataset yv [])] [] M)
      by (unfold create_dataset, link; now rewrite Sy).
    cbn [bind].
    destruct (dict_get "units" xa) as [xu|] eqn:Hxu; [|reflexivity].
    destruct Hu as [Hu | Hu]; [discriminate|].
    cbn [of_option bind].
    erewrite (in_group_last coord _ h5f_save) by (exact M || reflexivity).
    cbn [bind]. now rewrite Hu.
Qed.

(** An element of a scan that has no "AtomPercent" is filled from the
    reference position: when the reference has the element with an
    "AtomPercent", the field is NaN with the units recorded there; when the
    reference does not have the element, no field is written. *)
Theorem copy_edx_field_from_reference (h5f : members) (group : string)
    (scans : members) (ga : dict) (rm results : members) (ra rsa : dict)
    (datatype : pyval) (key : string) (em : members) (ea : dict) (node : members) :
  valid_name group = true ->
  get group h5f = Some (Group scans ga) ->
  get "(0.0,0.0)" scans = Some (Group rm ra) ->
  get "results" rm = Some (Group results rsa) ->
  get "AtomPercent" em = None ->
  mem (last_item (split key " ")) node = false ->
  (forall fields fa atom_percent units,
      get key results = Some (Group fields fa) ->
      get "AtomPercent" fields = Some atom_percent ->
      dict_get "units" (attrs_of atom_percent) = Some units ->
      copy_edx_field h5f group datatype key (Group em ea) node
      = Ok (node ++ [(last_item (split key " "),
                      Dataset (VFloat PrimFloat.nan)
                        [("units", units); ("HT_type", datatype)])]))
  /\ (get key results = None ->
      copy_edx_field h5f group datatype key (Group em ea) node = Ok node).
Proof.
  intros V Hg Hr Hres Hap Hfree.
  assert (Ref : open_path h5f (group ++ "/(0.0,0.0)") = Ok (Group rm ra)).
  { change (group ++ "/(0.0,0.0)")%string with (group ++ "/" ++ "(0.0,0.0)")%string.
    rewrite open_path_two by (assumption || reflexivity).
    unfold getitem. rewrite Hg. cbn [of_option bind]. now rewrite Hr. }
  split.
  - intros fields fa ap units Hk Hf Hu.
    unfold copy_edx_field. cbn [child]. unfold getitem at 1. rewrite Hap.
    cbn [of_option bind]. rewrite Ref. cbn [bind child]. unfold getitem at 1.
    rewrite Hres. cbn [of_option bind members_of]. rewrite Hk. cbn [members_of bind].
    rewrite (mem_get _ _ _ Hf). unfold not_a_number.
    rewrite create_dataset_fresh by (exact Hfree || reflexivity). cbn [bind].
    unfold getitem, get_attr. rewrite Hf. cbn [of_option bind]. rewrite Hu.
    cbn [of_option bind].
    rewrite set_member_attr_last by exact Hfree. cbn [bind].
    now rewrite set_member_attr_last by exact Hfree.
  - intros Hk. unfold copy_edx_field. cbn [child]. unfold getitem at 1. rewrite Hap.
    cbn [of_option bind]. rewrite Ref. cbn [bind child]. unfold getitem at 1.
    rewrite Hres. cbn [of_option bind members_of]. now rewrite Hk.
Qed.

End CompactionCopies.

Lemma create_position_copies_witness :
  read_hdf5.create_position (position_sample 5 5) "(5.0,5.0)" []
  = Ok [("(5.0,5.0)", h5py.Group (saved_position_sample 5 5) [])].
Proof.
  apply (create_position_copies
           [ ("x_pos", h5py.Dataset (VFloat 5) [("units", VStr "mm")]);
             ("y_pos", h5py.Dataset (VFloat 5) [("units", VStr "mm")]) ] []
           (VFloat 5) (VFloat 5) (VStr "mm") (VStr "mm")
           [("units", VStr "mm")] [("units", VStr "mm")] "(5.0,5.0)" []);
    reflexivity.
Defined.

Lemma coord_step_position_without_units_witness :
  let scans :=
    [ ("(0.0,0.0)", h5py.Group [("results", h5py.Group [] [])] []);
      ("(5.0,5.0)",
       h5py.Group
         [("instrument",
           h5py.Group [ ("x_pos", h5py.Dataset (VFloat 5) [("units", VStr "mm")]);
                        ("y_pos", h5py.Dataset (VFloat 5) []) ] [])]
         []) ] in
  let h5f := [("composition", h5py.Group scans [("HT_type", VStr "edx")])] in
  read_hdf5.coord_step py_str_sample h5f "composition"
    (h5py.Group scans [("HT_type", VStr "edx")]) (VStr "edx") "(0.0,0.0)" []
  = Ok []
  /\ read_hdf5.coord_step py_str_sample h5f "composition"
       (h5py.Group scans [("HT_type", VStr "edx")]) (VStr "edx") "(5.0,5.0)" []
     = Raise KeyError.
Proof.
  intros scans h5f. split.
  - eapply (proj1 (coord_step_position_without_units py_str_sample h5f "composition"
                     scans _ (VStr "edx") "(0.0,0.0)" [] _ _ _ eq_refl eq_refl eq_refl
                     eq_refl)).
    reflexivity.
  - eapply (proj2 (coord_step_position_without_units py_str_sample h5f "composition"
                     scans _ (VStr "edx") "(5.0,5.0)" [] _ _ _ eq_refl eq_refl eq_refl
                     eq_refl));
      first [reflexivity | right; reflexivity].
  Unshelve. all: vm_compute; tauto.
Defined.

Lemma copy_edx_field_from_reference_witness :
  read_hdf5.copy_edx_field source_sample "composition" (VStr "edx") "Element Fe"
    (h5py.Group [] []) (saved_position_sample 5 5)
  = Ok (saved_position_sample 5 5
        ++ [("Fe", h5py.Dataset (VFloat PrimFloat.nan)
                     [("units", VStr "at.%"); ("HT_type", VStr "edx")])])%list.
Proof.
  destruct (copy_edx_field_from_reference source_sample "composition" edx_scans_sample
              [("HT_type", VStr "edx")]
              [ ("instrument", position_sample 0 0);
                ("results",
                 h5py.Group
                   [ ("Element Fe",
                      h5py.Group
                        [("AtomPercent", h5py.Dataset (VFloat 42) [("units", VStr "at.%")])]
                        []) ] []) ]
              [ ("Element Fe",
                 h5py.Group
                   [("AtomPercent", h5py.Dataset (VFloat 42) [("units", VStr "at.%")])] []) ]
              [] [] (VStr "edx") "Element Fe" [] [] (saved_position_sample 5 5)
              eq_refl eq_refl eq_refl eq_refl eq_refl eq_refl) as [R _].
  apply (R [("AtomPercent", h5py.Dataset (VFloat 42) [("units", VStr "at.%")])] []
           (h5py.Dataset (VFloat 42) [("units", VStr "at.%")]) (VStr "at.%"));
    reflexivity.
Defined.

(** ** The positions of a category *)

Section Positions.

Import h5py read_hdf5.

Local Open Scope list_scope.

Variable position_of : pyval -> res float.
Variable sorted_set : list (float * float) -> list (float * float).
Variable coord_text : float -> string.

Lemma get_in_nodup (k : string) (n : node) (m : members) :
  NoDup (keys m) -> In (k, n) m -> get k m = Some n.
Proof.
  unfold keys. induction m as [|[k' x] m IH]; intros ND Hin; [contradiction|].
  cbn [map fst] in ND. inversion ND as [|? ? Hk ND']; subst.
  cbn [get]. destruct Hin as [E | Hin].
  - injection E as -> ->. now rewrite String.eqb_refl.
  - destruct (String.eqb_spec k k') as [->|_]; [|now apply IH].
    elim Hk. change k' with (fst (k', n)). now apply in_map.
Qed.

Lemma open_scan_instrument (root : members) (group name : string) (scans : members)
    (a : dict) (n : node) :
  valid_name group = true -> valid_name name = true ->
  get group root = Some (Group scans a) ->
  get name scans = Some n ->
  open_path root (("./" ++ group) ++ "/" ++ name ++ "/instrument")
  = walk ["instrument"] n.
Proof.
  intros Vg Vn Hg Hn.
  apply valid_name_spec in Vg as (G1 & G2 & G3).
  apply valid_name_spec in Vn as (N1 & N2 & N3).
  unfold open_path.
  assert (E : ((("./" ++ group) ++ "/" ++ name ++ "/instrument")%string
               = join "/" ["."; group; name; "instrument"])).
  { reflexivity. }
  rewrite E, split_join by (repeat constructor; assumption).
  cbn [walk String.eqb Ascii.eqb Bool.eqb orb]. rewrite G2, G3. cbn [orb].
  unfold getitem at 1. rewrite Hg. cbn [of_option bind]. rewrite N2, N3. cbn [orb].
  unfold getitem at 1. rewrite Hn. reflexivity.
Qed.

(** The positions of a category are read from its scan groups one by one,
    in order, the groups named "scan_parameters" and "alignment_scans" being
    passed over without being opened; a scan that cannot be read fails the
    whole call. *)
Theorem get_all_positions_scans (hdf5_file : members) (data_type group : string)
    (scans : members) (a : dict) :
  make_group_path coord_text hdf5_file data_type None = Ok ("./" ++ group)%string ->
  valid_name group = true ->
  get group hdf5_file = Some (Group scans a) ->
  NoDup (keys scans) ->
  forallb valid_name (keys scans) = true ->
  get_all_positions position_of sorted_set coord_text hdf5_file data_type
  = (positions <- mapM (fun entry => scan_position position_of (snd entry))
                    (filter is_scan scans) ;;
     Ok (sorted_set positions)).
Proof.
  intros Hp Vg Hg ND Vs. unfold get_all_positions. rewrite Hp. cbn [bind].
  rewrite (open_path_start _ _ Vg). unfold getitem. rewrite Hg.
  cbn [of_option bind members_of].
  assert (L : forall l acc,
             (forall e, In e l -> In e scans) ->
             foldM (fun (entry : string * node) (positions : list (float * float)) =>
                      let group0 := fst entry in
                      if in_list group0 ["scan_parameters"; "alignment_scans"]
                      then Ok positions
                      else
                        instrument <- open_path hdf5_file
                                        (("./" ++ group) ++ "/" ++ group0 ++ "/instrument") ;;
                        x_pos <- child "x_pos" instrument ;;
                        x_val <- value_of x_pos ;;
                        x <- position_of x_val ;;
                        y_pos <- child "y_pos" instrument ;;
                        y_val <- value_of y_pos ;;
                        y <- position_of y_val ;;
                        Ok (positions ++ [(x, y)])) l acc
             = (positions <- mapM (fun entry => scan_position position_of (snd entry))
                               (filter is_scan l) ;;
                Ok (acc ++ positions))).
  { induction l as [|[name n] l IH]; intros acc Sub.
    - cbn. now rewrite app_nil_r.
    - cbn [foldM filter fst]. unfold is_scan at 1. cbn [fst].
      assert (Hin : In (name, n) scans) by (apply Sub; now left).
      assert (Sub' : forall e, In e l -> In e scans) by (intros e He; apply Sub; now right).
      destruct (in_list name ["scan_parameters"; "alignment_scans"]); cbn [negb bind].
      + now apply IH.
      + rewrite (open_scan_instrument hdf5_file group name scans a n); try assumption.
        * cbn [mapM snd]. unfold scan_position at 1.
          destruct (walk ["instrument"] n) as [ins|]; cbn [bind]; [|reflexivity].
          destruct (child "x_pos" ins) as [xp|]; cbn [bind]; [|reflexivity].
          destruct (value_of xp) as [xv|]; cbn [bind]; [|reflexivity].
          destruct (position_of xv) as [x|]; cbn [bind]; [|reflexivity].
          destruct (child "y_pos" ins) as [yp|]; cbn [bind]; [|reflexivity].
          destruct (value_of yp) as [yv|]; cbn [bind]; [|reflexivity].
          destruct (position_of yv) as [y|]; cbn [bind]; [|reflexivity].
          rewrite (IH _ Sub').
          destruct (mapM (fun entry => scan_position position_of (snd entry))
                      (filter is_scan l)); cbn [bind]; [|reflexivity].
          now rewrite <- app_assoc.
        * rewrite forallb_forall in Vs. apply Vs.
          change name with (fst (name, n)). unfold keys. now apply in_map.
        * now apply get_in_nodup. }
  pose proof (L scans [] (fun e He => He)) as LL.
  match goal with
  | |- bind ?c _ = _ =>
      replace c with (positions <- mapM (fun entry => scan_position position_of (snd entry))
                                    (filter is_scan scans) ;;
                      Ok ([] ++ positions))
        by (symmetry; exact LL)
  end.
  destruct (mapM (fun entry => scan_position position_of (snd entry)) (filter is_scan scans));
    reflexivity.
Qed.

End Positions.

Lemma get_all_positions_scans_witness :
  read_hdf5.get_all_positions
    (fun v => match v with VFloat f => Ok f | _ => Raise TypeError end) (fun l => l)
    (fun _ => "")
    [("composition",
      h5py.Group (("scan_parameters", h5py.Group [] []) :: edx_scans_sample)
        [("HT_type", VStr "edx")])]
    "EDX"
  = Ok [(0%float, 0%float); (5%float, 5%float)].
Proof.
  rewrite (get_all_positions_scans
             (fun v => match v with VFloat f => Ok f | _ => Raise TypeError end)
             (fun l => l) (fun _ => "") _ "EDX" "composition"
             (("scan_parameters", h5py.Group [] []) :: edx_scans_sample)
             [("HT_type", VStr "edx")]).
  - reflexivity.
  - reflexivity.
  - reflexivity.
  - reflexivity.
  - cbn. repeat constructor; cbn; intuition discriminate.
  - reflexivity.
Defined.
